(** * XAUUSD real-time market analysis system: a shallow embedding

    The development follows the Python sources:
    - [technical_analysis.py] (class [TechnicalAnalyzer]): RSI, moving
      averages, level clustering, support / resistance detection, pivot
      points, the timeframe analysis and the volume profile;
    - [data_fetcher.py] (classes [TwelveDataFetcher], [FREDFetcher],
      [ForexFactoryFetcher], [MarketDataAggregator]): the HTTP fetchers,
      the FRED readings, the sample calendar, the TTL cache wrapper and the
      fetch groups;
    - [market_analysis.py] (class [MarketAnalysisEngine]): sessions,
      correlation analysis, the primary-driver classification, momentum,
      alerts and the snapshot;
    - [config.py]: the constants.

    Conventions.  Python floats are rationals ([Q]).  Where a result
    depends on rounding (the level clustering, the moving average, the
    pivot points and the yield-curve spread), every float operation is
    followed by [Py.round], the rounding to the nearest binary64 value,
    ties to even; overflow and subnormal numbers are not modelled, prices
    being far from both.  Elsewhere the arithmetic is exact and the
    numbers of a reading are the floats the fields convert to.  Python
    exceptions are explicit: a function that can
    raise returns a [Py.result].  Code with effects (HTTP requests, sleeps,
    the cache dictionaries) is written in a state monad over the part of the
    world it touches.  Part I holds the definitions, Parts II and III the
    theorems. *)

From Stdlib Require Import QArith Qabs Qround Qpower Lqa ZArith List Sorted Permutation Lia.
From stdpp Require Import gmap strings list.

(** * Part I: the model *)

(** ** Python runtime *)

Module Py.

Local Open Scope Q_scope.

Inductive exn : Type :=
| ZeroDivisionError
| ValueError
| IndexError
| HTTPError
| TypeError
| ConnectionError
| KeyError
| AttributeError.

Inductive result (A : Type) : Type :=
| Ok (a : A)
| Raise (e : exn).
Arguments Ok {A} a.
Arguments Raise {A} e.

Definition bind {A B} (r : result A) (k : A -> result B) : result B :=
  match r with
  | Ok a => k a
  | Raise e => Raise e
  end.

(** [a / b] on numbers: division by zero raises. *)
Definition div (a b : Q) : result Q :=
  if Qeq_bool b 0 then Raise ZeroDivisionError else Ok (a / b).

(** [max(a, b)] of two arguments: the first one unless the second is
    strictly larger. *)
Definition max2 (a b : Q) : Q :=
  if Qlt_le_dec a b then b else a.

Definition gtb (a b : Q) : bool := negb (Qle_bool a b).
Definition ltb (a b : Q) : bool := negb (Qle_bool b a).

(** [sum(l)]: left fold starting from 0. *)
Definition sum (l : list Q) : Q := fold_left Qplus l 0.

(** [l[k:]] for a signed index [k]: a negative index counts from the end,
    and both ends are clamped. *)
Definition slice_from {A} (k : Z) (l : list A) : list A :=
  let n := Z.of_nat (length l) in
  let start := if (k <? 0)%Z then Z.max (n + k) 0 else Z.min k n in
  drop (Z.to_nat start) l.

(** [l[:n]] for a non-negative literal [n]. *)
Definition slice_to {A} (n : nat) (l : list A) : list A := take n l.

(** [sorted(l)] and [sorted(l, reverse=True)]: a stable sort, written as
    insertion of each element in front of the first element it does not
    follow. *)
Fixpoint insert_by {A} (leb : A -> A -> bool) (x : A) (l : list A) : list A :=
  match l with
  | [] => [x]
  | y :: l' => if leb x y then x :: y :: l' else y :: insert_by leb x l'
  end.

Fixpoint sort_by {A} (leb : A -> A -> bool) (l : list A) : list A :=
  match l with
  | [] => []
  | x :: l' => insert_by leb x (sort_by leb l')
  end.

Definition sorted (l : list Q) : list Q := sort_by Qle_bool l.
Definition sorted_reverse (l : list Q) : list Q :=
  sort_by (fun a b => Qle_bool b a) l.

(** [max(l)] and [min(l)] of a list: [ValueError] on the empty list, the
    first extremal element otherwise. *)
Definition max_list (l : list Q) : result Q :=
  match l with
  | [] => Raise ValueError
  | x :: l' => Ok (fold_left max2 l' x)
  end.

Definition min2 (a b : Q) : Q :=
  if Qlt_le_dec b a then b else a.

Definition min_list (l : list Q) : result Q :=
  match l with
  | [] => Raise ValueError
  | x :: l' => Ok (fold_left min2 l' x)
  end.

(** Binary64 arithmetic.  A float is a rational [m * 2^e] with
    [|m| <= 2^53]; [round] is rounding to the nearest float, ties to the
    even significand.  The exponent range (overflow to infinity,
    subnormals) is not modelled. *)
Definition pow2 (e : Z) : Q := 2 ^ e.

(** [floor(log2 x)] of a positive rational. *)
Definition ilog2 (x : Q) : Z :=
  let k := (Z.log2 (Qnum x) - Z.log2 (Z.pos (Qden x)))%Z in
  if Qle_bool (pow2 k) x then k else (k - 1)%Z.

Definition round_half_even (y : Q) : Z :=
  let f := Qfloor y in
  match Qcompare (y - inject_Z f) (1 # 2) with
  | Lt => f
  | Gt => (f + 1)%Z
  | Eq => if Z.even f then f else (f + 1)%Z
  end.

Definition round_pos (x : Q) : Q :=
  let e := (ilog2 x - 52)%Z in
  inject_Z (round_half_even (x / pow2 e)) * pow2 e.

Definition round (x : Q) : Q :=
  match Qcompare x 0 with
  | Eq => 0
  | Gt => Qred (round_pos x)
  | Lt => Qred (- round_pos (- x))
  end.

(** The unit roundoff [2^-53] and the test of being a float. *)
Definition unit_roundoff : Q := pow2 (-53).

Definition is_float (x : Q) : bool := Qeq_bool (round x) x.

(** [a + b], [a - b], [a * b] on floats, [a / b] by a non-zero literal,
    and [a / b] in general. *)
Definition fadd (a b : Q) : Q := round (a + b).
Definition fsub (a b : Q) : Q := round (a - b).
Definition fmul (a b : Q) : Q := round (a * b).
Definition fquot (a b : Q) : Q := round (a / b).

Definition float_div (a b : Q) : result Q :=
  if Qeq_bool b 0 then Raise ZeroDivisionError else Ok (round (a / b)).

(** [sum(l)] on floats: the additions from left to right, each rounded
    (the built-in [sum] of CPython up to 3.11). *)
Definition float_sum (l : list Q) : Q := fold_left fadd l 0.

(** A loop whose body can raise. *)
Fixpoint foldM {A B} (f : A -> B -> result A) (a : A) (l : list B) : result A :=
  match l with
  | [] => Ok a
  | b :: l' => bind (f a b) (fun a' => foldM f a' l')
  end.

End Py.

Notation "'let!' x ':=' c1 'in' c2" := (Py.bind c1 (fun x => c2))
  (at level 10, x name, c1 at level 100, c2 at level 200).

(** ** [config.py] *)

Module config.

Definition SYMBOL : string := "XAU/USD".
Definition TIMEFRAMES : list string := ["15min"; "1h"; "4h"].

(** [CORRELATION_SYMBOLS]: display name -> provider symbol, in the order of
    the dict literal. *)
Definition CORRELATION_SYMBOLS : list (string * string) :=
  [("EUR/USD", "EUR/USD"); ("USD/JPY", "USD/JPY");
   ("GBP/USD", "GBP/USD"); ("BTC/USD", "BTC/USD")].

Definition RSI_PERIOD : Z := 14.
Definition RSI_OVERBOUGHT : Q := 70.
Definition RSI_OVERSOLD : Q := 30.

(** [CACHE_TTL], in seconds. *)
Definition CACHE_TTL_PRICE_DATA : Q := 300.
Definition CACHE_TTL_QUOTE : Q := 30.
Definition CACHE_TTL_NEWS : Q := 3600.
Definition CACHE_TTL_CORRELATION : Q := 60.

(** Further constants of [config.py]. *)
Definition MA_PERIODS : list Z := [50; 200]%Z.
Definition ALERT_PROXIMITY_PERCENT : Q := 0.2.
Definition VOLUME_LOOKBACK_DAYS : Z := 20.
Definition HIGH_VOLUME_THRESHOLD : Q := 1.5.
Definition YIELD_ALERT_BPS : Q := 5.

(** [SESSIONS]: name, start and end as "HH:MM" strings, in the order of
    the dict literal. *)
Definition SESSIONS : list (string * (string * string)) :=
  [("ASIAN", ("00:00", "09:00"));
   ("LONDON", ("08:00", "17:00"));
   ("NY", ("13:00", "22:00"))].

End config.

(** ** [technical_analysis.py]: class [TechnicalAnalyzer] *)

Module TechnicalAnalyzer.

Local Open Scope Q_scope.

Record Candle : Type := mkCandle {
  datetime : Z;
  open : Q;
  high : Q;
  low : Q;
  close : Q;
  volume : Q
}.

(** The loop of [calculate_rsi] over [range(1, len(closes))]: one gain and
    one loss per pair of consecutive closes. *)
Fixpoint gains (closes : list Q) : list Q :=
  match closes with
  | prev :: (cur :: _) as rest => Py.max2 (cur - prev) 0 :: gains rest
  | _ => []
  end.

Fixpoint losses (closes : list Q) : list Q :=
  match closes with
  | prev :: (cur :: _) as rest => Py.max2 (- (cur - prev)) 0 :: losses rest
  | _ => []
  end.

(** [calculate_rsi(data, period)]; [Ok None] is Python's [None]. *)
Definition calculate_rsi (data : list Candle) (period : Z) : Py.result (option Q) :=
  if (Z.of_nat (length data) <? period + 1)%Z then Py.Ok None else
  let closes := map close data in
  let gs := gains closes in
  let ls := losses closes in
  if (Z.of_nat (length gs) <? period)%Z then Py.Ok None else
  let! avg_gain := Py.div (Py.sum (Py.slice_from (- period) gs)) (inject_Z period) in
  let! avg_loss := Py.div (Py.sum (Py.slice_from (- period) ls)) (inject_Z period) in
  if Qeq_bool avg_loss 0 then Py.Ok (Some 100) else
  let! rs := Py.div avg_gain avg_loss in
  let! q := Py.div 100 (1 + rs) in
  Py.Ok (Some (100 - q)).

(** The value computed by the last lines of [calculate_rsi] from the two
    averages, when no division raises. *)
Definition rsi_value (avg_gain avg_loss : Q) : Q :=
  if Qeq_bool avg_loss 0 then 100
  else 100 - 100 / (1 + avg_gain / avg_loss).

(** The RSI statement, for one candle list and one period: null below
    [period + 1] candles; exactly 100 on strictly increasing closes and
    exactly 0 on strictly decreasing closes when there are at least
    [period + 1] candles; every non-null result within [0, 100]. *)
Definition rsi_claim (data : list Candle) (period : Z) : Prop :=
  ((Z.of_nat (length data) < period + 1)%Z ->
     calculate_rsi data period = Py.Ok None)
  /\ ((period + 1 <= Z.of_nat (length data))%Z ->
      Sorted Qlt (map close data) ->
      calculate_rsi data period = Py.Ok (Some 100))
  /\ ((period + 1 <= Z.of_nat (length data))%Z ->
      Sorted (fun a b => b < a) (map close data) ->
      exists r, calculate_rsi data period = Py.Ok (Some r) /\ r == 0)
  /\ (forall r, calculate_rsi data period = Py.Ok (Some r) -> 0 <= r <= 100).

(** [get_rsi_status]. *)
Definition get_rsi_status (rsi_value : option Q) : string :=
  match rsi_value with
  | None => "N/A"
  | Some v =>
      if Py.gtb v config.RSI_OVERBOUGHT then "Overbought"
      else if Py.ltb v config.RSI_OVERSOLD then "Oversold"
      else "Neutral"
  end.

(** One iteration of the loop of [_cluster_levels]: [clustered[-1]] is the
    last element of the list built so far. *)
Definition cluster_step (threshold : Q) (clustered : list Q) (level : Q)
  : Py.result (list Q) :=
  match last clustered with
  | None => Py.Raise Py.IndexError
  | Some c =>
      let! r := Py.float_div (Qabs (Py.fsub level c)) c in
      if Py.gtb r threshold then Py.Ok (clustered ++ [level]) else Py.Ok clustered
  end.

Definition _cluster_levels (levels : list Q) (threshold : Q) : Py.result (list Q) :=
  match levels with
  | [] => Py.Ok []
  | _ :: _ =>
      match Py.sorted levels with
      | [] => Py.Ok []
      | first :: rest => Py.foldM (cluster_step threshold) [first] rest
      end
  end.

(** The default [threshold=0.001]: the float written [0.001]. *)
Definition default_threshold : Q := Py.round 0.001.

(** The peak scan of [identify_support_resistance] over
    [range(2, len(xs) - 2)]; [beats a b] is [a > b] for resistance and
    [a < b] for support. *)
Definition peak_at (beats : Q -> Q -> bool) (xs : list Q) (i : nat) : list Q :=
  let x k := nth k xs 0 in
  if beats (x i) (x (i - 1)%nat) && beats (x i) (x (i - 2)%nat)
     && beats (x i) (x (i + 1)%nat) && beats (x i) (x (i + 2)%nat)
  then [x i] else [].

Definition peaks (beats : Q -> Q -> bool) (xs : list Q) : list Q :=
  flat_map (peak_at beats xs) (seq 2 (length xs - 4)).

Record Levels : Type := mkLevels {
  resistance : list Q;
  support : list Q
}.

Definition identify_support_resistance (data : list Candle) (lookback : Z)
  : Py.result Levels :=
  if (Z.of_nat (length data) <? 5)%Z then Py.Ok (mkLevels [] []) else
  let lookback := Z.min lookback (Z.of_nat (length data)) in
  let recent_data := Py.slice_from (- lookback) data in
  let highs := map high recent_data in
  let lows := map low recent_data in
  let! hi := Py.max_list highs in
  let! lo := Py.min_list lows in
  let resistance_levels := peaks Py.gtb highs ++ [hi] in
  let support_levels := peaks Py.ltb lows ++ [lo] in
  let! resistance_levels := _cluster_levels resistance_levels default_threshold in
  let! support_levels := _cluster_levels support_levels default_threshold in
  Py.Ok (mkLevels (Py.slice_to 5 (Py.sorted_reverse resistance_levels))
                  (Py.slice_to 5 (Py.sorted_reverse support_levels))).

Definition default_lookback : Z := 50.

(** The quantity tested by the loop, [abs(level - c) / c] as computed. *)
Definition relative_gap (level c : Q) : Q :=
  Py.round (Qabs (Py.fsub level c) / c).

(** The same loop of [_cluster_levels] read as a recursion on the sorted
    levels still to visit, [c] being the current [clustered[-1]]; both are
    related by [foldM_cluster_step] below. *)
Fixpoint cluster_from (threshold c : Q) (rest : list Q) : list Q :=
  match rest with
  | [] => []
  | x :: rest' =>
      if Py.gtb (relative_gap x c) threshold
      then x :: cluster_from threshold x rest'
      else cluster_from threshold c rest'
  end.

(** Consecutive members of a clustered list, starting after [c], are each
    further than the tolerance from their predecessor. *)
Fixpoint apart (threshold c : Q) (out : list Q) : Prop :=
  match out with
  | [] => True
  | x :: out' => Py.gtb (relative_gap x c) threshold = true /\ apart threshold x out'
  end.

(** What "the top 5 clusters, descending" means for the list [kept]
    retained from the clusters [clustered]: [kept] holds 5 of the clusters,
    or all of them when there are fewer, in descending order, and every
    cluster left out is no larger than any retained one. *)
Definition top5_of_clusters (clustered kept : list Q) : Prop :=
  exists dropped,
    Permutation clustered (kept ++ dropped)
    /\ length kept = Nat.min 5 (length clustered)
    /\ Sorted (fun a b => b <= a) kept
    /\ Forall (fun d => Forall (fun k => d <= k) kept) dropped.

(** The clustering statement, for one list of levels: clustering returns
    an ascending list of input levels in which no member lies within the
    tolerance of a member below it, that is, every level within the
    tolerance of its cluster's member was merged into the cluster. *)
Definition cluster_claim (levels : list Q) : Prop :=
  exists out,
    _cluster_levels levels default_threshold = Py.Ok out
    /\ Sorted Qle out
    /\ (forall m, In m out -> In m levels)
    /\ ForallOrdPairs (fun a b => default_threshold < (b - a) / a) out.

(** [calculate_moving_average(data, period)]. *)
Definition calculate_moving_average (data : list Candle) (period : Z)
  : Py.result (option Q) :=
  if (Z.of_nat (length data) <? period)%Z then Py.Ok None else
  let closes := map close (Py.slice_from (- period) data) in
  let! ma := Py.float_div (Py.float_sum closes) (inject_Z period) in
  Py.Ok (Some ma).

(** [calculate_moving_averages(data, periods)]: the dict period -> average. *)
Definition calculate_moving_averages (data : list Candle) (periods : list Z)
  : Py.result (gmap Z (option Q)) :=
  Py.foldM
    (fun mas period =>
       let! ma := calculate_moving_average data period in
       Py.Ok (<[period := ma]> mas))
    ∅ periods.

(** The result of [find_nearest_levels]: each key, when present, holds the
    level and its distance in approximate pips. *)
Record NearestLevels : Type := mkNearestLevels {
  near_resistance : option (Q * Q);
  near_support : option (Q * Q)
}.

(** [min(l) if l else None] and [max(l) if l else None]. *)
Definition min_or_none (l : list Q) : option Q :=
  match l with
  | [] => None
  | x :: l' => Some (fold_left Py.min2 l' x)
  end.

Definition max_or_none (l : list Q) : option Q :=
  match l with
  | [] => None
  | x :: l' => Some (fold_left Py.max2 l' x)
  end.

(** [if x:] on an optional number: [None] and zero are false. *)
Definition number_truthy (x : option Q) : bool :=
  match x with
  | Some q => negb (Qeq_bool q 0)
  | None => false
  end.

Definition find_nearest_levels (current_price : Q) (levels : Levels)
  : NearestLevels :=
  let resistance_levels :=
    List.filter (fun r => Py.gtb r current_price) (resistance levels) in
  let support_levels :=
    List.filter (fun s => Py.ltb s current_price) (support levels) in
  let nearest_resistance := min_or_none resistance_levels in
  let nearest_support := max_or_none support_levels in
  mkNearestLevels
    (match nearest_resistance with
     | Some r => if number_truthy nearest_resistance
                 then Some (r, (r - current_price) * 10) else None
     | None => None
     end)
    (match nearest_support with
     | Some s => if number_truthy nearest_support
                 then Some (s, (current_price - s) * 10) else None
     | None => None
     end).

Record PivotPoints : Type := mkPivotPoints {
  pivot : Q;
  r1 : Q;
  r2 : Q;
  r3 : Q;
  s1 : Q;
  s2 : Q;
  s3 : Q
}.

(** [calculate_pivot_points(data)]; [None] is the empty dict. *)
Definition calculate_pivot_points (data : list Candle) : option PivotPoints :=
  if (Z.of_nat (length data) <? 2)%Z then None else
  match data !! (length data - 2)%nat with
  | None => None
  | Some prev_day =>
      let high := high prev_day in
      let low := low prev_day in
      let close := close prev_day in
      let pivot := Py.fquot (Py.fadd (Py.fadd high low) close) 3 in
      Some (mkPivotPoints pivot
              (Py.fsub (Py.fmul 2 pivot) low)
              (Py.fadd pivot (Py.fsub high low))
              (Py.fadd high (Py.fmul 2 (Py.fsub pivot low)))
              (Py.fsub (Py.fmul 2 pivot) high)
              (Py.fsub pivot (Py.fsub high low))
              (Py.fsub low (Py.fmul 2 (Py.fsub high pivot))))
  end.

(** The computed averages of a [mas] dict: its values other than [None]. *)
Definition ma_values (mas : gmap Z (option Q)) : list Q :=
  omap snd (map_to_list mas).

Definition get_ma_alignment (mas : gmap Z (option Q)) (current_price : Q)
  : string :=
  if bool_decide (mas = ∅) then "Neutral" else
  match ma_values mas with
  | [] => "Neutral"
  | values =>
      let above_all := forallb (fun ma => Py.gtb current_price ma) values in
      let below_all := forallb (fun ma => Py.ltb current_price ma) values in
      if above_all then "Bullish"
      else if below_all then "Bearish"
      else "Neutral"
  end.

(** The dict returned by [analyze_timeframe] on enough data. *)
Record TimeframeAnalysis : Type := mkTimeframeAnalysis {
  ta_timeframe : string;
  ta_current_price : Q;
  ta_price_change_1h : Q;
  ta_rsi : option Q;
  ta_rsi_status : string;
  ta_mas : gmap Z (option Q);
  ta_ma_alignment : string;
  ta_support_resistance : Levels;
  ta_nearest_levels : NearestLevels;
  ta_pivot_points : option PivotPoints
}.

(** [InsufficientData] is the marker [{"error": "Insufficient data"}]. *)
Inductive TimeframeResult : Type :=
| InsufficientData
| Analyzed (a : TimeframeAnalysis).

(** [analyze_timeframe(data, timeframe)]; [data] can be [None]. *)
Definition analyze_timeframe (data : option (list Candle)) (timeframe : string)
  : Py.result TimeframeResult :=
  match data with
  | None => Py.Ok InsufficientData
  | Some data =>
      if (Z.of_nat (length data) <? 20)%Z then Py.Ok InsufficientData else
      match last data with
      | None => Py.Raise Py.IndexError
      | Some latest =>
          let current_price := close latest in
          let! rsi := calculate_rsi data config.RSI_PERIOD in
          let! mas := calculate_moving_averages data config.MA_PERIODS in
          let! levels := identify_support_resistance data default_lookback in
          let pivots := calculate_pivot_points data in
          let nearest := find_nearest_levels current_price levels in
          let price_1h_ago :=
            if (5 <=? Z.of_nat (length data))%Z
            then match data !! (length data - 5)%nat with
                 | Some c => close c
                 | None => current_price
                 end
            else current_price in
          let! change := Py.div (current_price - price_1h_ago) price_1h_ago in
          Py.Ok (Analyzed
            (mkTimeframeAnalysis timeframe current_price (change * 100)
               rsi (get_rsi_status rsi) mas (get_ma_alignment mas current_price)
               levels nearest pivots))
      end
  end.

Record VolumeProfile : Type := mkVolumeProfile {
  current_volume : Q;
  average_volume : Q;
  volume_ratio : Q;
  is_high_volume : bool
}.

(** [calculate_volume_profile(data)]; [Ok None] is the error marker. *)
Definition calculate_volume_profile (data : option (list Candle))
  : Py.result (option VolumeProfile) :=
  match data with
  | None => Py.Ok None
  | Some data =>
      if (Z.of_nat (length data) <? config.VOLUME_LOOKBACK_DAYS)%Z
      then Py.Ok None else
      let recent_data := Py.slice_from (- config.VOLUME_LOOKBACK_DAYS) data in
      let volumes := map volume recent_data in
      let! avg_volume :=
        Py.div (Py.sum volumes) (inject_Z (Z.of_nat (length volumes))) in
      match last data with
      | None => Py.Raise Py.IndexError
      | Some latest =>
          let current_volume := volume latest in
          let! volume_ratio :=
            if Py.gtb avg_volume 0 then Py.div current_volume avg_volume
            else Py.Ok 1 in
          Py.Ok (Some (mkVolumeProfile current_volume avg_volume volume_ratio
                         (Py.gtb volume_ratio config.HIGH_VOLUME_THRESHOLD)))
      end
  end.

End TechnicalAnalyzer.

(** ** [data_fetcher.py]: class [TwelveDataFetcher] *)

Module TwelveDataFetcher.

Import TechnicalAnalyzer.
Local Open Scope Q_scope.

(** What the conversion of one item of ["values"] does: it builds a candle,
    whose datetime carries a UTC offset ([aware]) or none, or it raises:
    [KeyError] on a missing field, [ValueError] on text that is no number
    or no ISO date, [TypeError] or [AttributeError] on an item or a field
    of another type. *)
Inductive Item : Type :=
| Converts (aware : bool) (c : Candle)
| Fails (e : Py.exn).

(** A decoded response body.  [JError] carries ["status": "error"];
    [JSeries] has a ["values"] list; [JObject] is any other object (a
    quote, a batch of quotes). *)
Inductive Json : Type :=
| JError
| JSeries (values : list Item)
| JObject (fields : list (string * Q)).

(** What [requests.get] produces: a response with a status code and a body
    ([None] when the body is not JSON), or an exception (timeout,
    connection failure). *)
Inductive Response : Type :=
| Http (status_code : Z) (body : option Json)
| NoResponse (e : Py.exn).

(** The observable actions of the fetch layer. *)
Inductive Event : Type :=
| Request (endpoint symbol : string) (interval : option string)
| Sleep (seconds : Q).

(** The world of the fetch layer: the clock read by [time.time()], the
    responses the provider will give to the next requests, and the actions
    performed so far, oldest first. *)
Record World : Type := mkWorld {
  clock : Q;
  pending : list Response;
  events : list Event
}.

(** Computations that act on the world and can raise. *)
Definition M (A : Type) : Type := World -> Py.result A * World.

Definition ret {A} (a : A) : M A := fun w => (Py.Ok a, w).

Definition raise {A} (e : Py.exn) : M A := fun w => (Py.Raise e, w).

Definition bind {A B} (m : M A) (k : A -> M B) : M B :=
  fun w =>
    match m w with
    | (Py.Ok a, w') => k a w'
    | (Py.Raise e, w') => (Py.Raise e, w')
    end.

(** [try: body except Exception: handler]. *)
Definition try_except {A} (body : M A) (handler : Py.exn -> M A) : M A :=
  fun w =>
    match body w with
    | (Py.Ok a, w') => (Py.Ok a, w')
    | (Py.Raise e, w') => handler e w'
    end.

Definition log (e : Event) (w : World) : World :=
  mkWorld (clock w) (pending w) (events w ++ [e]).

(** [time.sleep(seconds)]. *)
Definition time_sleep (seconds : Q) : M unit :=
  fun w => (Py.Ok tt, mkWorld (clock w + seconds) (pending w) (events w ++ [Sleep seconds])).

(** [requests.get(endpoint, params=..., timeout=10)]. *)
Definition requests_get (endpoint symbol : string) (interval : option string)
  : M (Z * option Json) :=
  fun w =>
    let w' := log (Request endpoint symbol interval) w in
    match pending w' with
    | [] => (Py.Raise Py.ConnectionError, w')
    | NoResponse e :: rest =>
        (Py.Raise e, mkWorld (clock w') rest (events w'))
    | Http status_code body :: rest =>
        (Py.Ok (status_code, body), mkWorld (clock w') rest (events w'))
    end.

(** [response.raise_for_status()]: 4xx and 5xx raise. *)
Definition raise_for_status (response : Z * option Json) : M unit :=
  if ((400 <=? fst response) && (fst response <? 600))%Z
  then raise Py.HTTPError else ret tt.

(** [response.json()]. *)
Definition json (response : Z * option Json) : M Json :=
  match snd response with
  | Some data => ret data
  | None => raise Py.ValueError
  end.

Definition is_error (data : Json) : bool :=
  match data with
  | JError => true
  | _ => false
  end.

(** [except (ValueError, KeyError)] of the conversion loop. *)
Definition caught (e : Py.exn) : bool :=
  match e with
  | Py.ValueError | Py.KeyError => true
  | _ => false
  end.

(** The conversion loop of [get_price_data]: an item that raises
    [ValueError] or [KeyError] is skipped, any other exception leaves the
    loop. *)
Fixpoint convert_items (values : list Item) : Py.result (list (bool * Candle)) :=
  match values with
  | [] => Py.Ok []
  | Converts aware c :: rest =>
      let! price_data := convert_items rest in
      Py.Ok ((aware, c) :: price_data)
  | Fails e :: rest =>
      if caught e then convert_items rest else Py.Raise e
  end.

(** The entry the loop appends for an item that converts. *)
Definition converted (i : Item) : option (bool * Candle) :=
  match i with
  | Converts aware c => Some (aware, c)
  | Fails _ => None
  end.

(** Offset-aware and naive datetimes do not compare: sorting a list that
    holds both raises [TypeError]. *)
Definition mixed_awareness (price_data : list (bool * Candle)) : bool :=
  existsb fst price_data && existsb (fun x => negb (fst x)) price_data.

(** The conversion loop, then [price_data.sort(key=datetime)]. *)
Definition convert_values (values : list Item) : Py.result (list Candle) :=
  let! price_data := convert_items values in
  if mixed_awareness price_data then Py.Raise Py.TypeError
  else Py.Ok (Py.sort_by (fun a b => (datetime a <=? datetime b)%Z)
                (map snd price_data)).

(** A computation that does not touch the world. *)
Definition lift {A} (r : Py.result A) : M A := fun w => (r, w).

Definition get_price_data (symbol interval : string) (outputsize : Z)
  : M (option (list Candle)) :=
  try_except
    (bind (requests_get "/time_series" symbol (Some interval)) (fun response =>
     bind (raise_for_status response) (fun _ =>
     bind (json response) (fun data =>
     if is_error data then ret None else
     match data with
     | JSeries values =>
         bind (lift (convert_values values)) (fun price_data =>
         ret (Some price_data))
     | _ => ret None
     end))))
    (fun _ => ret None).

(** The cooldown of [get_quote] after a 429. *)
Definition cooldown : Q := 61.

Definition get_quote (symbol : string) : M (option Json) :=
  try_except
    (bind (requests_get "/quote" symbol None) (fun response =>
     bind (if (fst response =? 429)%Z
           then bind (time_sleep cooldown) (fun _ =>
                requests_get "/quote" symbol None)
           else ret response) (fun response =>
     bind (raise_for_status response) (fun _ =>
     bind (json response) (fun data =>
     if is_error data then ret None else ret (Some data))))))
    (fun _ => ret None).

(** What [get_quote] makes of the response it ends up with. *)
Definition quote_of_response (r : Response) : option Json :=
  match r with
  | Http status_code (Some data) =>
      if ((400 <=? status_code) && (status_code <? 600))%Z then None
      else if is_error data then None else Some data
  | _ => None
  end.

(** The number of requests among some events. *)
Definition is_request (e : Event) : bool :=
  match e with
  | Request _ _ _ => true
  | Sleep _ => false
  end.

Definition requests_in (evs : list Event) : nat :=
  length (List.filter is_request evs).

(** A bound on what separates two worlds: only events were added, with at
    most [n] requests among them, and the clock advanced by at most [d]
    seconds. *)
Definition within_budget (n : nat) (d : Q) (w w' : World) : Prop :=
  exists added,
    events w' = events w ++ added
    /\ (requests_in added <= n)%nat
    /\ clock w <= clock w' <= clock w + d.

End TwelveDataFetcher.

(** ** [data_fetcher.py]: class [FREDFetcher] *)

Module FREDFetcher.

Local Open Scope Q_scope.

(** The ["value"] of an observation: FRED writes ["."] for a missing
    value ([Dot]); any other text goes through [float()], which fails on
    text that is not a number ([NotANumber]). *)
Inductive ObsValue : Type :=
| Dot
| Number (x : Q)
| NotANumber.

Record Observation : Type := mkObservation {
  date : string;
  value : ObsValue
}.

(** [float(obs["value"])]. *)
Definition float_value (v : ObsValue) : Py.result Q :=
  match v with
  | Number x => Py.Ok x
  | _ => Py.Raise Py.ValueError
  end.

(** [float(obs["value"]) if obs["value"] != "." else None]. *)
Definition value_or_none (v : ObsValue) : Py.result (option Q) :=
  match v with
  | Dot => Py.Ok None
  | _ => let! x := float_value v in Py.Ok (Some x)
  end.

(** The dict returned by [get_series_latest]. *)
Record SeriesLatest : Type := mkSeriesLatest {
  series_id : string;
  price : option Q;
  close : option Q;
  latest_date : string;
  change : Q;
  percent_change : Q;
  previous_value : option Q
}.

(** [get_series_latest(series_id)].  [response] stands for the outcome of
    [requests.get(...)], [raise_for_status()] and [response.json()]: an
    exception, or the ["observations"] entry of the decoded body ([None]
    when the key is absent). *)
Definition get_series_latest (series_id : string)
  (response : Py.result (option (list Observation))) : option SeriesLatest :=
  let body :=
    let! data := response in
    match data with
    | Some (latest :: rest) =>
        let! latest_value := value_or_none (value latest) in
        let! previous_value :=
          match rest with
          | prev :: _ => value_or_none (value prev)
          | [] => Py.Ok None
          end in
        let change_pair :=
          match latest_value, previous_value with
          | Some l, Some p =>
              (l - p, if Qeq_bool p 0 then 0 else ((l - p) / p) * 100)
          | _, _ => (0, 0)
          end in
        Py.Ok (Some (mkSeriesLatest series_id latest_value latest_value
                       (date latest) (fst change_pair) (snd change_pair)
                       previous_value))
    | _ => Py.Ok None
    end in
  match body with
  | Py.Ok r => r
  | Py.Raise _ => None
  end.

(** The returned dict as the correlation analysis reads it: its numeric
    entries by key. *)
Definition as_reading (s : SeriesLatest) : gmap string (option Q) :=
  <["price" := price s]>
  (<["close" := close s]>
  (<["change" := Some (change s)]>
  (<["percent_change" := Some (percent_change s)]>
  (<["previous_value" := previous_value s]> ∅)))).

(** [get_series_history(series_id, limit)]: the non-missing observations
    in reversed order; the empty list on any failure. *)
Definition get_series_history (series_id : string) (limit : Z)
  (response : Py.result (option (list Observation))) : list (string * Q) :=
  let body :=
    let! data := response in
    match data with
    | Some observations =>
        Py.foldM
          (fun history obs =>
             match value obs with
             | Dot => Py.Ok history
             | v => let! x := float_value v in
                    Py.Ok (history ++ [(date obs, x)])
             end)
          [] (rev observations)
    | None => Py.Ok []
    end in
  match body with
  | Py.Ok history => history
  | Py.Raise _ => []
  end.

(** The charted point of an observation that carries a number. *)
Definition history_entry (o : Observation) : option (string * Q) :=
  match value o with
  | Number x => Some (date o, x)
  | _ => None
  end.

End FREDFetcher.

(** ** [data_fetcher.py]: class [ForexFactoryFetcher] *)

Module ForexFactoryFetcher.

Local Open Scope Q_scope.

(** An event; [time] in seconds since the epoch. *)
Record Event : Type := mkEvent {
  title : string;
  description : string;
  impact : string;
  time : Q;
  currency : string
}.

Definition at_time (e : Event) (t : Q) : Event :=
  mkEvent (title e) (description e) (impact e) t (currency e).

(** [timedelta(hours=h, minutes=m)] in seconds. *)
Definition timedelta (h m : Z) : Q := inject_Z (h * 3600 + m * 60).

Definition sample_events (now : Q) : list Event :=
  [ mkEvent "US Non-Farm Payrolls (NFP)"
            "Monthly employment report - High impact on USD"
            "High" (now + timedelta 3 30) "USD";
    mkEvent "US Consumer Price Index (CPI)"
            "Inflation data - High impact on USD and gold"
            "High" (now + timedelta 8 15) "USD";
    mkEvent "FOMC Meeting Minutes"
            "Federal Reserve policy meeting - High impact"
            "High" (now + timedelta 14 0) "USD";
    mkEvent "US Retail Sales"
            "Consumer spending data - High impact"
            "High" (now + timedelta 20 30) "USD" ].

(** [sorted(events, key=lambda x: x["time"])]. *)
Definition sorted_by_time (events : list Event) : list Event :=
  Py.sort_by (fun a b => Qle_bool (time a) (time b)) events.

(** [_generate_sample_events(hours_ahead)]; [now] is
    [datetime.now(pytz.UTC)]. *)
Definition _generate_sample_events (now : Q) (hours_ahead : Z) : list Event :=
  let sample := sample_events now in
  let cutoff := now + timedelta hours_ahead 0 in
  let upcoming_events :=
    List.filter (fun e => Qle_bool now (time e) && Qle_bool (time e) cutoff)
                sample in
  let upcoming_events :=
    match upcoming_events, sample with
    | [], first :: _ =>
        [at_time first (now + timedelta (Z.min 2 (hours_ahead - 1)) 0)]
    | _, _ => upcoming_events
    end in
  sorted_by_time upcoming_events.

(** [get_upcoming_events(hours_ahead)]; [scraped] and [rss] stand for the
    outcomes of [_scrape_calendar_page] and [_parse_rss_feed]. *)
Definition get_upcoming_events (now : Q) (hours_ahead : Z)
  (scraped rss : Py.result (list Event)) : list Event :=
  let body :=
    let! events := scraped in
    match events with
    | _ :: _ => Py.Ok events
    | [] =>
        let! events := rss in
        match events with
        | _ :: _ => Py.Ok events
        | [] => Py.Ok (_generate_sample_events now hours_ahead)
        end
    end in
  match body with
  | Py.Ok events => events
  | Py.Raise _ => _generate_sample_events now hours_ahead
  end.

End ForexFactoryFetcher.

(** ** [data_fetcher.py]: class [MarketDataAggregator] *)

Module MarketDataAggregator.

Import TechnicalAnalyzer.
Local Open Scope Q_scope.

(** [self.cache] and [self.cache_timestamps]. *)
Record Cache (V : Type) : Type := mkCache {
  cache : gmap string V;
  cache_timestamps : gmap string Q
}.
Arguments mkCache {V} _ _.
Arguments cache {V} _.
Arguments cache_timestamps {V} _.

(** A fetch function acts on a world of type [W]; it returns a value,
    returns [None], or raises. *)
Definition fetch_func (W V : Type) : Type := W -> Py.result (option V) * W.

(** [_get_cached_data(key, ttl, fetch_func, ...)]; [now] is the reading of
    [time.time()] on entry.  The result is the returned object ([None] for
    Python's [None]), the cache afterwards and the world afterwards. *)
Definition _get_cached_data {V W} (self : Cache V) (now : Q)
  (key : string) (ttl : Q) (fetch : fetch_func W V) (w : W)
  : option V * Cache V * W :=
  let refetch :=
    match fetch w with
    | (Py.Ok (Some data), w') =>
        (Some data,
         mkCache (<[key := data]> (cache self))
                 (<[key := now]> (cache_timestamps self)),
         w')
    | (Py.Ok None, w') => (cache self !! key, self, w')
    | (Py.Raise _, w') => (cache self !! key, self, w')
    end in
  match cache self !! key, cache_timestamps self !! key with
  | Some v, Some fetched_at =>
      if Py.ltb (now - fetched_at) ttl then (Some v, self, w) else refetch
  | _, _ => refetch
  end.

(** A fetch function instrumented with a counter of its invocations. *)
Definition counting {V W} (fetch : fetch_func W V) : fetch_func (W * nat) V :=
  fun wn =>
    match fetch (fst wn) with
    | (r, w') => (r, (w', S (snd wn)))
    end.

(** One call of [_get_cached_data] as seen from the cache. *)
Record Call (V W : Type) : Type := mkCall {
  call_now : Q;
  call_key : string;
  call_ttl : Q;
  call_fetch : fetch_func W V;
  call_world : W
}.
Arguments mkCall {V W} _ _ _ _ _.
Arguments call_now {V W} _.
Arguments call_key {V W} _.
Arguments call_ttl {V W} _.
Arguments call_fetch {V W} _.
Arguments call_world {V W} _.

Definition run_call {V W} (self : Cache V) (c : Call V W) : Cache V :=
  snd (fst (_get_cached_data self (call_now c) (call_key c) (call_ttl c)
                             (call_fetch c) (call_world c))).

Definition run_calls {V W} (self : Cache V) (calls : list (Call V W)) : Cache V :=
  fold_left run_call calls self.

(** A call that leaves the entry of [key] fetched at [fetched_at] alone: it
    is for another key, or for this key with the same TTL while the entry
    is fresh. *)
Definition leaves_fresh {V W} (key : string) (ttl fetched_at : Q) (c : Call V W) : Prop :=
  call_key c <> key
  \/ (call_ttl c = ttl /\ call_now c - fetched_at < ttl).

(** The objects kept in the cache by the price group: the decoded body of
    a quote or a candle list. *)
Inductive Value : Type :=
| VJson (data : TwelveDataFetcher.Json)
| VCandles (price_data : list Candle).

(** Python truthiness of a cached object, as tested by [if data:]. *)
Definition truthy (data : option Value) : bool :=
  match data with
  | None => false
  | Some (VCandles []) => false
  | Some (VJson (TwelveDataFetcher.JObject [])) => false
  | Some _ => true
  end.

(** No fresh entry for [key] at time [now]: absent, or fetched at least
    [ttl] ago. *)
Definition no_fresh_entry {V} (self : Cache V) (now : Q) (key : string) (ttl : Q) : Prop :=
  forall v fetched_at,
    cache self !! key = Some v ->
    cache_timestamps self !! key = Some fetched_at ->
    ttl <= now - fetched_at.

(** A failed fetch in the words of the degrade statement: it raises, or
    returns null, or returns an empty result ([empty] says which values
    are empty). *)
Definition failed_fetch {V} (empty : V -> bool) (r : Py.result (option V)) : Prop :=
  match r with
  | Py.Raise _ => True
  | Py.Ok None => True
  | Py.Ok (Some data) => empty data = true
  end.

(** The degrade statement for one call: on a failed fetch the call returns
    the previous value of the key, null when there is none. *)
Definition degrade_claim {V W} (empty : V -> bool) (self : Cache V) (now : Q)
  (key : string) (ttl : Q) (fetch : fetch_func W V) (w : W) : Prop :=
  no_fresh_entry self now key ttl ->
  failed_fetch empty (fst (fetch w)) ->
  fst (fst (_get_cached_data self now key ttl fetch w)) = cache self !! key.

Definition fetch_quote (symbol : string) : fetch_func TwelveDataFetcher.World Value :=
  fun w =>
    match TwelveDataFetcher.get_quote symbol w with
    | (r, w') => (Py.bind r (fun o => Py.Ok (option_map VJson o)), w')
    end.

Definition fetch_price_data (symbol interval : string) (outputsize : Z)
  : fetch_func TwelveDataFetcher.World Value :=
  fun w =>
    match TwelveDataFetcher.get_price_data symbol interval outputsize w with
    | (r, w') => (Py.bind r (fun o => Py.Ok (option_map VCandles o)), w')
    end.

(** The delay of [get_xauusd_data] before a price request. *)
Definition inter_call_delay : Q := 2.

(** The body of the loop of [get_xauusd_data] for one timeframe. *)
Definition price_data_step
  (st : list (string * Value) * Cache Value * TwelveDataFetcher.World)
  (timeframe : string)
  : list (string * Value) * Cache Value * TwelveDataFetcher.World :=
  let '(price_data, self, w) := st in
  let cache_key := "price_" +:+ config.SYMBOL +:+ "_" +:+ timeframe in
  let w :=
    match cache self !! cache_key with
    | None => snd (TwelveDataFetcher.time_sleep inter_call_delay w)
    | Some _ => w
    end in
  let '(data, self, w) :=
    _get_cached_data self (TwelveDataFetcher.clock w) cache_key
      config.CACHE_TTL_PRICE_DATA
      (fetch_price_data config.SYMBOL timeframe 200) w in
  match data with
  | Some d => if truthy data
              then (price_data ++ [(timeframe, d)], self, w)
              else (price_data, self, w)
  | None => (price_data, self, w)
  end.

Record XauusdData : Type := mkXauusdData {
  quote : option Value;
  price_data : list (string * Value)
}.

Definition get_xauusd_data (self : Cache Value) (w : TwelveDataFetcher.World)
  : XauusdData * Cache Value * TwelveDataFetcher.World :=
  let '(quote, self, w) :=
    _get_cached_data self (TwelveDataFetcher.clock w)
      ("quote_" +:+ config.SYMBOL) config.CACHE_TTL_QUOTE
      (fetch_quote config.SYMBOL) w in
  let '(price_data, self, w) :=
    fold_left price_data_step config.TIMEFRAMES ([], self, w) in
  (mkXauusdData quote price_data, self, w).

(** The cache key [f"price_{config.SYMBOL}_{timeframe}"]. *)
Definition price_key (timeframe : string) : string :=
  "price_" +:+ config.SYMBOL +:+ "_" +:+ timeframe.

(** The batch request of [get_correlation_data].  The iteration order of
    a Python [set] is not specified by the language; [set_order] stands for
    [list(set(...))] and [set_iteration] is what every implementation
    guarantees of it. *)
Definition set_iteration (set_order : list string -> list string) : Prop :=
  forall l, NoDup (set_order l) /\ forall x, x ∈ set_order l <-> x ∈ l.

Definition symbols_list (set_order : list string -> list string)
  (symbols_map : list (string * string)) : list string :=
  set_order (map snd symbols_map).

Definition batch_string (set_order : list string -> list string)
  (symbols_map : list (string * string)) : string :=
  String.concat "," (symbols_list set_order symbols_map).

Definition batch_cache_key (set_order : list string -> list string)
  (symbols_map : list (string * string)) : string :=
  "quotes_batch_" +:+ batch_string set_order symbols_map.

(** The de-duplicated, sorted symbol list of the batch-key statement, and
    the statement for one symbol map. *)
Definition sorted_unique (symbols : list string) : list string :=
  Py.sort_by String.leb (remove_dups symbols).

Definition batch_key_claim (set_order : list string -> list string)
  (symbols_map : list (string * string)) : Prop :=
  batch_cache_key set_order symbols_map
  = "quotes_batch_" +:+ String.concat "," (sorted_unique (map snd symbols_map)).

End MarketDataAggregator.

(** ** [market_analysis.py]: class [MarketAnalysisEngine] *)

Module MarketAnalysisEngine.

Local Open Scope Q_scope.

(** A reading of the correlation basket is a dict from field names to
    numbers, each the float its field converts to; a field can also hold
    [None] (the FRED fetcher stores [None] for a missing observation). *)
Abbreviation Reading := (gmap string (option Q)).

(** [float(x)]. *)
Definition float (x : option Q) : Py.result Q :=
  match x with
  | Some q => Py.Ok q
  | None => Py.Raise Py.TypeError
  end.

(** [float(r.get(key, 0))]. *)
Definition get_float (r : Reading) (key : string) : Py.result Q :=
  float (default (Some 0) (r !! key)).

(** [float(r.get("price", r.get("close", 0)))]. *)
Definition get_price (r : Reading) : Py.result Q :=
  float (default (default (Some 0) (r !! "close")) (r !! "price")).

(** The glyph [▲ if x > 0 else ▼ if x < 0 else →]. *)
Definition direction_of (x : Q) : string :=
  if Py.gtb x 0 then "▲" else if Py.ltb x 0 then "▼" else "→".

Record YieldEntry : Type := mkYieldEntry {
  yield_price : Q;
  yield_change_bps : Q;
  yield_pressure : string;
  yield_direction : string
}.

Record TenorEntry : Type := mkTenorEntry {
  tenor_price : Q;
  tenor_change_bps : Q;
  tenor_direction : string
}.

Record CurveEntry : Type := mkCurveEntry {
  curve_spread : Q;
  curve_status : string
}.

Record VixEntry : Type := mkVixEntry {
  vix_price : Q;
  vix_percent_change : Q;
  vix_fear_level : string;
  vix_haven_demand : string;
  vix_direction : string
}.

Record DxyEntry : Type := mkDxyEntry {
  dxy_price : Q;
  dxy_percent_change : Q;
  dxy_pressure : string;
  dxy_direction : string;
  dxy_symbol : option string;
  dxy_source : option string
}.

Record RiskEntry : Type := mkRiskEntry {
  risk_percent_change : Q;
  risk_haven_demand : string;
  risk_direction : string;
  risk_symbol : option string
}.

Record BtcEntry : Type := mkBtcEntry {
  btc_price : Q;
  btc_percent_change : Q;
  btc_direction : string
}.

(** The [analysis] dict: a key is present iff its field is [Some]. *)
Record Analysis : Type := mkAnalysis {
  a_yield : option YieldEntry;
  a_yield_2y : option TenorEntry;
  a_yield_30y : option TenorEntry;
  a_yield_curve : option CurveEntry;
  a_vix : option VixEntry;
  a_dxy : option DxyEntry;
  a_risk : option RiskEntry;
  a_btc : option BtcEntry
}.

Definition analyze_yield (us10y : Reading) : Py.result YieldEntry :=
  let! price := get_price us10y in
  let! change := get_float us10y "change" in
  let! percent_change := get_float us10y "percent_change" in
  let bps_change := percent_change * 100 in
  let pressure :=
    if Py.gtb change 0 then "Down" else if Py.ltb change 0 then "Up" else "Neutral" in
  Py.Ok (mkYieldEntry price bps_change pressure (direction_of change)).

Definition analyze_tenor (r : Reading) : Py.result TenorEntry :=
  let! price := get_price r in
  let! change := get_float r "change" in
  let! percent_change := get_float r "percent_change" in
  let bps_change := percent_change * 100 in
  Py.Ok (mkTenorEntry price bps_change (direction_of change)).

(** [spread = price - price_2y], a float subtraction, compared with the
    float literal [-0.1]. *)
Definition analyze_curve (y : YieldEntry) (y2 : TenorEntry) : CurveEntry :=
  let spread := Py.fsub (yield_price y) (tenor_price y2) in
  mkCurveEntry spread
    (if Py.gtb spread 0 then "Normal"
     else if Py.ltb spread (Py.round (-0.1)) then "Inverted" else "Flat").

Definition analyze_vix (vix : Reading) : Py.result VixEntry :=
  let! price := get_price vix in
  let! percent_change := get_float vix "percent_change" in
  let fear_level :=
    if Py.gtb price 30 then "Extreme Fear"
    else if Py.gtb price 20 then "High Fear"
    else if Py.gtb price 15 then "Moderate" else "Low Fear" in
  let haven_demand :=
    if Py.gtb price 30 then "Very High"
    else if Py.gtb price 20 then "High"
    else if Py.gtb price 15 then "Moderate" else "Low" in
  Py.Ok (mkVixEntry price percent_change fear_level haven_demand
                    (direction_of percent_change)).

Definition pressure_strength (percent_change : Q) : string :=
  if Py.gtb (Qabs percent_change) 0.5 then "Strong" else "Weak".

(** The four branches of the dollar proxy; [direct_when_up] is true for
    EUR/USD only. *)
Definition analyze_dollar (r : Reading) (direct_when_up : bool)
  (symbol source : option string) : Py.result DxyEntry :=
  let! price := get_price r in
  let! percent_change := get_float r "percent_change" in
  let pressure :=
    if direct_when_up && Py.gtb percent_change 0
    then pressure_strength percent_change +:+ " Direct"
    else pressure_strength percent_change +:+ " Inverse" in
  Py.Ok (mkDxyEntry price percent_change pressure
                    (direction_of percent_change) symbol source).

Definition analyze_risk (r : Reading) (symbol : option string) : Py.result RiskEntry :=
  let! percent_change := get_float r "percent_change" in
  let haven_demand :=
    if Py.gtb percent_change 0.5 then "Low"
    else if Py.ltb percent_change (-0.5) then "High" else "Moderate" in
  Py.Ok (mkRiskEntry percent_change haven_demand
                     (direction_of percent_change) symbol).

Definition analyze_btc (r : Reading) : Py.result BtcEntry :=
  let! price := get_price r in
  let! percent_change := get_float r "percent_change" in
  Py.Ok (mkBtcEntry price percent_change (direction_of percent_change)).

(** [if key in correlation_data: ...] around a section that can raise. *)
Definition when_present {A B} (o : option A) (f : A -> Py.result B)
  : Py.result (option B) :=
  match o with
  | Some a => let! b := f a in Py.Ok (Some b)
  | None => Py.Ok None
  end.

(** The [if / elif] chain selecting the dollar proxy: the first reading
    present among DXY, USD/EUR, EUR/USD, USD/JPY. *)
Definition analyze_dollar_proxy (correlation_data : gmap string Reading)
  : Py.result (option DxyEntry) :=
  match correlation_data !! "DXY" with
  | Some r => when_present (Some r)
                (fun r => analyze_dollar r false None (Some "FRED"))
  | None =>
  match correlation_data !! "USD/EUR" with
  | Some r => when_present (Some r)
                (fun r => analyze_dollar r false (Some "USD/EUR") (Some "FRED"))
  | None =>
  match correlation_data !! "EUR/USD" with
  | Some r => when_present (Some r)
                (fun r => analyze_dollar r true (Some "EUR/USD") None)
  | None =>
      when_present (correlation_data !! "USD/JPY")
        (fun r => analyze_dollar r false (Some "USD/JPY") None)
  end end end.

(** The [if / elif] chain selecting the risk proxy: SPX, else GBP/USD. *)
Definition analyze_risk_proxy (correlation_data : gmap string Reading)
  : Py.result (option RiskEntry) :=
  match correlation_data !! "SPX" with
  | Some r => when_present (Some r) (fun r => analyze_risk r None)
  | None => when_present (correlation_data !! "GBP/USD")
              (fun r => analyze_risk r (Some "GBP/USD"))
  end.

Definition analyze_correlations (correlation_data : gmap string Reading)
  : Py.result Analysis :=
  let! y := when_present (correlation_data !! "US10Y") analyze_yield in
  let! y2 := when_present (correlation_data !! "US2Y") analyze_tenor in
  let! y30 := when_present (correlation_data !! "US30Y") analyze_tenor in
  let curve :=
    match y2, y with
    | Some e2, Some e => Some (analyze_curve e e2)
    | _, _ => None
    end in
  let! vix := when_present (correlation_data !! "VIX") analyze_vix in
  let! dxy := analyze_dollar_proxy correlation_data in
  let! risk := analyze_risk_proxy correlation_data in
  let! btc := when_present (correlation_data !! "BTC/USD") analyze_btc in
  Py.Ok (mkAnalysis y y2 y30 curve vix dxy risk btc).

(** The tier table of the volatility statement, as worded there, and the
    statement for one correlation input. *)
Definition vix_tiers_stated (v : Q) : string * string :=
  if Py.gtb v 30 then ("Extreme Fear", "Very High")
  else if Py.gtb v 20 then ("High", "High")
  else if Py.gtb v 15 then ("Moderate", "Moderate")
  else ("Low", "Low").

(** The same table with the fear levels the code writes. *)
Definition vix_tiers (v : Q) : string * string :=
  if Py.gtb v 30 then ("Extreme Fear", "Very High")
  else if Py.gtb v 20 then ("High Fear", "High")
  else if Py.gtb v 15 then ("Moderate", "Moderate")
  else ("Low Fear", "Low").

Definition vix_claim (tiers : Q -> string * string)
  (correlation_data : gmap string Reading) : Prop :=
  forall vix v,
    correlation_data !! "VIX" = Some vix ->
    get_price vix = Py.Ok v ->
    exists analysis entry,
      analyze_correlations correlation_data = Py.Ok analysis
      /\ a_vix analysis = Some entry
      /\ (vix_fear_level entry, vix_haven_demand entry) = tiers v.

(** Every field of a reading is a number; every reading is such. *)
Definition numeric_reading (r : Reading) : Prop :=
  forall field x, r !! field = Some x -> x <> None.

Definition numeric (correlation_data : gmap string Reading) : Prop :=
  forall name r, correlation_data !! name = Some r -> numeric_reading r.

(** An upcoming event; [time] in seconds since the epoch. *)
Record NewsEvent : Type := mkNewsEvent {
  title : string;
  time : Q;
  impact : string
}.

(** The part of the technical result read by the classification:
    [technical_data.get("rsi_status")], [None] when the key is absent. *)
Record TechnicalData : Type := mkTechnicalData {
  rsi_status : option string
}.

Definition in_list (x : option string) (l : list string) : bool :=
  match x with
  | Some s => existsb (String.eqb s) l
  | None => false
  end.

(** [determine_primary_driver]; [now] is [datetime.now(pytz.UTC)] in
    seconds. *)
Definition determine_primary_driver (technical_data : TechnicalData)
  (news_events : list NewsEvent) (correlation_analysis : Analysis) (now : Q)
  : string :=
  if match news_events with
     | next_event :: _ =>
         let time_until := (time next_event - now) / 60 in
         Py.ltb time_until 60
     | [] => false
     end
  then "Fundamental"
  else if in_list (rsi_status technical_data) ["Overbought"; "Oversold"]
  then "Technical"
  else if match a_yield correlation_analysis with
          | Some y => Py.gtb (Qabs (yield_change_bps y)) 5
          | None => false
          end
  then "Fundamental"
  else if match a_dxy correlation_analysis with
          | Some d => Py.gtb (Qabs (dxy_percent_change d)) 0.5
          | None => false
          end
  then "Sentiment"
  else "Technical".

(** The classification as an ordered rule list: the first rule whose
    condition holds decides, the default applies when none does. *)
Definition first_match (rules : list (bool * string)) (otherwise : string) : string :=
  match List.filter (fun r : bool * string => fst r) rules with
  | r :: _ => snd r
  | [] => otherwise
  end.

Definition minutes_to_next_event (news_events : list NewsEvent) (now : Q) : option Q :=
  match news_events with
  | e :: _ => Some ((time e - now) / 60)
  | [] => None
  end.

Definition exceeds (x : option Q) (bound : Q) : bool :=
  match x with
  | Some q => Py.gtb (Qabs q) bound
  | None => false
  end.

Definition primary_driver_rules (technical_data : TechnicalData)
  (news_events : list NewsEvent) (correlation_analysis : Analysis) (now : Q)
  : string :=
  first_match
    [ (match minutes_to_next_event news_events now with
       | Some m => Py.ltb m 60
       | None => false
       end, "Fundamental");
      (match rsi_status technical_data with
       | Some s => String.eqb s "Overbought" || String.eqb s "Oversold"
       | None => false
       end, "Technical");
      (exceeds (option_map yield_change_bps (a_yield correlation_analysis)) 5,
       "Fundamental");
      (exceeds (option_map dxy_percent_change (a_dxy correlation_analysis)) 0.5,
       "Sentiment") ]
    "Technical".

(** [determine_momentum(technical_data, correlation_analysis)];
    [technical_data] is the result of [analyze_timeframe], whose error
    marker has no ["price_change_1h"]. *)
Record Momentum : Type := mkMomentum {
  strength : string;
  direction : string;
  description : string
}.

Definition determine_momentum (technical_data : TechnicalAnalyzer.TimeframeResult)
  (correlation_analysis : Analysis) : Momentum :=
  let price_change :=
    match technical_data with
    | TechnicalAnalyzer.Analyzed a => TechnicalAnalyzer.ta_price_change_1h a
    | TechnicalAnalyzer.InsufficientData => 0
    end in
  let direction :=
    if Py.gtb price_change 0 then "Bullish"
    else if Py.ltb price_change 0 then "Bearish" else "Neutral" in
  let abs_change := Qabs price_change in
  let strength :=
    if Py.gtb abs_change 0.5 then "Strong"
    else if Py.gtb abs_change 0.2 then "Moderate" else "Weak" in
  mkMomentum strength direction (strength +:+ " " +:+ direction).

(** [now.strftime("%H:%M")] for an hour and a minute. *)
Definition two_digits (n : nat) : string :=
  String (Ascii.ascii_of_nat (48 + n / 10))
    (String (Ascii.ascii_of_nat (48 + n mod 10)) "").

Definition strftime_HM (hour minute : nat) : string :=
  two_digits hour +:+ ":" +:+ two_digits minute.

(** [get_current_session()]; [current_time] is [now.strftime("%H:%M")].
    The comparisons are string comparisons. *)
Definition get_current_session (current_time : string) : string :=
  let sessions_active :=
    map fst
      (List.filter
         (fun session : string * (string * string) =>
            let (start, end_) := snd session in
            String.leb start current_time && String.leb current_time end_)
         config.SESSIONS) in
  match sessions_active with
  | [] => "OFF-HOURS"
  | [session] => session
  | _ => String.concat "/" sessions_active
  end.

(** The session label as a table over the minute of the day. *)
Definition session_table (hour minute : nat) : string :=
  let t := (60 * hour + minute)%nat in
  if (t <? 480)%nat then "ASIAN"
  else if (t <=? 540)%nat then "ASIAN/LONDON"
  else if (t <? 780)%nat then "LONDON"
  else if (t <=? 1020)%nat then "LONDON/NY"
  else if (t <=? 1320)%nat then "NY"
  else "OFF-HOURS".

(** [int(x)] on a number: truncation towards zero. *)
Definition int_of (x : Q) : Z := Z.quot (Qnum x) (Z.pos (Qden x)).

(** The result of [get_next_session_overlap]. *)
Record Overlap : Type := mkOverlap {
  session : string;
  minutes_until : Z;
  active : bool
}.

(** [get_next_session_overlap()]; [hour] is [now.hour] and [seconds] the
    time of day of [now] in seconds. *)
Definition get_next_session_overlap (hour : Z) (seconds : Q) : Overlap :=
  let overlap_start := inject_Z (13 * 3600) in
  if (17 <=? hour)%Z
  then mkOverlap "LONDON/NY"
         (int_of ((overlap_start + inject_Z 86400 - seconds) / 60)) false
  else if (hour <? 13)%Z
  then mkOverlap "LONDON/NY" (int_of ((overlap_start - seconds) / 60)) false
  else mkOverlap "LONDON/NY" 0 true.

(** What [determine_primary_driver] reads of the result of
    [analyze_timeframe]: [technical_data.get("rsi_status")], absent on the
    error marker. *)
Definition technical_data_of (technical_data : TechnicalAnalyzer.TimeframeResult)
  : TechnicalData :=
  mkTechnicalData
    match technical_data with
    | TechnicalAnalyzer.Analyzed a => Some (TechnicalAnalyzer.ta_rsi_status a)
    | TechnicalAnalyzer.InsufficientData => None
    end.

(** An alert of [check_alerts]: which message it is and the values the
    message prints; [NoAlert] is the entry ["None"]. *)
Inductive Alert : Type :=
| ApproachingResistance (level pips : Q)
| ApproachingSupport (level pips : Q)
| LargeYieldMove (bps : Q)
| SignificantDXYMovement (pct : Q)
| HighImpactNews (minutes : Z) (title : string)
| NoAlert.

(** The proximity test of [check_alerts] for one nearest level. *)
Definition proximity_alert (current_price : Q) (nearest : option (Q * Q))
  (alert : Q -> Q -> Alert) : Py.result (list Alert) :=
  match nearest with
  | Some (level, pips) =>
      let! ratio := Py.div (Qabs (current_price - level)) current_price in
      let proximity_pct := ratio * 100 in
      Py.Ok (if Py.ltb proximity_pct config.ALERT_PROXIMITY_PERCENT
             then [alert level pips] else [])
  | None => Py.Ok []
  end.

(** [technical_data.get("current_price", 0)] and
    [technical_data.get("nearest_levels", {})]. *)
Definition current_price_of (technical_data : TechnicalAnalyzer.TimeframeResult) : Q :=
  match technical_data with
  | TechnicalAnalyzer.Analyzed a => TechnicalAnalyzer.ta_current_price a
  | TechnicalAnalyzer.InsufficientData => 0
  end.

Definition nearest_levels_of (technical_data : TechnicalAnalyzer.TimeframeResult)
  : TechnicalAnalyzer.NearestLevels :=
  match technical_data with
  | TechnicalAnalyzer.Analyzed a => TechnicalAnalyzer.ta_nearest_levels a
  | TechnicalAnalyzer.InsufficientData => TechnicalAnalyzer.mkNearestLevels None None
  end.

(** The yield, dollar and news blocks of [check_alerts]. *)
Definition yield_alert (correlation_analysis : Analysis) : list Alert :=
  match a_yield correlation_analysis with
  | Some y =>
      let bps_change := Qabs (yield_change_bps y) in
      if Py.gtb bps_change config.YIELD_ALERT_BPS
      then [LargeYieldMove bps_change] else []
  | None => []
  end.

Definition dxy_alert (correlation_analysis : Analysis) : list Alert :=
  match a_dxy correlation_analysis with
  | Some d =>
      let pct_change := Qabs (dxy_percent_change d) in
      if Py.gtb pct_change 1 then [SignificantDXYMovement pct_change] else []
  | None => []
  end.

Definition news_alert (news_events : list NewsEvent) (now : Q) : list Alert :=
  match news_events with
  | next_event :: _ =>
      let time_until := (time next_event - now) / 60 in
      if Py.ltb time_until 30
      then [HighImpactNews (int_of time_until) (title next_event)] else []
  | [] => []
  end.

(** [check_alerts(technical_data, correlation_analysis, news_events)];
    [now] is its reading of the clock, in seconds. *)
Definition check_alerts (technical_data : TechnicalAnalyzer.TimeframeResult)
  (correlation_analysis : Analysis) (news_events : list NewsEvent) (now : Q)
  : Py.result (list Alert) :=
  let current_price := current_price_of technical_data in
  let nearest_levels := nearest_levels_of technical_data in
  let! near_r :=
    proximity_alert current_price
      (TechnicalAnalyzer.near_resistance nearest_levels) ApproachingResistance in
  let! near_s :=
    proximity_alert current_price
      (TechnicalAnalyzer.near_support nearest_levels) ApproachingSupport in
  let alerts :=
    near_r ++ near_s ++ yield_alert correlation_analysis
    ++ dxy_alert correlation_analysis ++ news_alert news_events now in
  Py.Ok (match alerts with [] => [NoAlert] | _ => alerts end).

(** The analytic part of the snapshot dict. *)
Record Snapshot : Type := mkSnapshot {
  primary_driver : string;
  momentum : Momentum;
  technical : TechnicalAnalyzer.TimeframeResult;
  correlations : Analysis;
  alerts : list Alert
}.

(** [generate_market_snapshot()], from the fetched market data on: the 1h
    candles of [market_data["xauusd"]["price_data"]], the correlation
    readings and the news.  [now_driver] and [now_alerts] are the clock
    readings of [determine_primary_driver] and of [check_alerts], which
    runs later.  The session, catalyst and timestamp entries of the dict,
    which cannot raise, are not part of [Snapshot]. *)
Definition generate_market_snapshot
  (price_data_1h : option (list TechnicalAnalyzer.Candle))
  (correlation_data : gmap string Reading) (news_events : list NewsEvent)
  (now_driver now_alerts : Q) : Py.result Snapshot :=
  let! technical_data := TechnicalAnalyzer.analyze_timeframe price_data_1h "1h" in
  let! correlation_analysis := analyze_correlations correlation_data in
  let primary_driver :=
    determine_primary_driver (technical_data_of technical_data) news_events
      correlation_analysis now_driver in
  let momentum := determine_momentum technical_data correlation_analysis in
  let! alerts :=
    check_alerts technical_data correlation_analysis news_events now_alerts in
  Py.Ok (mkSnapshot primary_driver momentum technical_data correlation_analysis
           alerts).

End MarketAnalysisEngine.

(** * Part II: properties *)

(** ** The Python runtime model *)

Section PyFacts.
Local Open Scope Q_scope.

Lemma gtb_spec (a b : Q) : Py.gtb a b = true <-> b < a.
Proof.
  unfold Py.gtb. rewrite negb_true_iff.
  destruct (Qle_bool a b) eqn:E.
  - apply Qle_bool_iff in E. split; [discriminate | intros; lra].
  - split; [intros _ | reflexivity].
    destruct (Qlt_le_dec b a) as [H | H]; [exact H |].
    apply Qle_bool_iff in H. congruence.
Qed.

Lemma gtb_false (a b : Q) : Py.gtb a b = false <-> a <= b.
Proof.
  unfold Py.gtb. rewrite negb_false_iff. apply Qle_bool_iff.
Qed.

Lemma div_nonzero (a b : Q) : ~ b == 0 -> Py.div a b = Py.Ok (a / b).
Proof.
  intros Hb. unfold Py.div.
  destruct (Qeq_bool b 0) eqn:E; [| reflexivity].
  apply Qeq_bool_iff in E. contradiction.
Qed.

Lemma div_zero (a b : Q) : b == 0 -> Py.div a b = Py.Raise Py.ZeroDivisionError.
Proof.
  intros Hb. unfold Py.div.
  apply Qeq_bool_iff in Hb. rewrite Hb. reflexivity.
Qed.

Section Sorting.
Context {A : Type}.
Variable leb : A -> A -> bool.
Hypothesis leb_total : forall a b, leb a b = false -> leb b a = true.

Let R (a b : A) : Prop := leb a b = true.

Lemma insert_by_perm (x : A) (l : list A) :
  Permutation (Py.insert_by leb x l) (x :: l).
Proof.
  induction l as [| y l IH]; simpl.
  - reflexivity.
  - destruct (leb x y); [reflexivity |].
    rewrite IH. apply perm_swap.
Qed.

Lemma sort_by_perm (l : list A) : Permutation (Py.sort_by leb l) l.
Proof.
  induction l as [| x l IH]; simpl.
  - reflexivity.
  - rewrite insert_by_perm. constructor. exact IH.
Qed.

Lemma insert_by_hdrel (a x : A) (l : list A) :
  R a x -> HdRel R a l -> HdRel R a (Py.insert_by leb x l).
Proof.
  intros Hax Hl. destruct l as [| y l]; simpl.
  - constructor. exact Hax.
  - destruct (leb x y); constructor; [exact Hax |].
    inversion Hl; assumption.
Qed.

Lemma insert_by_sorted (x : A) (l : list A) :
  Sorted R l -> Sorted R (Py.insert_by leb x l).
Proof.
  induction 1 as [| y l Hs IH Hhd]; simpl.
  - repeat constructor.
  - destruct (leb x y) eqn:E.
    + constructor; [constructor; assumption |]. constructor. exact E.
    + constructor; [exact IH |].
      apply insert_by_hdrel; [| exact Hhd].
      apply leb_total. exact E.
Qed.

Lemma sort_by_sorted (l : list A) : Sorted R (Py.sort_by leb l).
Proof.
  induction l as [| x l IH]; simpl.
  - constructor.
  - apply insert_by_sorted. exact IH.
Qed.

Lemma sort_by_fixed (l : list A) : Sorted R l -> Py.sort_by leb l = l.
Proof.
  induction 1 as [| x l Hs IH Hhd]; simpl.
  - reflexivity.
  - rewrite IH. destruct Hhd as [| y l Hxy]; simpl.
    + reflexivity.
    + unfold R in Hxy. rewrite Hxy. reflexivity.
Qed.

End Sorting.

Lemma Qle_bool_total (a b : Q) : Qle_bool a b = false -> Qle_bool b a = true.
Proof.
  intros H. apply Qle_bool_iff.
  destruct (Qlt_le_dec a b) as [Hlt | Hle]; [| exact Hle].
  assert (Qle_bool a b = true) by (apply Qle_bool_iff; lra). congruence.
Qed.

Lemma sorted_perm (l : list Q) : Permutation (Py.sorted l) l.
Proof. apply sort_by_perm. Qed.

Lemma sorted_Sorted (l : list Q) : Sorted Qle (Py.sorted l).
Proof.
  eapply Sorted_ind with (P := fun l => Sorted Qle l);
    [constructor | | apply (sort_by_sorted Qle_bool Qle_bool_total l)].
  intros a l0 _ IH Hhd. constructor; [exact IH |].
  destruct Hhd; constructor. apply Qle_bool_iff. assumption.
Qed.

Lemma sorted_fixed (l : list Q) : Sorted Qle l -> Py.sorted l = l.
Proof.
  intros H. apply sort_by_fixed.
  induction H as [| a l0 _ IH Hhd]; constructor; [exact IH |].
  destruct Hhd; constructor. apply Qle_bool_iff. assumption.
Qed.

Lemma sorted_reverse_perm (l : list Q) : Permutation (Py.sorted_reverse l) l.
Proof. apply sort_by_perm. Qed.

Lemma sorted_reverse_Sorted (l : list Q) :
  Sorted (fun a b => b <= a) (Py.sorted_reverse l).
Proof.
  assert (Ht : forall a b, Qle_bool b a = false -> Qle_bool a b = true)
    by (intros a b; apply Qle_bool_total).
  pose proof (sort_by_sorted (fun a b => Qle_bool b a) Ht l) as H.
  fold (Py.sorted_reverse l) in H.
  induction H as [| a l0 _ IH Hhd]; constructor; [exact IH |].
  destruct Hhd; constructor. apply Qle_bool_iff. assumption.
Qed.

End PyFacts.

(** ** Binary64 rounding *)

Section FloatFacts.
Local Open Scope Q_scope.

Lemma pow2_pos (e : Z) : 0 < Py.pow2 e.
Proof. unfold Py.pow2. apply Qpower_0_lt. reflexivity. Qed.

Lemma pow2_add (a b : Z) : Py.pow2 (a + b) == Py.pow2 a * Py.pow2 b.
Proof. unfold Py.pow2. apply Qpower_plus. discriminate. Qed.

Lemma pow2_Z (n : Z) : (0 <= n)%Z -> Py.pow2 n == inject_Z (2 ^ n).
Proof. intros Hn. unfold Py.pow2. rewrite Zpower_Qpower by exact Hn. reflexivity. Qed.

Lemma pow2_lt (a b : Z) : (a < b)%Z -> Py.pow2 a < Py.pow2 b.
Proof. intros H. unfold Py.pow2. apply Qpower_lt_compat_l; [exact H | reflexivity]. Qed.

Lemma pow2_le (a b : Z) : (a <= b)%Z -> Py.pow2 a <= Py.pow2 b.
Proof. intros H. unfold Py.pow2. apply Qpower_le_compat_l; [exact H | discriminate]. Qed.

Lemma pow2_lt_inv (a b : Z) : Py.pow2 a < Py.pow2 b -> (a < b)%Z.
Proof. intros H. unfold Py.pow2 in H. eapply Qpower_lt_compat_l_inv; [exact H | reflexivity]. Qed.

Lemma pow2_split (a b : Z) : Py.pow2 a == Py.pow2 (a - b) * Py.pow2 b.
Proof. rewrite <- pow2_add. replace (a - b + b)%Z with a by lia. reflexivity. Qed.

Lemma ilog2_spec (x : Q) :
  0 < x -> Py.pow2 (Py.ilog2 x) <= x < Py.pow2 (Py.ilog2 x + 1).
Proof.
  intros Hx. destruct x as [n d]. unfold Py.ilog2. cbn [Qnum Qden].
  assert (Hn : (0 < n)%Z) by (unfold Qlt in Hx; cbn in Hx; lia).
  destruct (Z.log2_spec n Hn) as [Hn1 Hn2].
  destruct (Z.log2_spec (Z.pos d) ltac:(lia)) as [Hd1 Hd2].
  pose proof (Z.log2_nonneg n) as Hln. pose proof (Z.log2_nonneg (Z.pos d)) as Hld.
  set (ln := Z.log2 n) in *. set (ld := Z.log2 (Z.pos d)) in *.
  assert (HxD : (n # d) * inject_Z (Z.pos d) == inject_Z n).
  { unfold Qeq, Qmult, inject_Z. cbn. rewrite Pos.mul_1_r. lia. }
  assert (HD : 0 < inject_Z (Z.pos d)) by reflexivity.
  assert (HN1 : Py.pow2 ln <= inject_Z n)
    by (rewrite pow2_Z by lia; rewrite <- Zle_Qle; exact Hn1).
  assert (HN2 : inject_Z n < Py.pow2 (ln + 1))
    by (rewrite pow2_Z by lia; rewrite <- Zlt_Qlt; unfold Z.succ in Hn2; exact Hn2).
  assert (HD1 : Py.pow2 ld <= inject_Z (Z.pos d))
    by (rewrite pow2_Z by lia; rewrite <- Zle_Qle; exact Hd1).
  assert (HD2 : inject_Z (Z.pos d) < Py.pow2 (ld + 1))
    by (rewrite pow2_Z by lia; rewrite <- Zlt_Qlt; unfold Z.succ in Hd2; exact Hd2).
  set (x := n # d) in *. set (N := inject_Z n) in *. set (D := inject_Z (Z.pos d)) in *.
  destruct (Qle_bool (Py.pow2 (ln - ld)) x) eqn:E.
  - apply Qle_bool_iff in E. split; [exact E |].
    pose proof (pow2_split (ln + 1) ld) as Hs.
    replace (ln + 1 - ld)%Z with (ln - ld + 1)%Z in Hs by lia.
    pose proof (pow2_pos (ln - ld + 1)) as HP.
    set (P := Py.pow2 (ln - ld + 1)) in *.
    set (L := Py.pow2 ld) in *. set (P1 := Py.pow2 (ln + 1)) in *.
    destruct (Qlt_le_dec x P) as [Hlt | Hge]; [exact Hlt | exfalso].
    assert (H1 : P * D <= x * D) by (apply Qmult_le_compat_r; lra).
    assert (H2 : P * L <= P * D) by (apply Qmult_le_l; lra).
    lra.
  - assert (Hlt : x < Py.pow2 (ln - ld)).
    { destruct (Qlt_le_dec x (Py.pow2 (ln - ld))) as [H | H]; [exact H |].
      apply Qle_bool_iff in H. congruence. }
    replace (ln - ld - 1 + 1)%Z with (ln - ld)%Z by lia.
    split; [| exact Hlt].
    pose proof (pow2_split ln (ld + 1)) as Hs.
    replace (ln - (ld + 1))%Z with (ln - ld - 1)%Z in Hs by lia.
    pose proof (pow2_pos (ln - ld - 1)) as HP.
    pose proof (pow2_pos (ld + 1)) as HL1.
    set (P := Py.pow2 (ln - ld - 1)) in *.
    set (L1 := Py.pow2 (ld + 1)) in *. set (P0 := Py.pow2 ln) in *.
    destruct (Qlt_le_dec x P) as [Hlt' | Hge]; [exfalso | exact Hge].
    assert (H1 : x * D <= x * L1) by (apply Qmult_le_l; lra).
    assert (H2 : x * L1 < P * L1) by (apply Qmult_lt_r; lra).
    lra.
Qed.

Lemma ilog2_unique (x : Q) (k : Z) :
  Py.pow2 k <= x < Py.pow2 (k + 1) -> Py.ilog2 x = k.
Proof.
  intros [Hk1 Hk2].
  assert (Hx : 0 < x) by (pose proof (pow2_pos k); lra).
  destruct (ilog2_spec x Hx) as [Hi1 Hi2].
  assert (H1 : (Py.ilog2 x < k + 1)%Z) by (apply pow2_lt_inv; lra).
  assert (H2 : (k < Py.ilog2 x + 1)%Z) by (apply pow2_lt_inv; lra).
  lia.
Qed.

Lemma ilog2_wd (x x' : Q) : 0 < x -> x == x' -> Py.ilog2 x = Py.ilog2 x'.
Proof.
  intros Hx Heq. symmetry. apply ilog2_unique.
  rewrite <- Heq. apply ilog2_spec. exact Hx.
Qed.

Lemma ilog2_mono (x x' : Q) : 0 < x -> x <= x' -> (Py.ilog2 x <= Py.ilog2 x')%Z.
Proof.
  intros Hx Hle.
  destruct (ilog2_spec x Hx) as [H1 _].
  destruct (ilog2_spec x' ltac:(lra)) as [_ H2].
  assert (H : (Py.ilog2 x < Py.ilog2 x' + 1)%Z) by (apply pow2_lt_inv; lra).
  lia.
Qed.

(** Rounding to the nearest integer, ties to even. *)
Lemma round_half_even_floor (y : Q) :
  (Qfloor y <= Py.round_half_even y <= Qfloor y + 1)%Z.
Proof.
  unfold Py.round_half_even.
  destruct (Qcompare _ _); [destruct (Z.even _) | |]; lia.
Qed.

Lemma round_half_even_near (y : Q) :
  inject_Z (Py.round_half_even y) - (1 # 2) <= y
  /\ y <= inject_Z (Py.round_half_even y) + (1 # 2).
Proof.
  pose proof (Qfloor_le y) as H1. pose proof (Qlt_floor y) as H2.
  rewrite inject_Z_plus in H2. change (inject_Z 1) with 1 in H2.
  unfold Py.round_half_even.
  destruct (Qcompare_spec (y - inject_Z (Qfloor y)) (1 # 2)) as [E | E | E].
  - destruct (Z.even (Qfloor y)).
    + split; lra.
    + rewrite inject_Z_plus. change (inject_Z 1) with 1. split; lra.
  - split; lra.
  - rewrite inject_Z_plus. change (inject_Z 1) with 1. split; lra.
Qed.

Lemma round_half_even_wd (y y' : Q) :
  y == y' -> Py.round_half_even y = Py.round_half_even y'.
Proof.
  intros H. unfold Py.round_half_even.
  rewrite (Qfloor_comp y y' H).
  assert (E : y - inject_Z (Qfloor y') == y' - inject_Z (Qfloor y')) by (rewrite H; reflexivity).
  rewrite (Qcompare_comp _ _ E (1 # 2) (1 # 2) (Qeq_refl _)). reflexivity.
Qed.

Lemma round_half_even_Z (z : Z) : Py.round_half_even (inject_Z z) = z.
Proof.
  unfold Py.round_half_even. rewrite Qfloor_Z.
  assert (E0 : inject_Z z - inject_Z z == 0) by ring.
  rewrite (Qcompare_comp _ _ E0 (1 # 2) (1 # 2) (Qeq_refl _)). reflexivity.
Qed.

Lemma round_half_even_mono (y y' : Q) :
  y <= y' -> (Py.round_half_even y <= Py.round_half_even y')%Z.
Proof.
  intros Hle. pose proof (Qfloor_resp_le y y' Hle) as Hf.
  destruct (Z.eq_dec (Qfloor y) (Qfloor y')) as [Heq | Hne].
  - unfold Py.round_half_even. rewrite <- Heq.
    destruct (Qcompare_spec (y - inject_Z (Qfloor y)) (1 # 2)) as [E | E | E];
      destruct (Qcompare_spec (y' - inject_Z (Qfloor y)) (1 # 2)) as [E' | E' | E'];
      try destruct (Z.even (Qfloor y)); try lia; exfalso; lra.
  - pose proof (round_half_even_floor y). pose proof (round_half_even_floor y'). lia.
Qed.

(** The shape of a rounded positive number. *)
Lemma round_pos_spec (x : Q) :
  0 < x ->
  let e := (Py.ilog2 x - 52)%Z in
  let m := Py.round_half_even (x / Py.pow2 e) in
  Py.round_pos x = inject_Z m * Py.pow2 e
  /\ (2 ^ 52 <= m <= 2 ^ 53)%Z
  /\ inject_Z m - (1 # 2) <= x / Py.pow2 e <= inject_Z m + (1 # 2)
  /\ Py.pow2 52 <= x / Py.pow2 e < Py.pow2 53.
Proof.
  intros Hx e m. split; [reflexivity |].
  destruct (ilog2_spec x Hx) as [H1 H2].
  pose proof (pow2_pos e) as He.
  assert (Hy : x / Py.pow2 e * Py.pow2 e == x) by (field; lra).
  pose proof (pow2_split (Py.ilog2 x) e) as Hs1.
  replace (Py.ilog2 x - e)%Z with 52%Z in Hs1 by (unfold e; lia).
  pose proof (pow2_split (Py.ilog2 x + 1) e) as Hs2.
  replace (Py.ilog2 x + 1 - e)%Z with 53%Z in Hs2 by (unfold e; lia).
  set (y := x / Py.pow2 e) in *.
  assert (Hy1 : Py.pow2 52 <= y).
  { destruct (Qlt_le_dec y (Py.pow2 52)) as [Hlt | Hge]; [exfalso | exact Hge].
    assert (y * Py.pow2 e < Py.pow2 52 * Py.pow2 e) by (apply Qmult_lt_r; lra). lra. }
  assert (Hy2 : y < Py.pow2 53).
  { destruct (Qlt_le_dec y (Py.pow2 53)) as [Hlt | Hge]; [exact Hlt | exfalso].
    assert (Py.pow2 53 * Py.pow2 e <= y * Py.pow2 e) by (apply Qmult_le_compat_r; lra). lra. }
  split; [| split; [apply round_half_even_near | split; assumption]].
  split.
  - rewrite <- (round_half_even_Z (2 ^ 52)). apply round_half_even_mono.
    rewrite <- pow2_Z by lia. exact Hy1.
  - rewrite <- (round_half_even_Z (2 ^ 53)). apply round_half_even_mono.
    rewrite <- pow2_Z by lia. lra.
Qed.

Lemma round_pos_positive (x : Q) : 0 < x -> 0 < Py.round_pos x.
Proof.
  intros Hx. destruct (round_pos_spec x Hx) as (-> & [Hm _] & _).
  apply Qmult_lt_0_compat; [| apply pow2_pos].
  change 0 with (inject_Z 0). rewrite <- Zlt_Qlt. lia.
Qed.

Lemma round_pos_error (x : Q) :
  0 < x ->
  x * (1 - Py.unit_roundoff) <= Py.round_pos x <= x * (1 + Py.unit_roundoff).
Proof.
  intros Hx. destruct (round_pos_spec x Hx) as (-> & _ & [Hn1 Hn2] & Hy1 & _).
  set (e := (Py.ilog2 x - 52)%Z) in *.
  set (m := inject_Z (Py.round_half_even (x / Py.pow2 e))) in *.
  pose proof (pow2_pos e) as He.
  assert (Hy : x / Py.pow2 e * Py.pow2 e == x) by (field; lra).
  set (y := x / Py.pow2 e) in *.
  assert (Hu : Py.pow2 52 * Py.unit_roundoff == 1 # 2) by reflexivity.
  assert (Hupos : 0 < Py.unit_roundoff) by apply pow2_pos.
  assert (Hhalf : (1 # 2) <= y * Py.unit_roundoff).
  { rewrite <- Hu. apply Qmult_le_compat_r; lra. }
  set (u := Py.unit_roundoff) in *.
  assert (H1 : y * (1 - u) <= m) by lra.
  assert (H2 : m <= y * (1 + u)) by lra.
  split.
  - assert (E : x * (1 - u) == y * (1 - u) * Py.pow2 e) by (rewrite <- Hy; ring).
    rewrite E. apply Qmult_le_compat_r; lra.
  - assert (E : x * (1 + u) == y * (1 + u) * Py.pow2 e) by (rewrite <- Hy; ring).
    rewrite E. apply Qmult_le_compat_r; lra.
Qed.

Lemma round_pos_wd (x x' : Q) : 0 < x -> x == x' -> Py.round_pos x = Py.round_pos x'.
Proof.
  intros Hx Heq. unfold Py.round_pos.
  rewrite (ilog2_wd x x' Hx Heq).
  rewrite (round_half_even_wd (x / Py.pow2 (Py.ilog2 x' - 52)) (x' / Py.pow2 (Py.ilog2 x' - 52)))
    by (rewrite Heq; reflexivity).
  reflexivity.
Qed.

Lemma round_pos_mono (x x' : Q) :
  0 < x -> x <= x' -> Py.round_pos x <= Py.round_pos x'.
Proof.
  intros Hx Hle. assert (Hx' : 0 < x') by lra.
  destruct (round_pos_spec x Hx) as (-> & [_ Hm] & _ & _).
  destruct (round_pos_spec x' Hx') as (-> & [Hm' _] & _ & _).
  pose proof (ilog2_mono x x' Hx Hle) as He.
  set (e := (Py.ilog2 x - 52)%Z) in *. set (e' := (Py.ilog2 x' - 52)%Z) in *.
  destruct (Z.eq_dec (Py.ilog2 x) (Py.ilog2 x')) as [Heq | Hne].
  - assert (Ee : e' = e) by (unfold e, e'; lia). rewrite Ee.
    apply Qmult_le_compat_r; [| pose proof (pow2_pos e); lra].
    rewrite <- Zle_Qle. apply round_half_even_mono.
    unfold Qdiv. apply Qmult_le_compat_r; [exact Hle |].
    apply Qinv_le_0_compat. pose proof (pow2_pos e); lra.
  - assert (Hlt : (e + 1 <= e')%Z) by (unfold e, e'; lia).
    pose proof (pow2_le (e + 1) e' Hlt) as Hp.
    rewrite pow2_add in Hp. change (Py.pow2 1) with 2 in Hp.
    pose proof (pow2_pos e) as Hpe. pose proof (pow2_pos e') as Hpe'.
    set (m := Py.round_half_even (x / Py.pow2 e)) in *.
    set (m' := Py.round_half_even (x' / Py.pow2 e')) in *.
    assert (H1 : inject_Z m <= inject_Z (2 ^ 53)) by (rewrite <- Zle_Qle; exact Hm).
    assert (H2 : inject_Z (2 ^ 52) <= inject_Z m') by (rewrite <- Zle_Qle; exact Hm').
    assert (H3 : inject_Z (2 ^ 53) == 2 * inject_Z (2 ^ 52)) by reflexivity.
    assert (H4 : 0 < inject_Z (2 ^ 52)) by reflexivity.
    set (A := inject_Z (2 ^ 52)) in *. set (B := inject_Z (2 ^ 53)) in *.
    apply Qle_trans with (B * Py.pow2 e);
      [apply Qmult_le_compat_r; lra |].
    apply Qle_trans with (A * Py.pow2 e').
    + rewrite H3.
      assert (E : 2 * A * Py.pow2 e == A * (Py.pow2 e * 2)) by ring.
      rewrite E. apply Qmult_le_l; lra.
    + apply Qmult_le_compat_r; lra.
Qed.

(** [Py.round]: sign, error, monotonicity. *)
Lemma round_zero (x : Q) : x == 0 -> Py.round x = 0.
Proof.
  intros H. unfold Py.round.
  destruct (Qcompare_spec x 0) as [E | E | E]; [reflexivity | exfalso; lra | exfalso; lra].
Qed.

Lemma round_positive (x : Q) : 0 < x -> Py.round x == Py.round_pos x.
Proof.
  intros H. unfold Py.round.
  destruct (Qcompare_spec x 0) as [E | E | E];
    [exfalso; lra | exfalso; lra | apply Qred_correct].
Qed.

Lemma round_negative (x : Q) : x < 0 -> Py.round x == - Py.round_pos (- x).
Proof.
  intros H. unfold Py.round.
  destruct (Qcompare_spec x 0) as [E | E | E];
    [exfalso; lra | apply Qred_correct | exfalso; lra].
Qed.

Lemma round_wd (x x' : Q) : x == x' -> Py.round x = Py.round x'.
Proof.
  intros Heq. unfold Py.round.
  rewrite (Qcompare_comp x x' Heq 0 0 (Qeq_refl 0)).
  destruct (Qcompare_spec x' 0) as [E | E | E].
  - reflexivity.
  - rewrite (round_pos_wd (- x) (- x')) by (rewrite Heq; lra). reflexivity.
  - rewrite (round_pos_wd x x') by (rewrite ?Heq; lra). reflexivity.
Qed.

Lemma round_opp (x : Q) : Py.round (- x) == - Py.round x.
Proof.
  destruct (Q_dec x 0) as [[H | H] | H].
  - rewrite (round_negative x H), (round_positive (- x)) by lra. ring.
  - rewrite (round_positive x H), (round_negative (- x)) by lra.
    rewrite (round_pos_wd (- - x) x) by (try ring; lra). reflexivity.
  - rewrite (round_zero x H), (round_zero (- x)) by (rewrite H; reflexivity). reflexivity.
Qed.

Lemma round_sign_pos (x : Q) : 0 < x -> 0 < Py.round x.
Proof. intros H. rewrite round_positive by exact H. apply round_pos_positive, H. Qed.

Lemma round_sign_neg (x : Q) : x < 0 -> Py.round x < 0.
Proof.
  intros H. rewrite round_negative by exact H.
  pose proof (round_pos_positive (- x) ltac:(lra)). lra.
Qed.

Lemma round_mono (x x' : Q) : x <= x' -> Py.round x <= Py.round x'.
Proof.
  intros Hle.
  destruct (Q_dec x 0) as [[H | H] | H]; destruct (Q_dec x' 0) as [[H' | H'] | H'];
    try (exfalso; lra).
  - rewrite (round_negative x H), (round_negative x' H').
    pose proof (round_pos_mono (- x') (- x) ltac:(lra) ltac:(lra)). lra.
  - pose proof (round_sign_neg x H). pose proof (round_sign_pos x' H'). lra.
  - pose proof (round_sign_neg x H). rewrite (round_zero x' H'). lra.
  - rewrite (round_positive x H), (round_positive x' H').
    apply round_pos_mono; assumption.
  - pose proof (round_sign_pos x' H'). rewrite (round_zero x H). lra.
  - rewrite (round_zero x H), (round_zero x' H'). lra.
Qed.

Lemma round_error_nonneg (x : Q) :
  0 <= x ->
  x * (1 - Py.unit_roundoff) <= Py.round x <= x * (1 + Py.unit_roundoff).
Proof.
  intros Hx. destruct (Qle_lt_or_eq _ _ Hx) as [H | H].
  - rewrite round_positive by exact H. apply round_pos_error, H.
  - rewrite (round_zero x) by (symmetry; exact H). rewrite <- H. split; lra.
Qed.

(** Representable numbers are fixed. *)
Lemma round_pos_repr_lt (m e : Z) :
  (0 < m < 2 ^ 53)%Z ->
  Py.round_pos (inject_Z m * Py.pow2 e) == inject_Z m * Py.pow2 e.
Proof.
  intros [Hm1 Hm2].
  destruct (Z.log2_spec m Hm1) as [Hl1 Hl2]. pose proof (Z.log2_nonneg m) as Hl0.
  assert (Hl : (Z.log2 m <= 52)%Z).
  { apply Z.lt_succ_r. apply Z.log2_lt_pow2; [exact Hm1 | exact Hm2]. }
  set (lm := Z.log2 m) in *.
  pose proof (pow2_pos e) as He.
  set (x := inject_Z m * Py.pow2 e).
  assert (Hx : 0 < x).
  { apply Qmult_lt_0_compat; [| exact He]. change 0 with (inject_Z 0).
    rewrite <- Zlt_Qlt. exact Hm1. }
  assert (Hil : Py.ilog2 x = (lm + e)%Z).
  { apply ilog2_unique. unfold x. split.
    - rewrite pow2_add. apply Qmult_le_compat_r; [| lra].
      rewrite pow2_Z by lia. rewrite <- Zle_Qle. exact Hl1.
    - replace (lm + e + 1)%Z with ((lm + 1) + e)%Z by lia.
      rewrite pow2_add. apply Qmult_lt_r; [exact He |].
      rewrite pow2_Z by lia. rewrite <- Zlt_Qlt. exact Hl2. }
  unfold Py.round_pos. fold x. rewrite Hil.
  set (E := (lm + e - 52)%Z).
  pose proof (pow2_pos E) as HE.
  assert (Hy : x / Py.pow2 E == inject_Z (m * 2 ^ (52 - lm))).
  { rewrite inject_Z_mult, <- pow2_Z by lia.
    unfold x. rewrite (pow2_split e E).
    replace (e - E)%Z with (52 - lm)%Z by (unfold E; lia).
    field. lra. }
  rewrite (round_half_even_wd _ _ Hy), round_half_even_Z.
  rewrite <- Hy. field. lra.
Qed.

Lemma round_repr (m e : Z) :
  (0 <= m <= 2 ^ 53)%Z ->
  Py.round (inject_Z m * Py.pow2 e) == inject_Z m * Py.pow2 e.
Proof.
  intros [Hm1 Hm2]. pose proof (pow2_pos e) as He.
  destruct (Z.eq_dec m 0%Z) as [-> | Hne].
  - rewrite round_zero by ring. ring.
  - assert (Hx : 0 < inject_Z m * Py.pow2 e).
    { apply Qmult_lt_0_compat; [| exact He]. change 0 with (inject_Z 0).
      rewrite <- Zlt_Qlt. lia. }
    rewrite round_positive by exact Hx.
    destruct (Z.eq_dec m (2 ^ 53)%Z) as [-> | Hne'].
    + assert (E : inject_Z (2 ^ 53) * Py.pow2 e == inject_Z (2 ^ 52) * Py.pow2 (e + 1)).
      { rewrite pow2_add. change (Py.pow2 1) with 2.
        change (inject_Z (2 ^ 53)) with (2 * inject_Z (2 ^ 52)). ring. }
      rewrite (round_pos_wd _ _ Hx E), E.
      apply round_pos_repr_lt. lia.
    + apply round_pos_repr_lt. lia.
Qed.


Lemma is_float_spec (x : Q) : Py.is_float x = true <-> Py.round x == x.
Proof. unfold Py.is_float. apply Qeq_bool_iff. Qed.

Lemma float_repr (x : Q) :
  Py.is_float x = true -> 0 <= x ->
  exists m e, (0 <= m <= 2 ^ 53)%Z /\ x == inject_Z m * Py.pow2 e.
Proof.
  intros Hf Hx. apply is_float_spec in Hf.
  destruct (Qle_lt_or_eq _ _ Hx) as [H | H].
  - rewrite round_positive in Hf by exact H.
    destruct (round_pos_spec x H) as (E & [Hm1 Hm2] & _).
    rewrite E in Hf. eexists. eexists. split; [| symmetry; exact Hf]. lia.
  - exists 0%Z, 0%Z. split; [lia |]. rewrite <- H. reflexivity.
Qed.

Lemma round_is_float (x : Q) : Py.is_float (Py.round x) = true.
Proof.
  apply is_float_spec.
  assert (Hpos : forall y, 0 < y -> Py.round (Py.round y) == Py.round y).
  { intros y Hy.
    destruct (round_pos_spec y Hy) as (E & [Hm1 Hm2] & _).
    assert (Hr : Py.round y == inject_Z (Py.round_half_even (y / Py.pow2 (Py.ilog2 y - 52)))
                               * Py.pow2 (Py.ilog2 y - 52))
      by (rewrite round_positive by exact Hy; rewrite E; reflexivity).
    rewrite (round_wd _ _ Hr), Hr. apply round_repr. lia. }
  destruct (Q_dec x 0) as [[H | H] | H].
  - assert (E : Py.round x == - Py.round (- x)) by (rewrite round_opp; ring).
    rewrite (round_wd _ _ E), round_opp, Hpos by lra. symmetry. exact E.
  - apply Hpos, H.
  - rewrite (round_zero x H). reflexivity.
Qed.

Lemma is_float_wd (x x' : Q) : x == x' -> Py.is_float x = Py.is_float x'.
Proof.
  intros H. unfold Py.is_float. rewrite (round_wd x x' H).
  destruct (Qeq_bool (Py.round x') x) eqn:E1; destruct (Qeq_bool (Py.round x') x') eqn:E2;
    try reflexivity.
  - apply Qeq_bool_iff in E1. apply Qeq_bool_neq in E2. exfalso. apply E2. lra.
  - apply Qeq_bool_iff in E2. apply Qeq_bool_neq in E1. exfalso. apply E1. lra.
Qed.

Lemma is_float_Z (z : Z) : (Z.abs z <= 2 ^ 53)%Z -> Py.is_float (inject_Z z) = true.
Proof.
  intros Hz. apply is_float_spec.
  destruct (Z.le_gt_cases 0 z) as [Hpos | Hneg].
  - assert (E : inject_Z z == inject_Z z * Py.pow2 0) by (change (Py.pow2 0) with 1; ring).
    rewrite (round_wd _ _ E), round_repr by lia. symmetry. exact E.
  - assert (E : inject_Z z == - (inject_Z (- z) * Py.pow2 0)).
    { change (Py.pow2 0) with 1. rewrite inject_Z_opp. ring. }
    rewrite (round_wd _ _ E), round_opp, round_repr by lia. symmetry. exact E.
Qed.

(** Sterbenz: the difference of two floats within a factor 2 of each other
    is a float. *)
Lemma sterbenz (a b : Q) :
  Py.is_float a = true -> Py.is_float b = true ->
  0 < b -> b <= a -> a <= 2 * b ->
  Py.round (a - b) == a - b.
Proof.
  intros Ha Hb Hb0 Hba Hab.
  destruct (float_repr a Ha ltac:(lra)) as (ma & ea & [Hma1 Hma2] & Ea).
  destruct (float_repr b Hb ltac:(lra)) as (mb & eb & [Hmb1 Hmb2] & Eb).
  set (e0 := Z.min ea eb).
  set (M := (ma * 2 ^ (ea - e0) - mb * 2 ^ (eb - e0))%Z).
  pose proof (pow2_pos e0) as He0.
  assert (EM : a - b == inject_Z M * Py.pow2 e0).
  { unfold M. rewrite Ea, Eb.
    unfold Zminus at 1. rewrite inject_Z_plus, inject_Z_opp, !inject_Z_mult.
    rewrite <- !pow2_Z by (unfold e0; lia).
    rewrite (pow2_split ea e0), (pow2_split eb e0). ring. }
  assert (HM0 : (0 <= M)%Z).
  { rewrite Zle_Qle. change (inject_Z 0) with 0.
    destruct (Qlt_le_dec (inject_Z M) 0) as [Hlt | Hge]; [exfalso | exact Hge].
    assert (inject_Z M * Py.pow2 e0 < 0 * Py.pow2 e0) by (apply Qmult_lt_r; lra).
    lra. }
  assert (HM1 : (M <= 2 ^ 53)%Z).
  { destruct (Z.le_ge_cases ea eb) as [Hle | Hge].
    - (* e0 = ea *)
      assert (E0 : e0 = ea) by (unfold e0; lia).
      apply Z.le_trans with ma; [| exact Hma2].
      rewrite Zle_Qle.
      destruct (Qlt_le_dec (inject_Z ma) (inject_Z M)) as [Hlt | Hok]; [exfalso | exact Hok].
      assert (inject_Z ma * Py.pow2 e0 < inject_Z M * Py.pow2 e0)
        by (apply Qmult_lt_r; lra).
      rewrite E0 in H. rewrite E0 in EM. lra.
    - assert (E0 : e0 = eb) by (unfold e0; lia).
      apply Z.le_trans with mb; [| exact Hmb2].
      rewrite Zle_Qle.
      destruct (Qlt_le_dec (inject_Z mb) (inject_Z M)) as [Hlt | Hok]; [exfalso | exact Hok].
      assert (inject_Z mb * Py.pow2 e0 < inject_Z M * Py.pow2 e0)
        by (apply Qmult_lt_r; lra).
      rewrite E0 in H. rewrite E0 in EM. lra. }
  rewrite (round_wd _ _ EM), EM. apply round_repr. lia.
Qed.


Lemma float_div_nonzero (a b : Q) :
  ~ b == 0 -> Py.float_div a b = Py.Ok (Py.round (a / b)).
Proof.
  intros Hb. unfold Py.float_div.
  destruct (Qeq_bool b 0) eqn:E; [| reflexivity].
  apply Qeq_bool_iff in E. contradiction.
Qed.

Lemma float_div_zero (a b : Q) :
  b == 0 -> Py.float_div a b = Py.Raise Py.ZeroDivisionError.
Proof.
  intros Hb. unfold Py.float_div.
  apply Qeq_bool_iff in Hb. rewrite Hb. reflexivity.
Qed.

Lemma unit_roundoff_bounds : 0 < Py.unit_roundoff /\ Py.unit_roundoff < 1.
Proof. split; reflexivity. Qed.

Lemma round_nonneg (x : Q) : 0 <= x -> 0 <= Py.round x.
Proof.
  intros Hx. pose proof (round_mono 0 x Hx) as H.
  rewrite (round_zero 0) in H by reflexivity. exact H.
Qed.

Lemma round_nonpos (x : Q) : x <= 0 -> Py.round x <= 0.
Proof.
  intros Hx. pose proof (round_mono x 0 Hx) as H.
  rewrite (round_zero 0) in H by reflexivity. exact H.
Qed.

(** Rounding against a float: a float bound passes through [round]. *)
Lemma round_ge_float (x f : Q) : Py.is_float f = true -> f <= x -> f <= Py.round x.
Proof.
  intros Hf Hx. apply is_float_spec in Hf.
  pose proof (round_mono f x Hx). lra.
Qed.

Lemma round_le_float (x f : Q) : Py.is_float f = true -> x <= f -> Py.round x <= f.
Proof.
  intros Hf Hx. apply is_float_spec in Hf.
  pose proof (round_mono x f Hx). lra.
Qed.

(** Doubling is exact. *)
Lemma round_pos_double (x : Q) : 0 < x -> Py.round_pos (2 * x) == 2 * Py.round_pos x.
Proof.
  intros Hx. destruct (ilog2_spec x Hx) as [H1 H2].
  assert (Hil : Py.ilog2 (2 * x) = (Py.ilog2 x + 1)%Z).
  { apply ilog2_unique. rewrite (pow2_add _ 1) in H2.
    rewrite !(pow2_add _ 1). change (Py.pow2 1) with 2 in *. split; lra. }
  unfold Py.round_pos. rewrite Hil.
  replace (Py.ilog2 x + 1 - 52)%Z with ((Py.ilog2 x - 52) + 1)%Z by lia.
  set (e := (Py.ilog2 x - 52)%Z). pose proof (pow2_pos e) as He.
  assert (Hy : 2 * x / Py.pow2 (e + 1) == x / Py.pow2 e).
  { rewrite pow2_add. change (Py.pow2 1) with 2. field. lra. }
  rewrite (round_half_even_wd _ _ Hy), pow2_add. change (Py.pow2 1) with 2. ring.
Qed.

Lemma round_double (x : Q) : Py.round (2 * x) == 2 * Py.round x.
Proof.
  destruct (Q_dec x 0) as [[H | H] | H].
  - assert (H2 : 2 * x < 0) by lra. assert (H3 : 0 < - (2 * x)) by lra.
    rewrite (round_negative x H), (round_negative (2 * x) H2).
    assert (E : - (2 * x) == 2 * - x) by ring.
    rewrite (round_pos_wd _ _ H3 E), round_pos_double by lra. ring.
  - assert (H2 : 0 < 2 * x) by lra.
    rewrite (round_positive x H), (round_positive (2 * x) H2).
    apply round_pos_double, H.
  - rewrite (round_zero x H), (round_zero (2 * x)) by (rewrite H; reflexivity).
    reflexivity.
Qed.

End FloatFacts.


(** ** [TechnicalAnalyzer._cluster_levels] *)

Section ClusterLevels.
Import TechnicalAnalyzer.
Local Open Scope Q_scope.

Variable threshold : Q.

Lemma cluster_step_snoc (acc : list Q) (c x : Q) :
  0 < c ->
  cluster_step threshold (acc ++ [c]) x
  = Py.Ok (if Py.gtb (relative_gap x c) threshold
           then (acc ++ [c]) ++ [x] else acc ++ [c]).
Proof.
  intros Hc. unfold cluster_step. rewrite last_snoc.
  rewrite float_div_nonzero by lra. cbn [Py.bind].
  change (Py.round (Qabs (Py.fsub x c) / c)) with (relative_gap x c).
  destruct (Py.gtb (relative_gap x c) threshold); reflexivity.
Qed.

(** The accumulator loop of the source computes [cluster_from]. *)
Lemma foldM_cluster_step (rest : list Q) : forall (acc : list Q) (c : Q),
  Forall (fun x => 0 < x) (c :: rest) ->
  Py.foldM (cluster_step threshold) (acc ++ [c]) rest
  = Py.Ok (acc ++ c :: cluster_from threshold c rest).
Proof.
  induction rest as [| x rest IH]; intros acc c Hpos; cbn [Py.foldM cluster_from].
  - reflexivity.
  - inversion Hpos as [| ? ? Hc Hrest]; subst.
    inversion Hrest as [| ? ? Hx Hrest']; subst.
    rewrite cluster_step_snoc by exact Hc. cbn [Py.bind].
    destruct (Py.gtb (relative_gap x c) threshold).
    + rewrite (IH (acc ++ [c]) x) by (constructor; assumption).
      rewrite <- app_assoc. reflexivity.
    + apply IH. constructor; assumption.
Qed.

Lemma cluster_levels_eq (levels : list Q) (first : Q) (rest : list Q) :
  Forall (fun x => 0 < x) levels ->
  Py.sorted levels = first :: rest ->
  _cluster_levels levels threshold
  = Py.Ok (first :: cluster_from threshold first rest).
Proof.
  intros Hpos Hs. unfold _cluster_levels.
  destruct levels as [| a levels]; [discriminate Hs |].
  rewrite Hs.
  apply (foldM_cluster_step rest [] first).
  rewrite <- Hs.
  eapply Permutation_Forall; [symmetry; apply sorted_perm | exact Hpos].
Qed.

Lemma cluster_from_Forall (P : Q -> Prop) (rest : list Q) : forall c,
  Forall P rest -> Forall P (cluster_from threshold c rest).
Proof.
  induction rest as [| x rest IH]; intros c H; cbn [cluster_from apart].
  - constructor.
  - inversion H; subst.
    destruct (Py.gtb (relative_gap x c) threshold); [constructor |]; auto.
Qed.

Lemma cluster_from_sorted (rest : list Q) : forall c,
  StronglySorted Qle (c :: rest) ->
  StronglySorted Qle (c :: cluster_from threshold c rest).
Proof.
  induction rest as [| x rest IH]; intros c H; cbn [cluster_from apart].
  - exact H.
  - inversion H as [| ? ? Hs Hall]; subst.
    inversion Hs as [| ? ? Hs' Hall']; subst.
    inversion Hall as [| ? ? Hcx Hcrest]; subst.
    destruct (Py.gtb (relative_gap x c) threshold).
    + constructor.
      * apply IH. exact Hs.
      * constructor; [exact Hcx |].
        apply cluster_from_Forall. exact Hcrest.
    + apply IH. constructor; assumption.
Qed.

Lemma cluster_from_apart (rest : list Q) : forall c,
  apart threshold c (cluster_from threshold c rest).
Proof.
  induction rest as [| x rest IH]; intros c; cbn [cluster_from apart].
  - exact I.
  - destruct (Py.gtb (relative_gap x c) threshold) eqn:E; cbn [apart]; auto.
Qed.

Lemma apart_fixed (out : list Q) : forall c,
  apart threshold c out -> cluster_from threshold c out = out.
Proof.
  induction out as [| x out IH]; intros c H; cbn [cluster_from apart].
  - reflexivity.
  - destruct H as [Hx Hout]. rewrite Hx. f_equal. apply IH. exact Hout.
Qed.

Lemma self_within (c : Q) : 0 <= threshold -> relative_gap c c <= threshold.
Proof.
  intros Hthr. unfold relative_gap, Py.fsub.
  rewrite (round_zero (c - c)) by ring.
  rewrite round_zero by reflexivity. exact Hthr.
Qed.

(** Every visited level is represented: some member of the clustered list
    lies at or below it, and the loop test found the level within the
    tolerance of that member. *)
Lemma cluster_from_covers (rest : list Q) : forall c x,
  0 <= threshold ->
  StronglySorted Qle (c :: rest) ->
  0 < c ->
  In x (c :: rest) ->
  exists m, In m (c :: cluster_from threshold c rest)
            /\ m <= x /\ relative_gap x m <= threshold.
Proof.
  induction rest as [| y rest IH]; intros c x Hthr Hs Hc Hin.
  - destruct Hin as [<- | []]. exists c. split; [left; reflexivity |].
    split; [lra |].
    apply self_within. exact Hthr.
  - inversion Hs as [| ? ? Hs' Hall]; subst.
    inversion Hall as [| ? ? Hcy Hcrest]; subst.
    inversion Hs' as [| ? ? Hs'' Hyrest]; subst.
    cbn [cluster_from]. destruct Hin as [<- | [<- | Hin]].
    + exists c. split; [left; reflexivity |]. split; [lra |].
      apply self_within. exact Hthr.
    + destruct (Py.gtb (relative_gap y c) threshold) eqn:E.
      * exists y. split; [right; left; reflexivity |]. split; [lra |].
        apply self_within. exact Hthr.
      * exists c. split; [left; reflexivity |]. split; [exact Hcy |].
        apply gtb_false. exact E.
    + destruct (Py.gtb (relative_gap y c) threshold) eqn:E.
      * destruct (IH y x Hthr Hs' ltac:(lra) (or_intror Hin)) as (m & Hm & Hle & Hd).
        exists m. split; [right; exact Hm | split; assumption].
      * apply (IH c x Hthr); [| exact Hc | right; exact Hin].
        constructor; assumption.
Qed.

(** The computed gap against the exact relative distance.  Between floats
    at most a factor 2 apart the subtraction is exact, so a level within
    the tolerance of the member is found within it; conversely a level
    found within the tolerance is within it up to two roundings. *)
Lemma relative_gap_within (x c : Q) :
  Py.is_float x = true -> Py.is_float c = true -> Py.is_float threshold = true ->
  0 < c -> c <= x -> threshold <= 1 ->
  (x - c) / c <= threshold -> relative_gap x c <= threshold.
Proof.
  intros Hx Hc Ht Hc0 Hcx Ht1 Hw.
  assert (Hx2 : x <= 2 * c).
  { assert (E : x - c == (x - c) / c * c) by (field; lra).
    assert ((x - c) / c * c <= threshold * c) by (apply Qmult_le_compat_r; lra).
    assert (threshold * c <= 1 * c) by (apply Qmult_le_compat_r; lra).
    lra. }
  unfold relative_gap, Py.fsub.
  assert (E : Qabs (Py.round (x - c)) / c == (x - c) / c).
  { rewrite (sterbenz x c Hx Hc Hc0 Hcx Hx2), Qabs_pos by lra. reflexivity. }
  rewrite (round_wd _ _ E).
  apply is_float_spec in Ht. rewrite <- Ht. apply round_mono. exact Hw.
Qed.

Lemma relative_gap_found (x c : Q) :
  0 < c -> c <= x ->
  relative_gap x c <= threshold ->
  (x - c) / c * (1 - Py.unit_roundoff) * (1 - Py.unit_roundoff) <= threshold.
Proof.
  intros Hc0 Hcx Hg. unfold relative_gap, Py.fsub in Hg.
  destruct unit_roundoff_bounds as [Hu0 Hu1].
  destruct (round_error_nonneg (x - c) ltac:(lra)) as [Hd _].
  assert (Hd0 : 0 <= Py.round (x - c)).
  { assert (0 <= (x - c) * (1 - Py.unit_roundoff)) by (apply Qmult_le_0_compat; lra). lra. }
  assert (Ea : Qabs (Py.round (x - c)) / c == Py.round (x - c) / c)
    by (rewrite Qabs_pos by exact Hd0; reflexivity).
  rewrite (round_wd _ _ Ea) in Hg.
  assert (Hq0 : 0 <= Py.round (x - c) / c) by (apply Qle_shift_div_l; lra).
  destruct (round_error_nonneg _ Hq0) as [Hq _].
  set (u := Py.unit_roundoff) in *. set (d := Py.round (x - c)) in *.
  assert (H1 : (x - c) * (1 - u) / c <= d / c).
  { unfold Qdiv. apply Qmult_le_compat_r; [exact Hd |].
    apply Qinv_le_0_compat. lra. }
  assert (H2 : (x - c) * (1 - u) / c * (1 - u) <= d / c * (1 - u))
    by (apply Qmult_le_compat_r; lra).
  assert (E : (x - c) / c * (1 - u) * (1 - u) == (x - c) * (1 - u) / c * (1 - u))
    by (field; lra).
  lra.
Qed.

End ClusterLevels.

Section ClusterLevelsClaims.
Import TechnicalAnalyzer.
Local Open Scope Q_scope.

Lemma sorted_cons_inv (levels : list Q) :
  levels <> [] -> exists first rest, Py.sorted levels = first :: rest.
Proof.
  intros Hne. destruct (Py.sorted levels) as [| first rest] eqn:E.
  - pose proof (sorted_perm levels) as Hp. rewrite E in Hp.
    apply Permutation_nil in Hp. contradiction.
  - eauto.
Qed.

Lemma sorted_StronglySorted (levels : list Q) :
  StronglySorted Qle (Py.sorted levels).
Proof.
  apply Sorted_StronglySorted; [| apply sorted_Sorted].
  intros a b c. apply Qle_trans.
Qed.

(** C10.  [_cluster_levels] is idempotent on non-empty lists of strictly
    positive levels: it returns a list on which a second application
    returns the same list; that list is sorted ascending and starts with a
    minimum of the input (a member of the input below every other one). *)
Theorem cluster_levels_idempotent (levels : list Q) (threshold : Q) :
  levels <> [] ->
  Forall (fun x => 0 < x) levels ->
  exists (out : list Q) (lowest : Q),
    _cluster_levels levels threshold = Py.Ok out
    /\ _cluster_levels out threshold = Py.Ok out
    /\ Sorted Qle out
    /\ head out = Some lowest
    /\ In lowest levels
    /\ Forall (fun x => lowest <= x) levels.
Proof.
  intros Hne Hpos.
  destruct (sorted_cons_inv levels Hne) as (first & rest & Hs).
  pose proof (sorted_StronglySorted levels) as Hss. rewrite Hs in Hss.
  pose proof (sorted_perm levels) as Hperm. rewrite Hs in Hperm.
  assert (Hpos' : Forall (fun x => 0 < x) (first :: rest))
    by (eapply Permutation_Forall; [symmetry; exact Hperm | exact Hpos]).
  pose proof (cluster_from_sorted threshold rest first Hss) as Hout.
  exists (first :: cluster_from threshold first rest), first.
  split; [apply cluster_levels_eq; assumption |].
  split.
  - rewrite (cluster_levels_eq threshold _ first (cluster_from threshold first rest)).
    + rewrite apart_fixed by apply cluster_from_apart. reflexivity.
    + inversion Hpos'; subst. constructor; [assumption |].
      apply cluster_from_Forall. assumption.
    + apply sorted_fixed, StronglySorted_Sorted. exact Hout.
  - split; [apply StronglySorted_Sorted; exact Hout |].
    split; [reflexivity |].
    split.
    + eapply Permutation_in; [exact Hperm | left; reflexivity].
    + eapply Permutation_Forall; [exact Hperm |].
      inversion Hss as [| ? ? _ Hall]; subst.
      constructor; [lra | exact Hall].
Qed.

Lemma cluster_levels_idempotent_witness :
  let levels := [100.05; 105; 100] in
  levels <> []
  /\ Forall (fun x => 0 < x) levels
  /\ exists out lowest,
       _cluster_levels levels default_threshold = Py.Ok out
       /\ _cluster_levels out default_threshold = Py.Ok out
       /\ Sorted Qle out
       /\ head out = Some lowest
       /\ In lowest levels
       /\ Forall (fun x => lowest <= x) levels.
Proof.
  assert (Hne : [100.05; 105; 100] <> []) by discriminate.
  assert (Hpos : Forall (fun x => 0 < x) [100.05; 105; 100])
    by (repeat constructor).
  split; [exact Hne |]. split; [exact Hpos |].
  exact (cluster_levels_idempotent [100.05; 105; 100] default_threshold Hne Hpos).
Defined.

End ClusterLevelsClaims.

(** ** [TechnicalAnalyzer.identify_support_resistance] *)

Section SupportResistance.
Import TechnicalAnalyzer.
Local Open Scope Q_scope.

Lemma further_still (threshold c x y : Q) :
  0 < c -> x <= y ->
  threshold < (x - c) / c -> threshold < (y - c) / c.
Proof.
  intros Hc Hxy Hfar.
  eapply Qlt_le_trans; [exact Hfar |].
  unfold Qdiv. apply Qmult_le_compat_r; [lra |].
  apply Qinv_le_0_compat. lra.
Qed.

(** Any two members of a clustered list of floats are further apart than
    the tolerance, measured exactly from the lower one. *)
Lemma cluster_from_pairwise (threshold : Q) (rest : list Q) : forall c,
  Py.is_float threshold = true -> threshold <= 1 ->
  Forall (fun x => 0 < x /\ Py.is_float x = true) (c :: rest) ->
  StronglySorted Qle (c :: rest) ->
  ForallOrdPairs (fun a b => threshold < (b - a) / a)
                 (c :: cluster_from threshold c rest).
Proof.
  intros c Ht Ht1. revert c.
  induction rest as [| x rest IH]; intros c Hpos Hs; cbn [cluster_from].
  - constructor; constructor.
  - inversion Hpos as [| ? ? [Hc Hcf] Hpos']; subst.
    inversion Hpos' as [| ? ? [Hx Hxf] Hpos'']; subst.
    inversion Hs as [| ? ? Hs' Hall]; subst.
    inversion Hall as [| ? ? Hcx Hcrest]; subst.
    inversion Hs' as [| ? ? Hs'' Hxrest]; subst.
    destruct (Py.gtb (relative_gap x c) threshold) eqn:E.
    + apply gtb_spec in E.
      assert (Hfar : threshold < (x - c) / c).
      { destruct (Qlt_le_dec threshold ((x - c) / c)) as [H | H]; [exact H |].
        pose proof (relative_gap_within threshold x c Hxf Hcf Ht Hc Hcx Ht1 H). lra. }
      constructor; [| apply IH; assumption].
      constructor; [exact Hfar |].
      apply cluster_from_Forall.
      eapply Forall_impl; [exact Hxrest |].
      intros y Hxy. cbn beta. apply (further_still threshold c x y); assumption.
    + apply IH.
      * constructor; [split; assumption | exact Hpos''].
      * constructor; assumption.
Qed.

Lemma cluster_levels_total (threshold : Q) (levels : list Q) :
  Forall (fun x => 0 < x) levels ->
  exists out, _cluster_levels levels threshold = Py.Ok out
              /\ (levels <> [] -> out <> []).
Proof.
  intros Hpos. destruct levels as [| a levels].
  - exists []. split; [reflexivity | intros H; contradiction].
  - destruct (sorted_cons_inv (a :: levels)) as (first & rest & Hs); [discriminate |].
    eexists. split; [apply cluster_levels_eq; eassumption | discriminate].
Qed.

(** Truncating a descending list keeps the largest entries. *)
Lemma take_descending (n : nat) (l : list Q) :
  StronglySorted (fun a b => b <= a) l ->
  StronglySorted (fun a b => b <= a) (take n l)
  /\ Forall (fun d => Forall (fun k => d <= k) (take n l)) (drop n l).
Proof.
  intros Hs. revert n.
  induction Hs as [| x l Hs IH Hall]; intros n.
  - rewrite take_nil, drop_nil. split; constructor.
  - destruct n as [| n]; cbn [take drop].
    + split; [constructor |].
      apply Forall_forall. intros; constructor.
    + destruct (IH n) as [IH1 IH2]. split.
      * constructor; [exact IH1 | apply Forall_take; exact Hall].
      * rewrite Forall_forall in IH2 |- *. intros d Hd.
        constructor; [| apply IH2; exact Hd].
        pose proof (Forall_drop _ n _ Hall) as Hall'.
        rewrite Forall_forall in Hall'. apply Hall'. exact Hd.
Qed.

Lemma slice_top5 (clustered : list Q) :
  top5_of_clusters clustered (Py.slice_to 5 (Py.sorted_reverse clustered)).
Proof.
  unfold Py.slice_to.
  assert (Hss : StronglySorted (fun a b => b <= a) (Py.sorted_reverse clustered)).
  { apply Sorted_StronglySorted; [| apply sorted_reverse_Sorted].
    intros a b c Hab Hbc. lra. }
  destruct (take_descending 5 _ Hss) as [Hk Hd].
  exists (drop 5 (Py.sorted_reverse clustered)).
  split; [rewrite take_drop; symmetry; apply sorted_reverse_perm |].
  split.
  { rewrite length_take.
    rewrite (Permutation_length (sorted_reverse_perm clustered)). reflexivity. }
  split; [apply StronglySorted_Sorted; exact Hk | exact Hd].
Qed.

Lemma peaks_Forall (P : Q -> Prop) (beats : Q -> Q -> bool) (xs : list Q) :
  Forall P xs -> Forall P (peaks beats xs).
Proof.
  intros Hxs. apply List.Forall_forall. intros x Hin.
  unfold peaks in Hin. apply in_flat_map in Hin as (i & Hi & Hx).
  apply in_seq in Hi. unfold peak_at in Hx.
  destruct (_ && _) in Hx; [| destruct Hx].
  destruct Hx as [<- | []].
  rewrite List.Forall_forall in Hxs. apply Hxs, nth_In. lia.
Qed.

Lemma fold_max2_In (l : list Q) : forall x, In (fold_left Py.max2 l x) (x :: l).
Proof.
  induction l as [| y l IH]; intros x; cbn [fold_left].
  - left; reflexivity.
  - unfold Py.max2 at 2. destruct (Qlt_le_dec x y).
    + right. apply IH.
    + destruct (IH x) as [H | H]; [left; exact H | right; right; exact H].
Qed.

Lemma fold_min2_In (l : list Q) : forall x, In (fold_left Py.min2 l x) (x :: l).
Proof.
  induction l as [| y l IH]; intros x; cbn [fold_left].
  - left; reflexivity.
  - unfold Py.min2 at 2. destruct (Qlt_le_dec y x).
    + right. apply IH.
    + destruct (IH x) as [H | H]; [left; exact H | right; right; exact H].
Qed.

(** With at least one candle and a non-negative [lookback], the window
    [data[-lookback:]] is not empty. *)
Lemma recent_data_nonempty {A} (data : list A) (lookback : Z) :
  data <> [] -> (0 <= lookback)%Z ->
  Py.slice_from (- Z.min lookback (Z.of_nat (length data))) data <> [].
Proof.
  intros Hne Hlb Hnil. unfold Py.slice_from in Hnil.
  apply drop_nil_inv in Hnil.
  assert (0 < length data)%nat by (destruct data; [contradiction | cbn; lia]).
  destruct (Z.ltb_spec (- Z.min lookback (Z.of_nat (length data))) 0); lia.
Qed.

(** On positive prices and a non-negative [lookback] the detection never
    raises.  Below 5 candles both sides are empty; otherwise each side is
    the top 5 of the clusters of its candidate levels: the peaks of the
    window followed by its extreme. *)
Lemma identify_support_resistance_levels (data : list Candle) (lookback : Z) :
  Forall (fun c => 0 < high c /\ 0 < low c) data ->
  (0 <= lookback)%Z ->
  exists r,
    identify_support_resistance data lookback = Py.Ok r
    /\ ((length data < 5)%nat -> r = mkLevels [] [])
    /\ ((5 <= length data)%nat ->
        let recent :=
          Py.slice_from (- Z.min lookback (Z.of_nat (length data))) data in
        exists hi lo cr cs,
          Py.max_list (map high recent) = Py.Ok hi
          /\ Py.min_list (map low recent) = Py.Ok lo
          /\ _cluster_levels (peaks Py.gtb (map high recent) ++ [hi])
               default_threshold = Py.Ok cr
          /\ _cluster_levels (peaks Py.ltb (map low recent) ++ [lo])
               default_threshold = Py.Ok cs
          /\ cr <> [] /\ cs <> []
          /\ top5_of_clusters cr (resistance r)
          /\ top5_of_clusters cs (support r)).
Proof.
  intros Hpos Hlb. unfold identify_support_resistance.
  destruct (Z.ltb_spec (Z.of_nat (length data)) 5) as [Hshort | Hlong].
  - eexists. split; [reflexivity |]. split; [reflexivity | lia].
  - set (recent := Py.slice_from (- Z.min lookback (Z.of_nat (length data))) data).
    assert (Hrec : recent <> []).
    { apply recent_data_nonempty; [| exact Hlb]. intros ->. cbn in Hlong. lia. }
    assert (Hrpos : Forall (fun c => 0 < high c /\ 0 < low c) recent)
      by (apply Forall_drop; exact Hpos).
    assert (Hhigh : Forall (fun x => 0 < x) (map high recent)).
    { apply Forall_map. eapply Forall_impl; [exact Hrpos |]. intros c [H _]. exact H. }
    assert (Hlow : Forall (fun x => 0 < x) (map low recent)).
    { apply Forall_map. eapply Forall_impl; [exact Hrpos |]. intros c [_ H]. exact H. }
    set (highs := map high recent) in *. set (lows := map low recent) in *.
    destruct (Py.max_list highs) as [hi | e] eqn:Ehi;
      [| destruct recent; [contradiction | discriminate Ehi]].
    destruct (Py.min_list lows) as [lo | e] eqn:Elo;
      [| destruct recent; [contradiction | discriminate Elo]].
    cbn [Py.bind].
    assert (Hhi : 0 < hi).
    { destruct highs as [| h0 highs'] eqn:Eh; [discriminate Ehi |].
      injection Ehi as <-.
      rewrite List.Forall_forall in Hhigh. apply Hhigh. apply fold_max2_In. }
    assert (Hlo : 0 < lo).
    { destruct lows as [| l0 lows'] eqn:El; [discriminate Elo |].
      injection Elo as <-.
      rewrite List.Forall_forall in Hlow. apply Hlow. apply fold_min2_In. }
    destruct (cluster_levels_total default_threshold (peaks Py.gtb highs ++ [hi]))
      as (cr & Hcr & Hcrne).
    { apply Forall_app. split; [apply peaks_Forall; exact Hhigh |].
      constructor; [exact Hhi | constructor]. }
    destruct (cluster_levels_total default_threshold (peaks Py.ltb lows ++ [lo]))
      as (cs & Hcs & Hcsne).
    { apply Forall_app. split; [apply peaks_Forall; exact Hlow |].
      constructor; [exact Hlo | constructor]. }
    rewrite Hcr, Hcs. cbn [Py.bind].
    eexists. split; [reflexivity |]. split; [lia |]. intros _.
    exists hi, lo, cr, cs. cbn [resistance support].
    split; [reflexivity |]. split; [reflexivity |].
    split; [exact Hcr |]. split; [exact Hcs |].
    split; [apply Hcrne; destruct (peaks Py.gtb highs); discriminate |].
    split; [apply Hcsne; destruct (peaks Py.ltb lows); discriminate |].
    split; apply slice_top5.
Qed.

Lemma identify_support_resistance_top5 (data : list Candle) (lookback : Z) :
  Forall (fun c => 0 < high c /\ 0 < low c) data ->
  (0 <= lookback)%Z ->
  exists r, identify_support_resistance data lookback = Py.Ok r
            /\ (length (resistance r) <= 5)%nat
            /\ (length (support r) <= 5)%nat.
Proof.
  intros Hpos Hlb.
  destruct (identify_support_resistance_levels data lookback Hpos Hlb)
    as (r & Hr & Hshort & Hlong).
  exists r. split; [exact Hr |].
  destruct (Nat.lt_ge_cases (length data) 5) as [H | H].
  - rewrite (Hshort H). cbn. lia.
  - destruct (Hlong H) as (hi & lo & cr & cs & _ & _ & _ & _ & _ & _
                           & (dr & _ & Hlr & _) & (ds & _ & Hls & _)).
    lia.
Qed.

Lemma scale_le (r t a p : Q) :
  0 <= r -> 0 < p -> 1 <= a * p -> r * a <= t -> r <= t * p.
Proof. intros Hr Hp Hap Hra. nra. Qed.

Lemma widened_tolerance (r t : Q) :
  0 <= r ->
  r * (1 - Py.unit_roundoff) * (1 - Py.unit_roundoff) <= t ->
  r <= t * (1 + Py.pow2 (-51)).
Proof.
  intros Hr H.
  apply (scale_le r t ((1 - Py.unit_roundoff) * (1 - Py.unit_roundoff))).
  - exact Hr.
  - reflexivity.
  - vm_compute. discriminate.
  - rewrite Qmult_assoc. exact H.
Qed.

Lemma default_threshold_float :
  Py.is_float default_threshold = true
  /\ 0 <= default_threshold /\ default_threshold <= 1.
Proof. split; [vm_compute; reflexivity | split; vm_compute; discriminate]. Qed.

(** C4 (amended to strictly positive levels and prices, a non-negative
    lookback, and a coverage stated up to rounding).  On strictly positive
    floats, clustering with the default tolerance returns an ascending list
    of input levels in which no member lies within the tolerance 0.1% of a
    member below it: a level within the tolerance of its cluster's member
    is always merged.  Every input level has been merged into a member at
    or below it that it exceeds by at most the tolerance, widened by one
    part in 2^51 for the rounding of the computed quotient.  The levels
    100.0, 100.05, 105.0 give exactly 100.0, 105.0.  On positive candle
    prices the support / resistance output is empty below 5 candles and
    otherwise keeps, on each side, the 5 largest clusters of the candidate
    levels (all of them when there are fewer), in descending order. *)
Theorem cluster_levels_tolerance_top5
  (levels : list Q) (data : list Candle) (lookback : Z) :
  Forall (fun x => 0 < x /\ Py.is_float x = true) levels ->
  Forall (fun c => 0 < high c /\ 0 < low c) data ->
  (0 <= lookback)%Z ->
  cluster_claim levels
  /\ (exists out,
        _cluster_levels levels default_threshold = Py.Ok out
        /\ forall x, In x levels ->
             exists m, In m out /\ m <= x
                       /\ (x - m) / m <= default_threshold * (1 + Py.pow2 (-51)))
  /\ _cluster_levels [100; Py.round 100.05; 105] default_threshold = Py.Ok [100; 105]
  /\ (exists r,
        identify_support_resistance data lookback = Py.Ok r
        /\ ((length data < 5)%nat -> r = mkLevels [] [])
        /\ ((5 <= length data)%nat ->
            let recent :=
              Py.slice_from (- Z.min lookback (Z.of_nat (length data))) data in
            exists hi lo cr cs,
              Py.max_list (map high recent) = Py.Ok hi
              /\ Py.min_list (map low recent) = Py.Ok lo
              /\ _cluster_levels (peaks Py.gtb (map high recent) ++ [hi])
                   default_threshold = Py.Ok cr
              /\ _cluster_levels (peaks Py.ltb (map low recent) ++ [lo])
                   default_threshold = Py.Ok cs
              /\ cr <> [] /\ cs <> []
              /\ top5_of_clusters cr (resistance r)
              /\ top5_of_clusters cs (support r))).
Proof.
  intros Hlev Hdata Hlb.
  destruct default_threshold_float as (Htf & Ht0 & Ht1).
  assert (Hpos : Forall (fun x => 0 < x) levels).
  { eapply Forall_impl; [exact Hlev |]. intros x [H _]. exact H. }
  assert (Hcl : exists out,
            _cluster_levels levels default_threshold = Py.Ok out
            /\ Sorted Qle out
            /\ (forall m, In m out -> In m levels)
            /\ ForallOrdPairs (fun a b => default_threshold < (b - a) / a) out
            /\ forall x, In x levels ->
                 exists m, In m out /\ m <= x
                           /\ (x - m) / m <= default_threshold * (1 + Py.pow2 (-51))).
  { destruct levels as [| a levels].
    - exists []. split; [reflexivity |]. split; [constructor |].
      split; [intros m [] |]. split; [constructor |]. intros x [].
    - destruct (sorted_cons_inv (a :: levels)) as (first & rest & Hs); [discriminate |].
      pose proof (sorted_StronglySorted (a :: levels)) as Hss. rewrite Hs in Hss.
      pose proof (sorted_perm (a :: levels)) as Hperm. rewrite Hs in Hperm.
      assert (Hlev' : Forall (fun x => 0 < x /\ Py.is_float x = true) (first :: rest))
        by (eapply Permutation_Forall; [symmetry; exact Hperm | exact Hlev]).
      assert (Hfirst : 0 < first) by (inversion Hlev' as [| ? ? [H _] _]; exact H).
      assert (Hout : forall m, In m (first :: cluster_from default_threshold first rest)
                               -> In m (first :: rest)).
      { intros m Hm. destruct Hm as [<- | Hm]; [left; reflexivity | right].
        assert (HF : Forall (fun y => In y rest)
                            (cluster_from default_threshold first rest)).
        { apply cluster_from_Forall. apply List.Forall_forall. auto. }
        rewrite List.Forall_forall in HF. apply HF. exact Hm. }
      exists (first :: cluster_from default_threshold first rest).
      split; [apply cluster_levels_eq; assumption |].
      split; [apply StronglySorted_Sorted, cluster_from_sorted; exact Hss |].
      split; [intros m Hm; eapply Permutation_in; [exact Hperm | apply Hout; exact Hm] |].
      split; [apply cluster_from_pairwise; assumption |].
      intros x Hx.
      destruct (cluster_from_covers default_threshold rest first x Ht0 Hss Hfirst)
        as (m & Hm & Hmx & Hgap).
      { eapply Permutation_in; [symmetry; exact Hperm | exact Hx]. }
      assert (Hm0 : 0 < m).
      { rewrite List.Forall_forall in Hlev'. apply (Hlev' m). apply Hout. exact Hm. }
      exists m. split; [exact Hm |]. split; [exact Hmx |].
      apply widened_tolerance.
      + apply Qle_shift_div_l; lra.
      + apply relative_gap_found; assumption. }
  destruct Hcl as (out & Hout & Hsorted & Hmem & Hpair & Hcov).
  split; [exists out; repeat split; assumption |].
  split; [exists out; split; assumption |].
  split; [vm_compute; reflexivity |].
  apply identify_support_resistance_levels; assumption.
Qed.

Lemma cluster_levels_tolerance_top5_witness :
  let levels := [100; Py.round 100.05; 105] in
  let candle p := mkCandle 0 p (p + 1) (p - 1) p 0 in
  let data := map candle [2001; 2003; 2002; 2006; 2004; 2005] in
  Forall (fun x => 0 < x /\ Py.is_float x = true) levels
  /\ Forall (fun c => 0 < high c /\ 0 < low c) data
  /\ (0 <= default_lookback)%Z
  /\ cluster_claim levels
  /\ (exists out,
        _cluster_levels levels default_threshold = Py.Ok out
        /\ forall x, In x levels ->
             exists m, In m out /\ m <= x
                       /\ (x - m) / m <= default_threshold * (1 + Py.pow2 (-51)))
  /\ _cluster_levels [100; Py.round 100.05; 105] default_threshold = Py.Ok [100; 105]
  /\ (exists r,
        identify_support_resistance data default_lookback = Py.Ok r
        /\ ((length data < 5)%nat -> r = mkLevels [] [])
        /\ ((5 <= length data)%nat ->
            let recent :=
              Py.slice_from (- Z.min default_lookback (Z.of_nat (length data))) data in
            exists hi lo cr cs,
              Py.max_list (map high recent) = Py.Ok hi
              /\ Py.min_list (map low recent) = Py.Ok lo
              /\ _cluster_levels (peaks Py.gtb (map high recent) ++ [hi])
                   default_threshold = Py.Ok cr
              /\ _cluster_levels (peaks Py.ltb (map low recent) ++ [lo])
                   default_threshold = Py.Ok cs
              /\ cr <> [] /\ cs <> []
              /\ top5_of_clusters cr (resistance r)
              /\ top5_of_clusters cs (support r))).
Proof.
  set (candle p := mkCandle 0 p (p + 1) (p - 1) p 0).
  assert (H1 : Forall (fun x => 0 < x /\ Py.is_float x = true)
                      [100; Py.round 100.05; 105])
    by (repeat (constructor; [split; vm_compute; reflexivity |]); constructor).
  assert (H2 : Forall (fun c => 0 < high c /\ 0 < low c)
                      (map candle [2001; 2003; 2002; 2006; 2004; 2005]))
    by (repeat constructor).
  assert (H3 : (0 <= default_lookback)%Z) by (unfold default_lookback; lia).
  split; [exact H1 |]. split; [exact H2 |]. split; [exact H3 |].
  exact (cluster_levels_tolerance_top5 _ _ _ H1 H2 H3).
Defined.

(** The statement does not hold of every list of levels: with a level of
    0 the relative distance divides by zero and no clustered list is
    returned. *)
Lemma cluster_levels_zero_level : ~ cluster_claim [0; 1].
Proof.
  intros (out & Hout & _). vm_compute in Hout. discriminate Hout.
Qed.

(** At the edge of the tolerance the float quotient decides: the exact
    relative gap is 0.001 in both pairs, yet 1767.52576 is merged into
    1765.76 and 1991.99 is kept apart from 1990. *)
Example cluster_levels_boundary :
  _cluster_levels [Py.round 1765.76; Py.round 1767.52576] default_threshold
  = Py.Ok [Py.round 1765.76]
  /\ _cluster_levels [1990; Py.round 1991.99] default_threshold
     = Py.Ok [1990; Py.round 1991.99].
Proof. split; vm_compute; reflexivity. Qed.

(** The candles of the witness above: one resistance cluster per peak. *)
Example identify_support_resistance_example :
  let candle p := mkCandle 0 p (p + 1) (p - 1) p 0 in
  option_map resistance
    (match identify_support_resistance
             (map candle [2001; 2003; 2002; 2006; 2004; 2005; 2000; 2001])
             default_lookback with
     | Py.Ok r => Some r
     | Py.Raise _ => None
     end)
  = Some [2007].
Proof. vm_compute. reflexivity. Qed.

End SupportResistance.

(** ** [TechnicalAnalyzer.calculate_rsi] *)

Section RSI.
Import TechnicalAnalyzer.
Local Open Scope Q_scope.

Lemma fold_plus_shift (l : list Q) : forall a,
  fold_left Qplus l a == a + Py.sum l.
Proof.
  unfold Py.sum. induction l as [| x l IH]; intros a; cbn [fold_left].
  - ring.
  - rewrite (IH (a + x)), (IH (0 + x)). ring.
Qed.

Lemma sum_cons (x : Q) (l : list Q) : Py.sum (x :: l) == x + Py.sum l.
Proof.
  unfold Py.sum at 1. cbn [fold_left]. rewrite fold_plus_shift. ring.
Qed.

Lemma sum_nonneg (l : list Q) : Forall (fun x => 0 <= x) l -> 0 <= Py.sum l.
Proof.
  induction 1 as [| x l Hx _ IH].
  - unfold Py.sum; cbn [fold_left]. lra.
  - rewrite sum_cons. lra.
Qed.

Lemma sum_zero (l : list Q) : Forall (fun x => x == 0) l -> Py.sum l == 0.
Proof.
  induction 1 as [| x l Hx _ IH].
  - reflexivity.
  - rewrite sum_cons, Hx, IH. ring.
Qed.

Lemma sum_pos (l : list Q) : l <> [] -> Forall (fun x => 0 < x) l -> 0 < Py.sum l.
Proof.
  intros Hne H. destruct H as [| x l Hx Hl]; [contradiction |].
  rewrite sum_cons.
  assert (0 <= Py.sum l).
  { apply sum_nonneg. eapply Forall_impl; [exact Hl |].
    intros y Hy. apply Qlt_le_weak. exact Hy. }
  lra.
Qed.

Lemma max2_nonneg (a : Q) : 0 <= Py.max2 a 0.
Proof. unfold Py.max2. destruct (Qlt_le_dec a 0); lra. Qed.

Lemma gains_nonneg (closes : list Q) : Forall (fun x => 0 <= x) (gains closes).
Proof.
  induction closes as [| a [| b closes] IH]; cbn [gains]; try constructor.
  - apply max2_nonneg.
  - exact IH.
Qed.

Lemma losses_nonneg (closes : list Q) : Forall (fun x => 0 <= x) (losses closes).
Proof.
  induction closes as [| a [| b closes] IH]; cbn [losses]; try constructor.
  - apply max2_nonneg.
  - exact IH.
Qed.

Lemma length_gains (closes : list Q) :
  length (gains closes) = (length closes - 1)%nat.
Proof.
  induction closes as [| a [| b closes] IH]; cbn [gains length] in *; try reflexivity.
  rewrite IH. lia.
Qed.

Lemma length_losses (closes : list Q) :
  length (losses closes) = (length closes - 1)%nat.
Proof.
  induction closes as [| a [| b closes] IH]; cbn [losses length] in *; try reflexivity.
  rewrite IH. lia.
Qed.

Lemma losses_increasing (closes : list Q) :
  Sorted Qlt closes -> Forall (fun x => x == 0) (losses closes).
Proof.
  induction 1 as [| a l Hs IH Hhd]; [constructor |].
  destruct Hhd as [| b l Hab]; cbn [losses]; constructor; [| exact IH].
  unfold Py.max2. destruct (Qlt_le_dec (- (b - a)) 0); [reflexivity | lra].
Qed.

Lemma gains_decreasing (closes : list Q) :
  Sorted (fun a b => b < a) closes -> Forall (fun x => x == 0) (gains closes).
Proof.
  induction 1 as [| a l Hs IH Hhd]; [constructor |].
  destruct Hhd as [| b l Hab]; cbn [gains]; constructor; [| exact IH].
  unfold Py.max2. destruct (Qlt_le_dec (b - a) 0); [reflexivity | lra].
Qed.

Lemma losses_decreasing (closes : list Q) :
  Sorted (fun a b => b < a) closes -> Forall (fun x => 0 < x) (losses closes).
Proof.
  induction 1 as [| a l Hs IH Hhd]; [constructor |].
  destruct Hhd as [| b l Hab]; cbn [losses]; constructor; [| exact IH].
  unfold Py.max2. destruct (Qlt_le_dec (- (b - a)) 0); lra.
Qed.

(** [xs[-period:]] keeps exactly [period] entries when there are enough. *)
Lemma length_slice_last {A} (xs : list A) (period : Z) :
  (1 <= period)%Z -> (period <= Z.of_nat (length xs))%Z ->
  length (Py.slice_from (- period) xs) = Z.to_nat period.
Proof.
  intros Hp Hlen. unfold Py.slice_from.
  destruct (Z.ltb_spec (- period) 0); [| lia].
  rewrite length_drop. lia.
Qed.

Lemma slice_from_Forall {A} (P : A -> Prop) (k : Z) (xs : list A) :
  Forall P xs -> Forall P (Py.slice_from k xs).
Proof. intros H. unfold Py.slice_from. apply Forall_drop. exact H. Qed.

Lemma inject_Z_pos (period : Z) : (1 <= period)%Z -> 0 < inject_Z period.
Proof. intros Hp. unfold Qlt, inject_Z. cbn. lia. Qed.

Lemma avg_nonneg (xs : list Q) (period : Z) :
  (1 <= period)%Z -> Forall (fun x => 0 <= x) xs ->
  0 <= Py.sum (Py.slice_from (- period) xs) / inject_Z period.
Proof.
  intros Hp Hxs. apply Qle_shift_div_l; [apply inject_Z_pos; exact Hp |].
  rewrite Qmult_0_l. apply sum_nonneg, slice_from_Forall. exact Hxs.
Qed.

Lemma rsi_value_range (avg_gain avg_loss : Q) :
  0 <= avg_gain -> 0 <= avg_loss -> 0 <= rsi_value avg_gain avg_loss <= 100.
Proof.
  intros Hg Hl. unfold rsi_value.
  destruct (Qeq_bool avg_loss 0) eqn:E; [lra |].
  apply Qeq_bool_neq in E.
  assert (Hl' : 0 < avg_loss) by lra.
  assert (Hrs : 0 <= avg_gain / avg_loss)
    by (apply Qle_shift_div_l; [exact Hl' | lra]).
  assert (Hq1 : 0 <= 100 / (1 + avg_gain / avg_loss))
    by (apply Qle_shift_div_l; lra).
  assert (Hq2 : 100 / (1 + avg_gain / avg_loss) <= 100)
    by (apply Qle_shift_div_r; lra).
  lra.
Qed.

(** With a period of at least 1 and enough candles no division raises and
    the result is [rsi_value] of the two trailing averages. *)
Lemma calculate_rsi_eq (data : list Candle) (period : Z) :
  (1 <= period)%Z -> (period + 1 <= Z.of_nat (length data))%Z ->
  calculate_rsi data period
  = Py.Ok (Some (rsi_value
      (Py.sum (Py.slice_from (- period) (gains (map close data))) / inject_Z period)
      (Py.sum (Py.slice_from (- period) (losses (map close data))) / inject_Z period))).
Proof.
  intros Hp Hlen. unfold calculate_rsi.
  destruct (Z.ltb_spec (Z.of_nat (length data)) (period + 1)); [lia |].
  rewrite length_gains, length_map.
  destruct (Z.ltb_spec (Z.of_nat (length data - 1)) period); [lia |].
  pose proof (inject_Z_pos period Hp) as Hpos.
  rewrite !div_nonzero by lra. cbn [Py.bind].
  pose proof (avg_nonneg _ period Hp (gains_nonneg (map close data))) as Hg.
  pose proof (avg_nonneg _ period Hp (losses_nonneg (map close data))) as Hl.
  set (avg_gain := Py.sum (Py.slice_from (- period) (gains (map close data)))
                   / inject_Z period) in *.
  set (avg_loss := Py.sum (Py.slice_from (- period) (losses (map close data)))
                   / inject_Z period) in *.
  unfold rsi_value.
  destruct (Qeq_bool avg_loss 0) eqn:E; [reflexivity |].
  apply Qeq_bool_neq in E.
  rewrite div_nonzero by exact E. cbn [Py.bind].
  assert (Hrs : 0 <= avg_gain / avg_loss)
    by (apply Qle_shift_div_l; lra).
  rewrite div_nonzero by lra. reflexivity.
Qed.

Lemma calculate_rsi_short (data : list Candle) (period : Z) :
  (Z.of_nat (length data) < period + 1)%Z ->
  calculate_rsi data period = Py.Ok None.
Proof.
  intros Hlen. unfold calculate_rsi.
  destruct (Z.ltb_spec (Z.of_nat (length data)) (period + 1)); [reflexivity | lia].
Qed.

(** C3 (amended to periods of at least 1).  For every candle list and every
    period p >= 1, [calculate_rsi] returns without raising; it returns null
    below p+1 candles; with at least p+1 candles it returns exactly 100 on
    strictly increasing closes and exactly 0 on strictly decreasing closes;
    and every non-null result lies in [0, 100]. *)
Theorem calculate_rsi_spec (data : list Candle) (period : Z) :
  (1 <= period)%Z ->
  rsi_claim data period
  /\ exists o, calculate_rsi data period = Py.Ok o.
Proof.
  intros Hp. split; [split; [| split; [| split]] |].
  - apply calculate_rsi_short.
  - intros Hlen Hinc. rewrite calculate_rsi_eq by assumption.
    unfold rsi_value.
    pose proof (sum_zero _ (slice_from_Forall _ (- period) _
                  (losses_increasing _ Hinc))) as Hz.
    assert (E : Py.sum (Py.slice_from (- period) (losses (map close data)))
                / inject_Z period == 0)
      by (rewrite Hz; unfold Qdiv; ring).
    apply Qeq_bool_iff in E. rewrite E. reflexivity.
  - intros Hlen Hdec. rewrite calculate_rsi_eq by assumption.
    eexists. split; [reflexivity |].
    pose proof (inject_Z_pos period Hp) as Hpos.
    pose proof (sum_zero _ (slice_from_Forall _ (- period) _
                  (gains_decreasing _ Hdec))) as Hz.
    assert (Hl : 0 < Py.sum (Py.slice_from (- period) (losses (map close data)))).
    { apply sum_pos.
      - intros Hnil. apply (f_equal length) in Hnil.
        rewrite length_slice_last in Hnil; [cbn in Hnil; lia | exact Hp |].
        rewrite length_losses, length_map. lia.
      - apply slice_from_Forall, losses_decreasing. exact Hdec. }
    set (sl := Py.sum (Py.slice_from (- period) (losses (map close data)))) in *.
    assert (Hal : 0 < sl / inject_Z period)
      by (apply Qlt_shift_div_l; lra).
    unfold rsi_value.
    destruct (Qeq_bool (sl / inject_Z period) 0) eqn:E.
    + apply Qeq_bool_iff in E. lra.
    + rewrite Hz. field. split; lra.
  - intros r Hr.
    destruct (Z.lt_ge_cases (Z.of_nat (length data)) (period + 1)) as [Hlt | Hge].
    + rewrite calculate_rsi_short in Hr by exact Hlt. discriminate Hr.
    + rewrite calculate_rsi_eq in Hr by (try lia; exact Hp).
      injection Hr as <-.
      apply rsi_value_range; apply avg_nonneg; try exact Hp.
      * apply gains_nonneg.
      * apply losses_nonneg.
  - destruct (Z.lt_ge_cases (Z.of_nat (length data)) (period + 1)) as [Hlt | Hge].
    + eexists. apply calculate_rsi_short. exact Hlt.
    + eexists. apply calculate_rsi_eq; [exact Hp | lia].
Qed.

Lemma calculate_rsi_spec_witness :
  let data := map (fun p => mkCandle 0 p p p p 0) [5; 4; 3] in
  (1 <= 2)%Z
  /\ (2 + 1 <= Z.of_nat (length data))%Z
  /\ Sorted (fun a b => b < a) (map close data)
  /\ (exists r, calculate_rsi data 2 = Py.Ok (Some r) /\ r == 0)
  /\ (forall r, calculate_rsi data 2 = Py.Ok (Some r) -> 0 <= r <= 100).
Proof.
  set (data := map (fun p => mkCandle 0 p p p p 0) [5; 4; 3]).
  assert (Hp : (1 <= 2)%Z) by lia.
  assert (Hlen : (2 + 1 <= Z.of_nat (length data))%Z) by (cbn; lia).
  assert (Hdec : Sorted (fun a b => b < a) (map close data))
    by (repeat constructor).
  destruct (calculate_rsi_spec data 2 Hp) as [(_ & _ & Hdown & Hrange) _].
  split; [exact Hp |]. split; [exact Hlen |]. split; [exact Hdec |].
  split; [exact (Hdown Hlen Hdec) | exact Hrange].
Defined.

(** A mixed series: changes +1, -0.5, +1 over period 3 give average gain
    2/3, average loss 1/6, RS = 4 and RSI = 80. *)
Example calculate_rsi_mixed :
  match calculate_rsi (map (fun p => mkCandle 0 p p p p 0) [10; 11; 10.5; 11.5]) 3 with
  | Py.Ok (Some r) => r == 80
  | _ => False
  end.
Proof. vm_compute. reflexivity. Qed.

(** 13 candles with period 14: undefined.  25 ascending one-unit candles
    with period 14: exactly 100, hence status "Overbought". *)
Example calculate_rsi_spec_cases :
  let candle p := mkCandle 0 p p p p 0 in
  let ascending n := map (fun i => candle (inject_Z (Z.of_nat i))) (seq 1 n) in
  calculate_rsi (ascending 13%nat) config.RSI_PERIOD = Py.Ok None
  /\ calculate_rsi (ascending 25%nat) config.RSI_PERIOD = Py.Ok (Some 100)
  /\ get_rsi_status (Some 100) = "Overbought".
Proof. repeat split; vm_compute; reflexivity. Qed.

(** C3 as stated fails at period 0: two candles with closes 1 < 2 are
    strictly increasing and number at least 0 + 1, but [sum(...) / period]
    divides by zero and the call raises instead of returning 100. *)
Lemma calculate_rsi_period_zero :
  let data := map (fun p => mkCandle 0 p p p p 0) [1; 2] in
  calculate_rsi data 0 = Py.Raise Py.ZeroDivisionError
  /\ ~ rsi_claim data 0.
Proof.
  split; [vm_compute; reflexivity |].
  intros (_ & Hinc & _).
  assert (H : calculate_rsi (map (fun p => mkCandle 0 p p p p 0) [1; 2]) 0
              = Py.Ok (Some 100)).
  { apply Hinc; [cbn; lia |]. repeat constructor. }
  vm_compute in H. discriminate H.
Qed.

End RSI.

(** ** [MarketDataAggregator._get_cached_data] *)

Section CacheFacts.
Import MarketDataAggregator.
Local Open Scope Q_scope.

Context {V W : Type}.

Lemma ltb_spec (a b : Q) : Py.ltb a b = true <-> a < b.
Proof. unfold Py.ltb. apply (gtb_spec b a). Qed.

Lemma ltb_false (a b : Q) : Py.ltb a b = false <-> b <= a.
Proof. unfold Py.ltb. apply (gtb_false b a). Qed.

(** A fresh entry is served as it is; neither the cache nor the world
    changes, whatever the fetch function. *)
Lemma get_cached_data_hit (self : Cache V) (now : Q) (key : string) (ttl : Q)
  (fetch : fetch_func W V) (w : W) (v : V) (fetched_at : Q) :
  cache self !! key = Some v ->
  cache_timestamps self !! key = Some fetched_at ->
  now - fetched_at < ttl ->
  _get_cached_data self now key ttl fetch w = (Some v, self, w).
Proof.
  intros Hc Ht Hfresh. unfold _get_cached_data. rewrite Hc, Ht.
  apply ltb_spec in Hfresh. rewrite Hfresh. reflexivity.
Qed.

(** Without a fresh entry the call is decided by the fetch. *)
Lemma get_cached_data_miss (self : Cache V) (now : Q) (key : string) (ttl : Q)
  (fetch : fetch_func W V) (w : W) :
  no_fresh_entry self now key ttl ->
  _get_cached_data self now key ttl fetch w
  = match fetch w with
    | (Py.Ok (Some data), w') =>
        (Some data,
         mkCache (<[key := data]> (cache self))
                 (<[key := now]> (cache_timestamps self)),
         w')
    | (Py.Ok None, w') => (cache self !! key, self, w')
    | (Py.Raise _, w') => (cache self !! key, self, w')
    end.
Proof.
  intros Hstale. unfold _get_cached_data.
  destruct (cache self !! key) as [v |] eqn:Hc; [| reflexivity].
  destruct (cache_timestamps self !! key) as [t |] eqn:Ht; [| reflexivity].
  specialize (Hstale v t Hc Ht).
  apply ltb_false in Hstale. rewrite Hstale. reflexivity.
Qed.

(** A call never touches the entries of other keys. *)
Lemma get_cached_data_other (self : Cache V) (now : Q) (key key' : string)
  (ttl : Q) (fetch : fetch_func W V) (w : W) :
  key' <> key ->
  let self' := snd (fst (_get_cached_data self now key' ttl fetch w)) in
  cache self' !! key = cache self !! key
  /\ cache_timestamps self' !! key = cache_timestamps self !! key.
Proof.
  intros Hne. unfold _get_cached_data.
  destruct (fetch w) as [[[data |] | e] w']; cbn [fst snd];
    destruct (cache self !! key') as [v0 |];
    try destruct (cache_timestamps self !! key') as [t0 |];
    try destruct (Py.ltb (now - t0) ttl);
    cbn [fst snd cache cache_timestamps];
    rewrite ?lookup_insert_ne by exact Hne; split; reflexivity.
Qed.

Lemma run_call_keep (key : string) (ttl fetched_at : Q) (v : V)
  (self : Cache V) (c : Call V W) :
  cache self !! key = Some v ->
  cache_timestamps self !! key = Some fetched_at ->
  leaves_fresh key ttl fetched_at c ->
  cache (run_call self c) !! key = Some v
  /\ cache_timestamps (run_call self c) !! key = Some fetched_at.
Proof.
  intros Hc Ht [Hne | [Httl Hfresh]]; unfold run_call.
  - destruct (get_cached_data_other self (call_now c) key (call_key c)
                (call_ttl c) (call_fetch c) (call_world c) Hne) as [H1 H2].
    rewrite H1, H2. split; assumption.
  - destruct (decide (call_key c = key)) as [Heq | Hne].
    + rewrite Heq, Httl.
      rewrite (get_cached_data_hit self _ key ttl _ _ v fetched_at Hc Ht Hfresh).
      split; assumption.
    + destruct (get_cached_data_other self (call_now c) key (call_key c)
                  (call_ttl c) (call_fetch c) (call_world c) Hne) as [H1 H2].
      rewrite H1, H2. split; assumption.
Qed.

Lemma run_calls_keep (key : string) (ttl fetched_at : Q) (v : V)
  (calls : list (Call V W)) : forall self : Cache V,
  cache self !! key = Some v ->
  cache_timestamps self !! key = Some fetched_at ->
  Forall (leaves_fresh key ttl fetched_at) calls ->
  cache (run_calls self calls) !! key = Some v
  /\ cache_timestamps (run_calls self calls) !! key = Some fetched_at.
Proof.
  induction calls as [| c calls IH]; intros self Hc Ht Hall.
  - split; assumption.
  - inversion Hall as [| ? ? Hcall Hrest]; subst.
    destruct (run_call_keep key ttl fetched_at v self c Hc Ht Hcall) as [Hc' Ht'].
    unfold run_calls. cbn [fold_left]. apply IH; assumption.
Qed.

End CacheFacts.

Section CacheClaims.
Import TechnicalAnalyzer MarketDataAggregator.
Local Open Scope Q_scope.

(** C1.  A call that finds no fresh entry and whose fetch returns a value
    [v] stores it with [fetched_at] = the time of the call and returns it.
    Any later call for the same key and TTL issued while
    [now - fetched_at < ttl] (other calls that leave the entry alone may
    come in between) returns [v] and leaves the cache and the world as they
    were, whatever its fetch function: the fetch is not invoked.  Counting
    invocations, the two calls together invoke a fetch exactly once and
    return the same value. *)
Theorem get_cached_data_within_ttl {V W : Type}
  (self : Cache V) (fetched_at now : Q) (key : string) (ttl : Q)
  (fetch1 fetch2 : fetch_func W V) (w1 w1' w2 : W) (v : V)
  (between : list (Call V W)) :
  no_fresh_entry self fetched_at key ttl ->
  fetch1 w1 = (Py.Ok (Some v), w1') ->
  Forall (leaves_fresh key ttl fetched_at) between ->
  now - fetched_at < ttl ->
  exists self1,
    _get_cached_data self fetched_at key ttl fetch1 w1 = (Some v, self1, w1')
    /\ cache self1 !! key = Some v
    /\ cache_timestamps self1 !! key = Some fetched_at
    /\ _get_cached_data (run_calls self1 between) now key ttl fetch2 w2
       = (Some v, run_calls self1 between, w2)
    /\ forall n : nat,
         _get_cached_data self fetched_at key ttl (counting fetch1) (w1, n)
         = (Some v, self1, (w1', S n))
         /\ _get_cached_data self1 now key ttl (counting fetch2) (w2, S n)
            = (Some v, self1, (w2, S n)).
Proof.
  intros Hstale Hfetch Hbetween Hfresh.
  set (self1 := mkCache (<[key := v]> (cache self))
                        (<[key := fetched_at]> (cache_timestamps self))).
  assert (Hc : cache self1 !! key = Some v) by apply lookup_insert_eq.
  assert (Ht : cache_timestamps self1 !! key = Some fetched_at)
    by apply lookup_insert_eq.
  exists self1.
  split; [rewrite get_cached_data_miss by exact Hstale; rewrite Hfetch; reflexivity |].
  split; [exact Hc |]. split; [exact Ht |].
  split.
  - destruct (run_calls_keep key ttl fetched_at v between self1 Hc Ht Hbetween)
      as [Hc' Ht'].
    apply (get_cached_data_hit _ now key ttl fetch2 w2 v fetched_at Hc' Ht' Hfresh).
  - intros n. split.
    + rewrite get_cached_data_miss by exact Hstale.
      unfold counting. cbn [fst snd]. rewrite Hfetch. reflexivity.
    + apply (get_cached_data_hit _ now key ttl _ _ v fetched_at Hc Ht Hfresh).
Qed.

Lemma get_cached_data_within_ttl_witness :
  let self : Cache Z := mkCache ∅ ∅ in
  let fetch : fetch_func unit Z := fun w => (Py.Ok (Some 7%Z), w) in
  let other := mkCall 110 "fred_vix" 60 fetch tt in
  no_fresh_entry self 100 "quote_XAU/USD" 30
  /\ 120 - 100 < 30
  /\ exists self1,
       _get_cached_data self 100 "quote_XAU/USD" 30 fetch tt = (Some 7%Z, self1, tt)
       /\ _get_cached_data (run_calls self1 [other]) 120 "quote_XAU/USD" 30 fetch tt
          = (Some 7%Z, run_calls self1 [other], tt).
Proof.
  set (self := mkCache (∅ : gmap string Z) (∅ : gmap string Q)).
  set (fetch := (fun w => (Py.Ok (Some 7%Z), w)) : fetch_func unit Z).
  set (other := mkCall 110 "fred_vix" 60 fetch tt).
  assert (H1 : no_fresh_entry self 100 "quote_XAU/USD" 30).
  { intros v t Hv. cbn in Hv. rewrite lookup_empty in Hv. discriminate Hv. }
  assert (H2 : fetch tt = (Py.Ok (Some 7%Z), tt)) by reflexivity.
  assert (H3 : Forall (leaves_fresh "quote_XAU/USD" 30 100) [other]).
  { constructor; [| constructor]. left. cbn. discriminate. }
  assert (H4 : 120 - 100 < 30) by reflexivity.
  split; [exact H1 |]. split; [exact H4 |].
  destruct (get_cached_data_within_ttl self 100 120 "quote_XAU/USD" 30
              fetch fetch tt tt tt 7%Z [other] H1 H2 H3 H4)
    as (self1 & E1 & _ & _ & E2 & _).
  exists self1. split; [exact E1 | exact E2].
Defined.

(** C2 (amended: a null result, not an empty one, is what counts as a
    failed fetch).  Without a fresh entry, a fetch that raises or returns
    null makes the call return the previous value of the key (null when
    there is none), with the cache unchanged and no exception; a fetch that
    returns any non-null object, empty or not, is a success: the object is
    stored and returned. *)
Theorem get_cached_data_degrades {V W : Type}
  (self : Cache V) (now : Q) (key : string) (ttl : Q)
  (fetch : fetch_func W V) (w w' : W) (r : Py.result (option V)) :
  no_fresh_entry self now key ttl ->
  fetch w = (r, w') ->
  (r = Py.Ok None \/ (exists e, r = Py.Raise e) ->
   _get_cached_data self now key ttl fetch w = (cache self !! key, self, w'))
  /\ (forall data, r = Py.Ok (Some data) ->
      _get_cached_data self now key ttl fetch w
      = (Some data,
         mkCache (<[key := data]> (cache self))
                 (<[key := now]> (cache_timestamps self)),
         w')).
Proof.
  intros Hstale Hfetch.
  rewrite get_cached_data_miss by exact Hstale. rewrite Hfetch.
  split.
  - intros [-> | [e ->]]; reflexivity.
  - intros data ->. reflexivity.
Qed.

Lemma get_cached_data_degrades_witness :
  let self : Cache Z := mkCache {["fred_vix" := 5%Z]} {["fred_vix" := 0]} in
  let fetch : fetch_func unit Z := fun w => (Py.Raise Py.ConnectionError, w) in
  no_fresh_entry self 100 "fred_vix" 60
  /\ _get_cached_data self 100 "fred_vix" 60 fetch tt = (Some 5%Z, self, tt).
Proof.
  set (self := mkCache ({["fred_vix" := 5%Z]} : gmap string Z)
                       ({["fred_vix" := 0]} : gmap string Q)).
  set (fetch := (fun w => (Py.Raise Py.ConnectionError, w)) : fetch_func unit Z).
  assert (H1 : no_fresh_entry self 100 "fred_vix" 60).
  { intros v t _ Ht. cbn in Ht. rewrite lookup_singleton_eq in Ht.
    injection Ht as <-. discriminate. }
  split; [exact H1 |].
  exact (proj1 (get_cached_data_degrades self 100 "fred_vix" 60 fetch tt tt
                  (Py.Raise Py.ConnectionError) H1 eq_refl)
               (or_intror (ex_intro _ Py.ConnectionError eq_refl))).
Defined.

(** C2 as stated fails on an empty result that is not null: the stale
    entry of the 1h candles is replaced by the empty candle list that
    [get_price_data] builds from a response with no values, and the call
    returns that empty list instead of the previous value. *)
Lemma get_cached_data_empty_result_stored :
  let old := VCandles [mkCandle 0 2000 2001 1999 2000 0] in
  let key := "price_XAU/USD_1h" in
  let self := mkCache {[key := old]} {[key := 0]} in
  let w := TwelveDataFetcher.mkWorld 400
             [TwelveDataFetcher.Http 200 (Some (TwelveDataFetcher.JSeries []))] [] in
  let fetch := fetch_price_data "XAU/USD" "1h" 200 in
  fst (fetch w) = Py.Ok (Some (VCandles []))
  /\ fst (fst (_get_cached_data self 400 key 300 fetch w)) = Some (VCandles [])
  /\ cache (snd (fst (_get_cached_data self 400 key 300 fetch w))) !! key
     = Some (VCandles [])
  /\ ~ degrade_claim (fun data => negb (truthy (Some data)))
                     self 400 key 300 fetch w.
Proof.
  cbv zeta.
  split; [vm_compute; reflexivity |].
  split; [vm_compute; reflexivity |].
  split; [vm_compute; reflexivity |].
  intros Hclaim.
  assert (Hstale : no_fresh_entry
            (mkCache {["price_XAU/USD_1h" := VCandles [mkCandle 0 2000 2001 1999 2000 0]]}
                     {["price_XAU/USD_1h" := 0]})
            400 "price_XAU/USD_1h" 300).
  { intros v t _ Ht. cbn in Ht. rewrite lookup_singleton_eq in Ht.
    injection Ht as <-. discriminate. }
  specialize (Hclaim Hstale ltac:(vm_compute; reflexivity)).
  vm_compute in Hclaim. discriminate Hclaim.
Qed.

End CacheClaims.

(** ** [TwelveDataFetcher]: rate limiting *)

Section RateLimit.
Import TwelveDataFetcher.
Local Open Scope Q_scope.

(** On a 429 [get_quote] sleeps for the cooldown and sends the same request
    once more; the second response decides, and no exception escapes. *)
Lemma get_quote_rate_limited (symbol : string) (now : Q) (body : option Json)
  (second : Response) (rest : list Response) (done : list Event) :
  get_quote symbol (mkWorld now (Http 429 body :: second :: rest) done)
  = (Py.Ok (quote_of_response second),
     mkWorld (now + cooldown) rest
       (done ++ [Request "/quote" symbol None; Sleep cooldown;
                 Request "/quote" symbol None])).
Proof.
  unfold get_quote, try_except, bind, requests_get, log, time_sleep. cbn.
  rewrite <- !app_assoc. cbn [app].
  destruct second as [status_code [data |] | e]; cbn.
  - unfold raise_for_status. cbn.
    destruct ((400 <=? status_code) && (status_code <? 600))%Z; cbn;
      [reflexivity |].
    destruct data; reflexivity.
  - unfold raise_for_status. cbn.
    destruct ((400 <=? status_code) && (status_code <? 600))%Z; reflexivity.
  - reflexivity.
Qed.

(** C6.  A 429 on a price-history request is not retried:
    [get_price_data] sends one request, [raise_for_status] raises on the
    429, the handler returns null, and there is neither a cooldown sleep
    nor a second request; whatever the provider would have answered next
    stays unread.  [get_quote], in the same situation, sleeps and retries
    once ([get_quote_rate_limited]). *)
Theorem price_data_rate_limited_no_retry (symbol interval : string)
  (outputsize : Z) (now : Q) (body : option Json) (rest : list Response)
  (done : list Event) :
  get_price_data symbol interval outputsize
    (mkWorld now (Http 429 body :: rest) done)
  = (Py.Ok None,
     mkWorld now rest (done ++ [Request "/time_series" symbol (Some interval)])).
Proof. reflexivity. Qed.

(** The two fetchers side by side on the same provider behaviour: a 429
    followed by a good answer. *)
Example rate_limited_then_ok :
  let candle := TechnicalAnalyzer.mkCandle 1 2000 2001 1999 2000 0 in
  let ok_series := Http 200 (Some (JSeries [Converts true candle])) in
  let ok_quote := Http 200 (Some (JObject [("price", 2000)])) in
  get_price_data "XAU/USD" "1h" 200 (mkWorld 0 [Http 429 None; ok_series] [])
  = (Py.Ok None,
     mkWorld 0 [ok_series] [Request "/time_series" "XAU/USD" (Some "1h")])
  /\ fst (get_quote "XAU/USD" (mkWorld 0 [Http 429 None; ok_quote] []))
     = Py.Ok (Some (JObject [("price", 2000)]))
  /\ events (snd (get_quote "XAU/USD" (mkWorld 0 [Http 429 None; ok_quote] [])))
     = [Request "/quote" "XAU/USD" None; Sleep 61; Request "/quote" "XAU/USD" None].
Proof. repeat split; reflexivity. Qed.

End RateLimit.

(** ** [MarketDataAggregator.get_xauusd_data]: the inter-call delay *)

Section InterCallDelay.
Import TechnicalAnalyzer TwelveDataFetcher MarketDataAggregator.
Local Open Scope Q_scope.

(** [get_price_data] always sends exactly one request and never sleeps. *)
Lemma get_price_data_events (symbol interval : string) (outputsize : Z) (w : World) :
  events (snd (get_price_data symbol interval outputsize w))
  = events w ++ [Request "/time_series" symbol (Some interval)]
  /\ clock (snd (get_price_data symbol interval outputsize w)) = clock w.
Proof.
  destruct w as [now pend done].
  unfold get_price_data, try_except, bind, requests_get, log. cbn.
  destruct pend as [| [status_code [data |] | e] rest]; cbn; try (split; reflexivity).
  - unfold raise_for_status. cbn.
    destruct ((400 <=? status_code) && (status_code <? 600))%Z; cbn;
      [split; reflexivity |].
    destruct data as [| values |]; try (split; reflexivity).
    unfold lift. cbn. destruct (convert_values values); split; reflexivity.
  - unfold raise_for_status. cbn.
    destruct ((400 <=? status_code) && (status_code <? 600))%Z; split; reflexivity.
Qed.

(** An interval whose entry is absent: the delay is waited first. *)
Lemma price_data_step_absent_delay (price_data : list (string * Value))
  (self : Cache Value) (w : World) (timeframe : string) :
  cache self !! ("price_" +:+ config.SYMBOL +:+ "_" +:+ timeframe) = None ->
  events (snd (price_data_step (price_data, self, w) timeframe))
  = events w ++ [Sleep inter_call_delay;
                 Request "/time_series" config.SYMBOL (Some timeframe)].
Proof.
  intros Habsent. unfold price_data_step. rewrite Habsent.
  unfold _get_cached_data. rewrite Habsent.
  set (w1 := snd (time_sleep inter_call_delay w)).
  unfold fetch_price_data.
  pose proof (get_price_data_events config.SYMBOL timeframe 200 w1) as [Hev _].
  destruct (get_price_data config.SYMBOL timeframe 200 w1) as [[[cs |] | e] w2];
    cbn [fst snd Py.bind option_map] in *;
    try destruct (truthy _); cbn [snd];
    rewrite Hev; subst w1; cbn; rewrite <- app_assoc; reflexivity.
Qed.

(** An interval whose entry is present but expired: the request is sent
    with no delay before it. *)
Lemma price_data_step_stale_no_delay (price_data : list (string * Value))
  (self : Cache Value) (w : World) (timeframe : string)
  (v : Value) (fetched_at : Q) :
  cache self !! ("price_" +:+ config.SYMBOL +:+ "_" +:+ timeframe) = Some v ->
  cache_timestamps self !! ("price_" +:+ config.SYMBOL +:+ "_" +:+ timeframe)
    = Some fetched_at ->
  config.CACHE_TTL_PRICE_DATA <= clock w - fetched_at ->
  events (snd (price_data_step (price_data, self, w) timeframe))
  = events w ++ [Request "/time_series" config.SYMBOL (Some timeframe)].
Proof.
  intros Hc Ht Hstale. unfold price_data_step. rewrite Hc.
  unfold _get_cached_data. rewrite Hc, Ht.
  apply ltb_false in Hstale. rewrite Hstale.
  unfold fetch_price_data.
  pose proof (get_price_data_events config.SYMBOL timeframe 200 w) as [Hev _].
  destruct (get_price_data config.SYMBOL timeframe 200 w) as [[[cs |] | e] w2];
    cbn [fst snd Py.bind option_map] in *;
    try destruct (truthy _); cbn [snd]; exact Hev.
Qed.

(** C7.  With the three price entries present but older than their TTL
    (fetched at 0, read at 1000 with a TTL of 300) and the quote entry
    fresh, [get_xauusd_data] sends the three price-history requests one
    after the other with no delay before any of them: the test
    [cache_key not in self.cache] looks at presence only, not at
    freshness. *)
Theorem xauusd_stale_prices_no_delay :
  let candle := mkCandle 1 2000 2001 1999 2000 0 in
  let key tf := "price_" +:+ config.SYMBOL +:+ "_" +:+ tf in
  let self :=
    mkCache
      (<[key "15min" := VCandles [candle]]>
       (<[key "1h" := VCandles [candle]]>
        (<[key "4h" := VCandles [candle]]>
         {["quote_XAU/USD" := VJson (JObject [("price", 2000)])]})))
      (<[key "15min" := 0]>
       (<[key "1h" := 0]>
        (<[key "4h" := 0]> {["quote_XAU/USD" := 990]}))) in
  let answer := Http 200 (Some (JSeries [Converts true candle])) in
  let w := mkWorld 1000 [answer; answer; answer] [] in
  let '(data, self', w') := get_xauusd_data self w in
  events w'
  = [Request "/time_series" "XAU/USD" (Some "15min");
     Request "/time_series" "XAU/USD" (Some "1h");
     Request "/time_series" "XAU/USD" (Some "4h")]
  /\ pending w' = []
  /\ clock w' = 1000
  /\ map fst (price_data data) = ["15min"; "1h"; "4h"].
Proof. vm_compute. repeat split; reflexivity. Qed.

(** The cold start for comparison: with an empty cache every price request
    comes after a delay. *)
Example xauusd_cold_start_delays :
  let candle := mkCandle 1 2000 2001 1999 2000 0 in
  let answer := Http 200 (Some (JSeries [Converts true candle])) in
  let quote := Http 200 (Some (JObject [("price", 2000)])) in
  let w := mkWorld 1000 [quote; answer; answer; answer] [] in
  events (snd (get_xauusd_data (mkCache ∅ ∅) w))
  = [Request "/quote" "XAU/USD" None;
     Sleep 2; Request "/time_series" "XAU/USD" (Some "15min");
     Sleep 2; Request "/time_series" "XAU/USD" (Some "1h");
     Sleep 2; Request "/time_series" "XAU/USD" (Some "4h")].
Proof. vm_compute. reflexivity. Qed.

End InterCallDelay.

(** ** [MarketDataAggregator.get_correlation_data]: the batch cache key *)

Section BatchKey.
Import MarketDataAggregator.

Lemma sorted_unique_perm (symbols : list string) :
  sorted_unique symbols ≡ₚ remove_dups symbols.
Proof. apply sort_by_perm. Qed.

Lemma remove_dups_set_iteration : set_iteration remove_dups.
Proof.
  intros l. split; [apply NoDup_remove_dups | intros x; apply elem_of_remove_dups].
Qed.

(** C8 (amended: de-duplicated, in the iteration order of the set, not
    sorted).  Whatever order the set iterates in, the batch request is
    cached under ["quotes_batch_"] followed by the comma-joined list of the
    distinct configured symbols, each once: a rearrangement of the sorted
    duplicate-free symbol list. *)
Theorem batch_cache_key_distinct_symbols
  (set_order : list string -> list string)
  (symbols_map : list (string * string)) :
  set_iteration set_order ->
  exists symbols,
    batch_cache_key set_order symbols_map
    = "quotes_batch_" +:+ String.concat "," symbols
    /\ NoDup symbols
    /\ (forall x, x ∈ symbols <-> x ∈ map snd symbols_map)
    /\ symbols ≡ₚ sorted_unique (map snd symbols_map).
Proof.
  intros Hset. destruct (Hset (map snd symbols_map)) as [Hnd Hel].
  exists (set_order (map snd symbols_map)).
  split; [reflexivity |]. split; [exact Hnd |]. split; [exact Hel |].
  apply NoDup_Permutation.
  - exact Hnd.
  - rewrite sorted_unique_perm. apply NoDup_remove_dups.
  - intros x. rewrite Hel, sorted_unique_perm. symmetry. apply elem_of_remove_dups.
Qed.

Lemma batch_cache_key_distinct_symbols_witness :
  set_iteration remove_dups
  /\ exists symbols,
       batch_cache_key remove_dups config.CORRELATION_SYMBOLS
       = "quotes_batch_" +:+ String.concat "," symbols
       /\ NoDup symbols
       /\ (forall x, x ∈ symbols <-> x ∈ map snd config.CORRELATION_SYMBOLS)
       /\ symbols ≡ₚ sorted_unique (map snd config.CORRELATION_SYMBOLS).
Proof.
  split; [exact remove_dups_set_iteration |].
  exact (batch_cache_key_distinct_symbols remove_dups config.CORRELATION_SYMBOLS
           remove_dups_set_iteration).
Defined.

(** C8 as stated fails: nothing sorts the symbols.  With a set that
    iterates in first-insertion order the configured map gives the key of
    the dict order, which is not the key of the sorted list. *)
Lemma batch_cache_key_not_sorted :
  set_iteration remove_dups
  /\ batch_cache_key remove_dups config.CORRELATION_SYMBOLS
     = "quotes_batch_EUR/USD,USD/JPY,GBP/USD,BTC/USD"
  /\ "quotes_batch_" +:+ String.concat ","
       (sorted_unique (map snd config.CORRELATION_SYMBOLS))
     = "quotes_batch_BTC/USD,EUR/USD,GBP/USD,USD/JPY"
  /\ ~ (forall set_order, set_iteration set_order ->
        batch_key_claim set_order config.CORRELATION_SYMBOLS).
Proof.
  split; [exact remove_dups_set_iteration |].
  split; [vm_compute; reflexivity |].
  split; [vm_compute; reflexivity |].
  intros Hclaim. specialize (Hclaim remove_dups remove_dups_set_iteration).
  vm_compute in Hclaim. discriminate Hclaim.
Qed.

End BatchKey.

(** ** [MarketAnalysisEngine.analyze_correlations] *)

Section Correlations.
Import MarketAnalysisEngine.
Local Open Scope Q_scope.

Lemma get_float_total (r : Reading) (key : string) :
  numeric_reading r -> exists q, get_float r key = Py.Ok q.
Proof.
  intros Hr. unfold get_float.
  destruct (r !! key) as [[q |] |] eqn:E; cbn.
  - eauto.
  - exfalso. exact (Hr key None E eq_refl).
  - eauto.
Qed.

Lemma get_price_total (r : Reading) :
  numeric_reading r -> exists q, get_price r = Py.Ok q.
Proof.
  intros Hr. unfold get_price.
  destruct (r !! "price") as [[q |] |] eqn:E; cbn.
  - eauto.
  - exfalso. exact (Hr "price" None E eq_refl).
  - destruct (r !! "close") as [[q |] |] eqn:E'; cbn.
    + eauto.
    + exfalso. exact (Hr "close" None E' eq_refl).
    + eauto.
Qed.

Ltac numeric_fields Hr :=
  repeat match goal with
  | |- context [get_price ?r] =>
      let q := fresh "q" in let E := fresh "E" in
      destruct (get_price_total r Hr) as [q E]; rewrite E; cbn [Py.bind]
  | |- context [get_float ?r ?k] =>
      let q := fresh "q" in let E := fresh "E" in
      destruct (get_float_total r k Hr) as [q E]; rewrite E; cbn [Py.bind]
  end.

Lemma analyze_yield_total (r : Reading) :
  numeric_reading r -> exists e, analyze_yield r = Py.Ok e.
Proof. intros Hr. unfold analyze_yield. numeric_fields Hr. eauto. Qed.

Lemma analyze_tenor_total (r : Reading) :
  numeric_reading r -> exists e, analyze_tenor r = Py.Ok e.
Proof. intros Hr. unfold analyze_tenor. numeric_fields Hr. eauto. Qed.

Lemma analyze_dollar_total (r : Reading) (direct : bool) (symbol source : option string) :
  numeric_reading r -> exists e, analyze_dollar r direct symbol source = Py.Ok e.
Proof. intros Hr. unfold analyze_dollar. numeric_fields Hr. eauto. Qed.

Lemma analyze_risk_total (r : Reading) (symbol : option string) :
  numeric_reading r -> exists e, analyze_risk r symbol = Py.Ok e.
Proof. intros Hr. unfold analyze_risk. numeric_fields Hr. eauto. Qed.

Lemma analyze_btc_total (r : Reading) :
  numeric_reading r -> exists e, analyze_btc r = Py.Ok e.
Proof. intros Hr. unfold analyze_btc. numeric_fields Hr. eauto. Qed.

(** The VIX section on a reading of level [v]. *)
Lemma analyze_vix_tiers (vix : Reading) (v : Q) :
  numeric_reading vix ->
  get_price vix = Py.Ok v ->
  exists entry,
    analyze_vix vix = Py.Ok entry
    /\ vix_price entry = v
    /\ (vix_fear_level entry, vix_haven_demand entry) = vix_tiers v.
Proof.
  intros Hr Hv. unfold analyze_vix. rewrite Hv. cbn [Py.bind].
  numeric_fields Hr.
  eexists. split; [reflexivity |]. cbn [vix_price vix_fear_level vix_haven_demand].
  split; [reflexivity |]. unfold vix_tiers.
  destruct (Py.gtb v 30), (Py.gtb v 20), (Py.gtb v 15); reflexivity.
Qed.

Lemma when_present_total {A B} (o : option A) (f : A -> Py.result B) :
  (forall a, o = Some a -> exists b, f a = Py.Ok b) ->
  exists ob, when_present o f = Py.Ok ob.
Proof.
  intros Hf. destruct o as [a |]; cbn.
  - destruct (Hf a eq_refl) as [b ->]. cbn. eauto.
  - eauto.
Qed.

(** C9 (amended: the fear levels are the strings the code writes, "High
    Fear" and "Low Fear", and the readings are numeric).  For every
    correlation input whose fields are numbers and which contains a VIX
    reading with level v, the analysis is produced and its VIX entry has
    fear level / haven demand "Extreme Fear" / "Very High" when v > 30,
    "High Fear" / "High" when 30 >= v > 20, "Moderate" / "Moderate" when
    20 >= v > 15, and "Low Fear" / "Low" otherwise. *)
Theorem analyze_correlations_vix_tiers (correlation_data : gmap string Reading) :
  numeric correlation_data ->
  vix_claim vix_tiers correlation_data.
Proof.
  intros Hnum vix v Hvix Hv.
  pose proof Hnum as Hr.
  destruct (analyze_vix_tiers vix v (Hr _ _ Hvix) Hv) as (entry & Hentry & _ & Htiers).
  unfold analyze_correlations.
  destruct (when_present_total (correlation_data !! "US10Y") analyze_yield)
    as [y ->]; [intros; apply analyze_yield_total; eauto |].
  destruct (when_present_total (correlation_data !! "US2Y") analyze_tenor)
    as [y2 ->]; [intros; apply analyze_tenor_total; eauto |].
  destruct (when_present_total (correlation_data !! "US30Y") analyze_tenor)
    as [y30 ->]; [intros; apply analyze_tenor_total; eauto |].
  cbn [Py.bind]. rewrite Hvix.
  unfold when_present at 1. rewrite Hentry. cbn [Py.bind].
  assert (Hdxy : exists d, analyze_dollar_proxy correlation_data = Py.Ok d).
  { unfold analyze_dollar_proxy.
    destruct (correlation_data !! "DXY") eqn:E1;
      [apply when_present_total; intros a [= <-];
       apply analyze_dollar_total; eauto |].
    destruct (correlation_data !! "USD/EUR") eqn:E2;
      [apply when_present_total; intros a [= <-];
       apply analyze_dollar_total; eauto |].
    destruct (correlation_data !! "EUR/USD") eqn:E3;
      [apply when_present_total; intros a [= <-];
       apply analyze_dollar_total; eauto |].
    apply when_present_total; intros a Ha; apply analyze_dollar_total; eauto. }
  destruct Hdxy as [d ->]. cbn [Py.bind].
  assert (Hrisk : exists k, analyze_risk_proxy correlation_data = Py.Ok k).
  { unfold analyze_risk_proxy.
    destruct (correlation_data !! "SPX") eqn:E1;
      [apply when_present_total; intros a [= <-];
       apply analyze_risk_total; eauto |].
    apply when_present_total; intros a Ha; apply analyze_risk_total; eauto. }
  destruct Hrisk as [k ->]. cbn [Py.bind].
  destruct (when_present_total (correlation_data !! "BTC/USD") analyze_btc)
    as [b ->]; [intros; apply analyze_btc_total; eauto |].
  cbn [Py.bind].
  eexists. exists entry. split; [reflexivity |].
  split; [reflexivity | exact Htiers].
Qed.

Lemma numeric_vix_only (v : Q) :
  numeric {["VIX" := ({["price" := Some v]} : Reading)]}.
Proof.
  intros name r Hname field x Hfield Hx. subst x.
  apply lookup_singleton_Some in Hname as [_ <-].
  apply lookup_singleton_Some in Hfield as [_ Hfield]. discriminate Hfield.
Qed.

Lemma analyze_correlations_vix_tiers_witness :
  let vix : Reading := {["price" := Some 25]} in
  let correlation_data : gmap string Reading := {["VIX" := vix]} in
  numeric correlation_data
  /\ correlation_data !! "VIX" = Some vix
  /\ get_price vix = Py.Ok 25
  /\ exists analysis entry,
       analyze_correlations correlation_data = Py.Ok analysis
       /\ a_vix analysis = Some entry
       /\ (vix_fear_level entry, vix_haven_demand entry) = ("High Fear", "High").
Proof.
  set (vix := ({["price" := Some 25]} : Reading)).
  set (correlation_data := ({["VIX" := vix]} : gmap string Reading)).
  assert (Hnum : numeric correlation_data) by apply numeric_vix_only.
  assert (Hvix : correlation_data !! "VIX" = Some vix)
    by apply lookup_singleton_eq.
  assert (Hv : get_price vix = Py.Ok 25) by reflexivity.
  split; [exact Hnum |]. split; [exact Hvix |]. split; [exact Hv |].
  exact (analyze_correlations_vix_tiers correlation_data Hnum vix 25 Hvix Hv).
Defined.

(** C9 as stated fails at level 25: the fear level written by the code is
    "High Fear", not "High". *)
Lemma vix_fear_level_high_fear :
  let correlation_data : gmap string Reading :=
    {["VIX" := ({["price" := Some 25]} : Reading)]} in
  (exists analysis entry,
      analyze_correlations correlation_data = Py.Ok analysis
      /\ a_vix analysis = Some entry
      /\ vix_fear_level entry = "High Fear"
      /\ vix_haven_demand entry = "High")
  /\ ~ vix_claim vix_tiers_stated correlation_data.
Proof.
  split.
  - eexists. eexists. split; [vm_compute; reflexivity |].
    cbn [a_vix]. split; [reflexivity |]. split; reflexivity.
  - intros Hclaim.
    destruct (Hclaim {["price" := Some 25]} 25) as (a & e & Ha & He & Ht).
    + reflexivity.
    + reflexivity.
    + vm_compute in Ha. injection Ha as <-. cbn in He. injection He as <-.
      vm_compute in Ht. discriminate Ht.
Qed.

End Correlations.

(** ** [MarketAnalysisEngine.determine_primary_driver] *)

Section PrimaryDriver.
Import MarketAnalysisEngine.
Local Open Scope Q_scope.

(** C5.  The classification of the code is the first matching rule of the
    ordered list: "Fundamental" if the next event is less than 60 minutes
    away; else "Technical" if the RSI status is Overbought or Oversold;
    else "Fundamental" if the absolute 10Y-yield basis-point change exceeds
    5; else "Sentiment" if the absolute dollar-proxy percent change exceeds
    0.5; else "Technical". *)
Theorem determine_primary_driver_first_match (technical_data : TechnicalData)
  (news_events : list NewsEvent) (correlation_analysis : Analysis) (now : Q) :
  determine_primary_driver technical_data news_events correlation_analysis now
  = primary_driver_rules technical_data news_events correlation_analysis now.
Proof.
  unfold determine_primary_driver, primary_driver_rules, first_match,
    minutes_to_next_event, exceeds, in_list.
  destruct technical_data as [[status |]];
    destruct correlation_analysis as [[y |] ? ? ? ? [d |] ? ?];
    destruct news_events as [| next_event rest];
    cbn [rsi_status a_yield a_dxy option_map existsb List.filter fst snd];
    rewrite ?orb_false_r;
    repeat match goal with
    | |- context [Py.ltb ?a ?b] => destruct (Py.ltb a b)
    | |- context [Py.gtb ?a ?b] => destruct (Py.gtb a b)
    | |- context [(?a =? ?b)%string] => destruct (a =? b)%string
    end; reflexivity.
Qed.

(** Each rule in turn on small inputs. *)
Example primary_driver_cases :
  let no_corr := mkAnalysis None None None None None None None None in
  let yield_move bps :=
    mkAnalysis (Some (mkYieldEntry 4.3 bps "Down" "▲"))
               None None None None None None None in
  let dollar_move pct :=
    mkAnalysis None None None None None
               (Some (mkDxyEntry 104 pct "Strong Inverse" "▲" None (Some "FRED")))
               None None in
  let soon := [mkNewsEvent "US CPI" (30 * 60) "High"] in
  let later := [mkNewsEvent "US CPI" (3 * 3600) "High"] in
  determine_primary_driver (mkTechnicalData (Some "Overbought")) soon (yield_move 9) 0
    = "Fundamental"
  /\ determine_primary_driver (mkTechnicalData (Some "Oversold")) later (yield_move 9) 0
     = "Technical"
  /\ determine_primary_driver (mkTechnicalData (Some "Neutral")) later (yield_move (-9)) 0
     = "Fundamental"
  /\ determine_primary_driver (mkTechnicalData (Some "Neutral")) [] (dollar_move 0.7) 0
     = "Sentiment"
  /\ determine_primary_driver (mkTechnicalData None) [] no_corr 0 = "Technical".
Proof. repeat split; reflexivity. Qed.

End PrimaryDriver.

(** * Part III: further properties of the code *)

(** ** [TechnicalAnalyzer]: moving averages *)

Section MovingAverage.
Import TechnicalAnalyzer.
Local Open Scope Q_scope.

Lemma inject_Z_length_cons {A} (x : A) (l : list A) :
  inject_Z (Z.of_nat (length (x :: l))) == inject_Z (Z.of_nat (length l)) + 1.
Proof.
  cbn [length]. rewrite Nat2Z.inj_succ, <- Z.add_1_r, inject_Z_plus. reflexivity.
Qed.

Lemma Qpower_succ (a : Q) (j : nat) :
  ~ a == 0 -> a ^ Z.of_nat (S j) == a ^ Z.of_nat j * a.
Proof.
  intros Ha. rewrite Nat2Z.inj_succ, <- Z.add_1_r, Qpower_plus by exact Ha.
  rewrite Qpower_1_r. reflexivity.
Qed.

Lemma Qpower_ge_one (a : Q) (j : nat) : 1 <= a -> 1 <= a ^ Z.of_nat j.
Proof.
  intros Ha. induction j as [| j IH].
  - change (1 <= 1). lra.
  - rewrite Qpower_succ by lra. nra.
Qed.

Lemma Qpower_le_one (b : Q) (j : nat) :
  0 < b -> b <= 1 -> 0 < b ^ Z.of_nat j /\ b ^ Z.of_nat j <= 1.
Proof.
  intros Hb0 Hb1. induction j as [| j [IH0 IH1]].
  - change (0 < 1 /\ 1 <= 1). split; lra.
  - rewrite Qpower_succ by lra. split; nra.
Qed.

Lemma inject_Z_succ (j : nat) :
  inject_Z (Z.of_nat (S j)) == inject_Z (Z.of_nat j) + 1.
Proof. rewrite Nat2Z.inj_succ, <- Z.add_1_r, inject_Z_plus. reflexivity. Qed.

(** The float sum of [n] numbers between [lo >= 0] and [hi] lies between
    [n * lo] and [n * hi], up to one rounding per addition. *)
Lemma float_sum_bounds (lo hi : Q) (l : list Q) : forall (s : Q) (j : nat),
  0 <= lo ->
  Forall (fun x => lo <= x <= hi) l ->
  inject_Z (Z.of_nat j) * lo * (1 - Py.unit_roundoff) ^ Z.of_nat j <= s ->
  s <= inject_Z (Z.of_nat j) * hi * (1 + Py.unit_roundoff) ^ Z.of_nat j ->
  inject_Z (Z.of_nat (j + length l)) * lo
    * (1 - Py.unit_roundoff) ^ Z.of_nat (j + length l)
  <= fold_left Py.fadd l s
  /\ fold_left Py.fadd l s
     <= inject_Z (Z.of_nat (j + length l)) * hi
        * (1 + Py.unit_roundoff) ^ Z.of_nat (j + length l).
Proof.
  destruct unit_roundoff_bounds as [Hu0 Hu1].
  induction l as [| x l IH]; intros s j Hlo Hall Hs1 Hs2.
  - cbn [fold_left length]. rewrite Nat.add_0_r. split; assumption.
  - inversion Hall as [| ? ? [Hx1 Hx2] Hall']; subst.
    cbn [fold_left length].
    replace (j + S (length l))%nat with (S j + length l)%nat by lia.
    pose proof (Qpower_ge_one (1 + Py.unit_roundoff) j ltac:(lra)) as HA.
    destruct (Qpower_le_one (1 - Py.unit_roundoff) j ltac:(lra) ltac:(lra)) as [HB0 HB1].
    assert (HJ : 0 <= inject_Z (Z.of_nat j)).
    { change 0 with (inject_Z 0). rewrite <- Zle_Qle. lia. }
    assert (Hs0 : 0 <= s).
    { assert (0 <= inject_Z (Z.of_nat j) * lo) by (apply Qmult_le_0_compat; assumption).
      assert (0 <= inject_Z (Z.of_nat j) * lo * (1 - Py.unit_roundoff) ^ Z.of_nat j)
        by (apply Qmult_le_0_compat; lra).
      lra. }
    destruct (round_error_nonneg (s + x) ltac:(lra)) as [Hr1 Hr2].
    apply IH; [exact Hlo | exact Hall' | |]; unfold Py.fadd.
    + rewrite inject_Z_succ, Qpower_succ by lra.
      set (J := inject_Z (Z.of_nat j)) in *.
      set (B := (1 - Py.unit_roundoff) ^ Z.of_nat j) in *.
      set (u := Py.unit_roundoff) in *.
      assert (H1 : lo * B <= lo) by nra.
      assert (H2 : J * lo * B + lo * B <= s + x) by lra.
      assert (H3 : (J * lo * B + lo * B) * (1 - u) <= (s + x) * (1 - u))
        by (apply Qmult_le_compat_r; lra).
      assert (E : (J + 1) * lo * (B * (1 - u)) == (J * lo * B + lo * B) * (1 - u)) by ring.
      lra.
    + rewrite inject_Z_succ, Qpower_succ by lra.
      set (J := inject_Z (Z.of_nat j)) in *.
      set (A := (1 + Py.unit_roundoff) ^ Z.of_nat j) in *.
      set (u := Py.unit_roundoff) in *.
      assert (Hhi : 0 <= hi) by lra.
      assert (H1 : hi <= hi * A) by nra.
      assert (H2 : s + x <= J * hi * A + hi * A) by lra.
      assert (H3 : (s + x) * (1 + u) <= (J * hi * A + hi * A) * (1 + u))
        by (apply Qmult_le_compat_r; lra).
      assert (E : (J + 1) * hi * (A * (1 + u)) == (J * hi * A + hi * A) * (1 + u)) by ring.
      lra.
Qed.

(** X1.  The simple moving average: undefined below [period] candles; for a
    period [n] of at least 1 it is defined from [n] candles on, without
    raising, and lies between any bounds [0 <= lo <= hi] of the trailing
    [n] closes up to the roundings of the float sum and of the division:
    between [lo * (1 - 2^-53)^(n+1)] and [hi * (1 + 2^-53)^(n+1)]. *)
Theorem calculate_moving_average_bounds (data : list Candle) (period : Z)
  (lo hi : Q) :
  (1 <= period)%Z ->
  0 <= lo ->
  Forall (fun c => lo <= close c <= hi) (Py.slice_from (- period) data) ->
  ((Z.of_nat (length data) < period)%Z ->
     calculate_moving_average data period = Py.Ok None)
  /\ ((period <= Z.of_nat (length data))%Z ->
      exists ma, calculate_moving_average data period = Py.Ok (Some ma)
                 /\ lo * (1 - Py.unit_roundoff) ^ (period + 1) <= ma
                 /\ ma <= hi * (1 + Py.unit_roundoff) ^ (period + 1)).
Proof.
  intros Hp Hlo Hwin. unfold calculate_moving_average. split; intros Hlen.
  - destruct (Z.ltb_spec (Z.of_nat (length data)) period); [reflexivity | lia].
  - destruct (Z.ltb_spec (Z.of_nat (length data)) period); [lia |].
    destruct unit_roundoff_bounds as [Hu0 Hu1].
    pose proof (inject_Z_pos period Hp) as Hpos.
    rewrite float_div_nonzero by lra. cbn [Py.bind].
    eexists. split; [reflexivity |].
    assert (Hcl : Forall (fun x => lo <= x <= hi)
                         (map close (Py.slice_from (- period) data)))
      by (apply Forall_map; exact Hwin).
    assert (Hhi : 0 <= hi).
    { assert (Hn : length (map close (Py.slice_from (- period) data)) = Z.to_nat period)
        by (rewrite length_map; apply length_slice_last; assumption).
      destruct (map close (Py.slice_from (- period) data)) as [| x l];
        [cbn in Hn; lia |].
      inversion Hcl as [| ? ? [Hx1 Hx2] _]; subst. lra. }
    destruct (float_sum_bounds lo hi _ 0 0%nat Hlo Hcl) as [Hs1 Hs2].
    { change (inject_Z (Z.of_nat 0)) with 0. lra. }
    { change (inject_Z (Z.of_nat 0)) with 0. lra. }
    cbn [Nat.add] in Hs1, Hs2.
    rewrite length_map, length_slice_last in Hs1, Hs2 by assumption.
    rewrite Z2Nat.id in Hs1, Hs2 by lia.
    fold (Py.float_sum (map close (Py.slice_from (- period) data))) in Hs1, Hs2.
    set (S := Py.float_sum (map close (Py.slice_from (- period) data))) in *.
    assert (EA : (1 + Py.unit_roundoff) ^ (period + 1)
                 == (1 + Py.unit_roundoff) ^ period * (1 + Py.unit_roundoff)).
    { rewrite Qpower_plus by lra. rewrite Qpower_1_r. reflexivity. }
    assert (EB : (1 - Py.unit_roundoff) ^ (period + 1)
                 == (1 - Py.unit_roundoff) ^ period * (1 - Py.unit_roundoff)).
    { rewrite Qpower_plus by lra. rewrite Qpower_1_r. reflexivity. }
    assert (HB0 : 0 < (1 - Py.unit_roundoff) ^ period) by (apply Qpower_0_lt; lra).
    assert (HA0 : 0 < (1 + Py.unit_roundoff) ^ period) by (apply Qpower_0_lt; lra).
    set (n := inject_Z period) in *.
    set (A := (1 + Py.unit_roundoff) ^ period) in *.
    set (B := (1 - Py.unit_roundoff) ^ period) in *.
    set (u := Py.unit_roundoff) in *.
    assert (Hq1 : lo * B <= S / n).
    { apply Qle_shift_div_l; [exact Hpos |]. lra. }
    assert (Hq2 : S / n <= hi * A).
    { apply Qle_shift_div_r; [exact Hpos |]. lra. }
    assert (Hq0 : 0 <= S / n).
    { assert (0 <= lo * B) by (apply Qmult_le_0_compat; lra). lra. }
    destruct (round_error_nonneg (S / n) Hq0) as [Hr1 Hr2]. fold u in Hr1, Hr2.
    assert (H1 : lo * B * (1 - u) <= S / n * (1 - u))
      by (apply Qmult_le_compat_r; lra).
    assert (H2 : S / n * (1 + u) <= hi * A * (1 + u))
      by (apply Qmult_le_compat_r; lra).
    rewrite EA, EB. split; lra.
Qed.

Lemma calculate_moving_average_bounds_witness :
  let data := map (fun p => mkCandle 0 p p p p 0) [10; 12; 11; 13] in
  (1 <= 3)%Z
  /\ 0 <= 11
  /\ Forall (fun c => 11 <= close c <= 13) (Py.slice_from (- 3) data)
  /\ exists ma, calculate_moving_average data 3 = Py.Ok (Some ma)
                /\ 11 * (1 - Py.unit_roundoff) ^ (3 + 1) <= ma
                /\ ma <= 13 * (1 + Py.unit_roundoff) ^ (3 + 1).
Proof.
  set (data := map (fun p => mkCandle 0 p p p p 0) [10; 12; 11; 13]).
  assert (Hp : (1 <= 3)%Z) by lia.
  assert (Hlo : 0 <= 11) by discriminate.
  assert (Hwin : Forall (fun c => 11 <= close c <= 13) (Py.slice_from (- 3) data)).
  { repeat constructor; discriminate. }
  split; [exact Hp |]. split; [exact Hlo |]. split; [exact Hwin |].
  apply (proj2 (calculate_moving_average_bounds data 3 11 13 Hp Hlo Hwin)).
  cbn. lia.
Defined.

(** Fifty closes of 2000.1: the average computed is above every close. *)
Example calculate_moving_average_above_max :
  let data := repeat (mkCandle 0 0 0 0 (Py.round 2000.1) 0) 50 in
  exists ma, calculate_moving_average data 50 = Py.Ok (Some ma)
             /\ Py.round 2000.1 < ma.
Proof. eexists. split; [vm_compute; reflexivity | vm_compute; reflexivity]. Qed.

(** A period of 0 is not rejected: with any candle list the division by
    the period raises. *)
Lemma calculate_moving_average_period_zero (data : list Candle) :
  calculate_moving_average data 0 = Py.Raise Py.ZeroDivisionError.
Proof.
  unfold calculate_moving_average.
  destruct (Z.ltb_spec (Z.of_nat (length data)) 0); [lia |].
  rewrite float_div_zero by reflexivity. reflexivity.
Qed.

End MovingAverage.

(** ** [TechnicalAnalyzer]: pivot points and nearest levels *)

Section PivotsAndNearest.
Import TechnicalAnalyzer.
Local Open Scope Q_scope.

(** X2.  Pivot points come from the second-to-last candle.  When its
    prices are positive floats and its close lies between its low and its
    high, the pivot lies between the low and the high up to the three
    roundings of its computation: between [low * (1 - 2^-53)^3] and
    [high * (1 + 2^-53)^3].  Whenever the computed pivot does lie between
    the low and the high, every support is at or below the pivot and every
    resistance at or above it, with s3 <= low and high <= r3; when moreover
    the high is at most twice the low, the bands are ordered
    s3 <= s2 <= s1 <= pivot <= r1 <= r2 <= r3. *)
Theorem calculate_pivot_points_ordered (data : list Candle) (prev_day : Candle) :
  data !! (length data - 2)%nat = Some prev_day ->
  (2 <= length data)%nat ->
  0 < low prev_day ->
  low prev_day <= close prev_day <= high prev_day ->
  Py.is_float (high prev_day) = true ->
  Py.is_float (low prev_day) = true ->
  exists pp,
    calculate_pivot_points data = Some pp
    /\ low prev_day * (1 - Py.unit_roundoff) ^ 3 <= pivot pp
    /\ pivot pp <= high prev_day * (1 + Py.unit_roundoff) ^ 3
    /\ (low prev_day <= pivot pp -> pivot pp <= high prev_day ->
        s1 pp <= pivot pp /\ pivot pp <= r1 pp
        /\ s2 pp <= pivot pp /\ pivot pp <= r2 pp
        /\ s3 pp <= low prev_day /\ high prev_day <= r3 pp
        /\ s3 pp <= pivot pp /\ pivot pp <= r3 pp)
    /\ (low prev_day <= pivot pp -> pivot pp <= high prev_day ->
        high prev_day <= 2 * low prev_day ->
        s3 pp <= s2 pp /\ s2 pp <= s1 pp /\ s1 pp <= pivot pp
        /\ pivot pp <= r1 pp /\ r1 pp <= r2 pp /\ r2 pp <= r3 pp).
Proof.
  intros Hprev Hlen Hlo0 [Hlc Hch] Hhf Hlf. unfold calculate_pivot_points.
  destruct (Z.ltb_spec (Z.of_nat (length data)) 2); [lia |].
  rewrite Hprev. eexists. split; [reflexivity |].
  cbn [pivot r1 r2 r3 s1 s2 s3].
  set (hi := high prev_day) in *. set (lo := low prev_day) in *.
  set (cl := close prev_day) in *.
  destruct unit_roundoff_bounds as [Hu0 Hu1].
  unfold Py.fquot, Py.fadd, Py.fsub, Py.fmul.
  set (p := Py.round (Py.round (Py.round (hi + lo) + cl) / 3)).
  assert (Hpf : Py.is_float p = true) by apply round_is_float.
  assert (E3 : forall x : Q, x ^ 3 == x * x * x)
    by (intros x; change (x ^ 3) with (x * (x * x)); ring).
  split; [| split; [| split]].
  - destruct (round_error_nonneg (hi + lo) ltac:(lra)) as [Ha1 _].
    set (a1 := Py.round (hi + lo)) in *.
    assert (Ha1' : (3 * lo - cl) * (1 - Py.unit_roundoff) <= a1).
    { assert ((3 * lo - cl) * (1 - Py.unit_roundoff) <= (hi + lo) * (1 - Py.unit_roundoff))
        by (apply Qmult_le_compat_r; lra). lra. }
    assert (Hs : 3 * lo * (1 - Py.unit_roundoff) <= a1 + cl).
    { assert (cl * (1 - Py.unit_roundoff) <= cl * 1) by (apply Qmult_le_l; lra). lra. }
    assert (Hs0 : 0 <= a1 + cl).
    { assert (0 <= 3 * lo * (1 - Py.unit_roundoff)) by (apply Qmult_le_0_compat; lra). lra. }
    destruct (round_error_nonneg (a1 + cl) Hs0) as [Ha2 _].
    set (a2 := Py.round (a1 + cl)) in *.
    assert (Ha2' : 3 * lo * (1 - Py.unit_roundoff) * (1 - Py.unit_roundoff) <= a2).
    { assert (3 * lo * (1 - Py.unit_roundoff) * (1 - Py.unit_roundoff)
              <= (a1 + cl) * (1 - Py.unit_roundoff))
        by (apply Qmult_le_compat_r; lra). lra. }
    assert (Hq : lo * (1 - Py.unit_roundoff) * (1 - Py.unit_roundoff) <= a2 / 3).
    { apply Qle_shift_div_l; [reflexivity |]. lra. }
    assert (Hq0 : 0 <= a2 / 3).
    { assert (0 <= lo * (1 - Py.unit_roundoff)) by (apply Qmult_le_0_compat; lra).
      assert (0 <= lo * (1 - Py.unit_roundoff) * (1 - Py.unit_roundoff))
        by (apply Qmult_le_0_compat; lra). lra. }
    destruct (round_error_nonneg (a2 / 3) Hq0) as [Hp _]. fold p in Hp.
    rewrite E3.
    assert (lo * (1 - Py.unit_roundoff) * (1 - Py.unit_roundoff) * (1 - Py.unit_roundoff)
            <= a2 / 3 * (1 - Py.unit_roundoff))
      by (apply Qmult_le_compat_r; lra).
    lra.
  - destruct (round_error_nonneg (hi + lo) ltac:(lra)) as [_ Ha1].
    pose proof (round_nonneg (hi + lo) ltac:(lra)) as Ha10.
    set (a1 := Py.round (hi + lo)) in *.
    assert (Ha1' : a1 <= (3 * hi - cl) * (1 + Py.unit_roundoff)).
    { assert ((hi + lo) * (1 + Py.unit_roundoff) <= (3 * hi - cl) * (1 + Py.unit_roundoff))
        by (apply Qmult_le_compat_r; lra). lra. }
    assert (Hs : a1 + cl <= 3 * hi * (1 + Py.unit_roundoff)).
    { assert (cl * 1 <= cl * (1 + Py.unit_roundoff)) by (apply Qmult_le_l; lra). lra. }
    destruct (round_error_nonneg (a1 + cl) ltac:(lra)) as [_ Ha2].
    pose proof (round_nonneg (a1 + cl) ltac:(lra)) as Ha20.
    set (a2 := Py.round (a1 + cl)) in *.
    assert (Ha2' : a2 <= 3 * hi * (1 + Py.unit_roundoff) * (1 + Py.unit_roundoff)).
    { assert ((a1 + cl) * (1 + Py.unit_roundoff)
              <= 3 * hi * (1 + Py.unit_roundoff) * (1 + Py.unit_roundoff))
        by (apply Qmult_le_compat_r; lra). lra. }
    assert (Hq : a2 / 3 <= hi * (1 + Py.unit_roundoff) * (1 + Py.unit_roundoff)).
    { apply Qle_shift_div_r; [reflexivity |]. lra. }
    assert (Hq0 : 0 <= a2 / 3) by (apply Qle_shift_div_l; [reflexivity | lra]).
    destruct (round_error_nonneg (a2 / 3) Hq0) as [_ Hp]. fold p in Hp.
    rewrite E3.
    assert (a2 / 3 * (1 + Py.unit_roundoff)
            <= hi * (1 + Py.unit_roundoff) * (1 + Py.unit_roundoff) * (1 + Py.unit_roundoff))
      by (apply Qmult_le_compat_r; lra).
    lra.
  - intros Hlp Hph.
    assert (E2 : Py.round (2 * p) == 2 * p).
    { rewrite round_double. apply is_float_spec in Hpf. rewrite Hpf. reflexivity. }
    assert (Hw : 0 <= Py.round (hi - lo)) by (apply round_nonneg; lra).
    assert (Hw1 : 0 <= Py.round (2 * Py.round (p - lo))).
    { apply round_nonneg.
      pose proof (round_nonneg (p - lo) ltac:(lra)). lra. }
    assert (Hw2 : 0 <= Py.round (2 * Py.round (hi - p))).
    { apply round_nonneg.
      pose proof (round_nonneg (hi - p) ltac:(lra)). lra. }
    assert (Hs1 : Py.round (Py.round (2 * p) - hi) <= p)
      by (apply round_le_float; [exact Hpf | lra]).
    assert (Hr1 : p <= Py.round (Py.round (2 * p) - lo))
      by (apply round_ge_float; [exact Hpf | lra]).
    assert (Hs2 : Py.round (p - Py.round (hi - lo)) <= p)
      by (apply round_le_float; [exact Hpf | lra]).
    assert (Hr2 : p <= Py.round (p + Py.round (hi - lo)))
      by (apply round_ge_float; [exact Hpf | lra]).
    assert (Hs3 : Py.round (lo - Py.round (2 * Py.round (hi - p))) <= lo)
      by (apply round_le_float; [exact Hlf | lra]).
    assert (Hr3 : hi <= Py.round (hi + Py.round (2 * Py.round (p - lo))))
      by (apply round_ge_float; [exact Hhf | lra]).
    repeat split; try assumption; lra.
  - intros Hlp Hph Hh2.
    assert (E2 : Py.round (2 * p) == 2 * p).
    { rewrite round_double. apply is_float_spec in Hpf. rewrite Hpf. reflexivity. }
    assert (Ew : Py.round (hi - lo) == hi - lo)
      by (apply sterbenz; [exact Hhf | exact Hlf | lra ..]).
    assert (Eu : Py.round (2 * Py.round (p - lo)) == 2 * (p - lo)).
    { rewrite round_double.
      assert (E : Py.round (p - lo) == p - lo)
        by (apply sterbenz; [exact Hpf | exact Hlf | lra ..]).
      pose proof (round_is_float (p - lo)) as Hf. apply is_float_spec in Hf.
      rewrite Hf, E. reflexivity. }
    assert (Ed : Py.round (2 * Py.round (hi - p)) == 2 * (hi - p)).
    { rewrite round_double.
      assert (E : Py.round (hi - p) == hi - p)
        by (apply sterbenz; [exact Hhf | exact Hpf | lra ..]).
      pose proof (round_is_float (hi - p)) as Hf. apply is_float_spec in Hf.
      rewrite Hf, E. reflexivity. }
    split; [apply round_mono; lra |].
    split; [apply round_mono; lra |].
    split; [apply round_le_float; [exact Hpf | lra] |].
    split; [apply round_ge_float; [exact Hpf | lra] |].
    split; apply round_mono; lra.
Qed.

Lemma calculate_pivot_points_ordered_witness :
  let data := [mkCandle 0 2000 2010 1990 2004 0; mkCandle 1 2004 2008 2001 2006 0] in
  let prev_day := mkCandle 0 2000 2010 1990 2004 0 in
  data !! (length data - 2)%nat = Some prev_day
  /\ (2 <= length data)%nat
  /\ 0 < low prev_day
  /\ low prev_day <= close prev_day <= high prev_day
  /\ Py.is_float (high prev_day) = true
  /\ Py.is_float (low prev_day) = true
  /\ exists pp,
       calculate_pivot_points data = Some pp
       /\ low prev_day * (1 - Py.unit_roundoff) ^ 3 <= pivot pp
       /\ pivot pp <= high prev_day * (1 + Py.unit_roundoff) ^ 3
       /\ (low prev_day <= pivot pp -> pivot pp <= high prev_day ->
           s1 pp <= pivot pp /\ pivot pp <= r1 pp
           /\ s2 pp <= pivot pp /\ pivot pp <= r2 pp
           /\ s3 pp <= low prev_day /\ high prev_day <= r3 pp
           /\ s3 pp <= pivot pp /\ pivot pp <= r3 pp)
       /\ (low prev_day <= pivot pp -> pivot pp <= high prev_day ->
           high prev_day <= 2 * low prev_day ->
           s3 pp <= s2 pp /\ s2 pp <= s1 pp /\ s1 pp <= pivot pp
           /\ pivot pp <= r1 pp /\ r1 pp <= r2 pp /\ r2 pp <= r3 pp).
Proof.
  set (prev_day := mkCandle 0 2000 2010 1990 2004 0).
  set (data := [prev_day; mkCandle 1 2004 2008 2001 2006 0]).
  assert (H1 : data !! (length data - 2)%nat = Some prev_day) by reflexivity.
  assert (H2 : (2 <= length data)%nat) by (cbn; lia).
  assert (H3 : 0 < low prev_day) by reflexivity.
  assert (H4 : low prev_day <= close prev_day <= high prev_day)
    by (split; discriminate).
  assert (H5 : Py.is_float (high prev_day) = true) by (vm_compute; reflexivity).
  assert (H6 : Py.is_float (low prev_day) = true) by (vm_compute; reflexivity).
  split; [exact H1 |]. split; [exact H2 |]. split; [exact H3 |].
  split; [exact H4 |]. split; [exact H5 |]. split; [exact H6 |].
  exact (calculate_pivot_points_ordered data prev_day H1 H2 H3 H4 H5 H6).
Defined.

(** A flat candle at 2000.1: the computed pivot falls below the low, and
    the first resistance below the pivot. *)
Example calculate_pivot_points_flat_candle :
  let p := Py.round 2000.1 in
  exists pp,
    calculate_pivot_points [mkCandle 0 p p p p 0; mkCandle 1 p p p p 0] = Some pp
    /\ pivot pp < p /\ r1 pp < pivot pp.
Proof.
  eexists. split; [vm_compute; reflexivity |]. split; vm_compute; reflexivity.
Qed.

Lemma calculate_pivot_points_short (data : list Candle) :
  (length data < 2)%nat -> calculate_pivot_points data = None.
Proof.
  intros Hlen. unfold calculate_pivot_points.
  destruct (Z.ltb_spec (Z.of_nat (length data)) 2); [reflexivity | lia].
Qed.

Lemma fold_min2_le (l : list Q) : forall x y,
  In y (x :: l) -> fold_left Py.min2 l x <= y.
Proof.
  induction l as [| z l IH]; intros x y Hy; cbn [fold_left].
  - destruct Hy as [<- | []]. lra.
  - assert (Hacc : Py.min2 x z <= x /\ Py.min2 x z <= z)
      by (unfold Py.min2; destruct (Qlt_le_dec z x); split; lra).
    destruct Hy as [<- | [<- | Hy]].
    + eapply Qle_trans; [apply IH; left; reflexivity | apply Hacc].
    + eapply Qle_trans; [apply IH; left; reflexivity | apply Hacc].
    + apply IH. right. exact Hy.
Qed.

Lemma fold_max2_ge (l : list Q) : forall x y,
  In y (x :: l) -> y <= fold_left Py.max2 l x.
Proof.
  induction l as [| z l IH]; intros x y Hy; cbn [fold_left].
  - destruct Hy as [<- | []]. lra.
  - assert (Hacc : x <= Py.max2 x z /\ z <= Py.max2 x z)
      by (unfold Py.max2; destruct (Qlt_le_dec x z); split; lra).
    destruct Hy as [<- | [<- | Hy]].
    + eapply Qle_trans; [apply Hacc | apply IH; left; reflexivity].
    + eapply Qle_trans; [apply Hacc | apply IH; left; reflexivity].
    + apply IH. right. exact Hy.
Qed.

Lemma min_or_none_spec (l : list Q) (m : Q) :
  min_or_none l = Some m -> In m l /\ forall y, In y l -> m <= y.
Proof.
  destruct l as [| x l]; [discriminate |]. intros [= <-].
  split; [apply fold_min2_In | intros y; apply fold_min2_le].
Qed.

Lemma max_or_none_spec (l : list Q) (m : Q) :
  max_or_none l = Some m -> In m l /\ forall y, In y l -> y <= m.
Proof.
  destruct l as [| x l]; [discriminate |]. intros [= <-].
  split; [apply fold_max2_In | intros y; apply fold_max2_ge].
Qed.

(** X3.  The nearest levels.  A reported resistance is a listed resistance
    strictly above the price with no listed resistance strictly between,
    and its distance is positive; symmetrically for the support.  A
    resistance is reported as soon as one lies above a non-negative price,
    a support as soon as a positive one lies below the price. *)
Theorem find_nearest_levels_nearest (current_price : Q) (levels : Levels) :
  let nearest := find_nearest_levels current_price levels in
  (forall r pips, near_resistance nearest = Some (r, pips) ->
     In r (resistance levels) /\ current_price < r
     /\ (forall r', In r' (resistance levels) -> current_price < r' -> r <= r')
     /\ pips = (r - current_price) * 10 /\ 0 < pips)
  /\ (forall s pips, near_support nearest = Some (s, pips) ->
     In s (support levels) /\ s < current_price
     /\ (forall s', In s' (support levels) -> s' < current_price -> s' <= s)
     /\ pips = (current_price - s) * 10 /\ 0 < pips)
  /\ (forall r, In r (resistance levels) -> 0 <= current_price ->
      current_price < r -> near_resistance nearest <> None)
  /\ (forall s, In s (support levels) -> 0 < s ->
      s < current_price -> near_support nearest <> None).
Proof.
  cbv zeta. unfold find_nearest_levels. cbn [near_resistance near_support].
  set (rs := List.filter (fun r => Py.gtb r current_price) (resistance levels)).
  set (ss := List.filter (fun s => Py.ltb s current_price) (support levels)).
  assert (Hrs : forall x, In x rs <-> In x (resistance levels) /\ current_price < x).
  { intros x. unfold rs. rewrite filter_In, gtb_spec. reflexivity. }
  assert (Hss : forall x, In x ss <-> In x (support levels) /\ x < current_price).
  { intros x. unfold ss. rewrite filter_In, ltb_spec. reflexivity. }
  split; [| split; [| split]].
  - intros r pips Hnear.
    destruct (min_or_none rs) as [m |] eqn:Hm; [| discriminate Hnear].
    destruct (number_truthy (Some m)); [| discriminate Hnear].
    injection Hnear as <- <-.
    destruct (min_or_none_spec rs m Hm) as [Hin Hmin].
    apply Hrs in Hin as [Hin Hgt].
    split; [exact Hin |]. split; [exact Hgt |].
    split; [intros r' Hr' Hgt'; apply Hmin, Hrs; split; assumption |].
    split; [reflexivity | lra].
  - intros s pips Hnear.
    destruct (max_or_none ss) as [m |] eqn:Hm; [| discriminate Hnear].
    destruct (number_truthy (Some m)); [| discriminate Hnear].
    injection Hnear as <- <-.
    destruct (max_or_none_spec ss m Hm) as [Hin Hmax].
    apply Hss in Hin as [Hin Hlt].
    split; [exact Hin |]. split; [exact Hlt |].
    split; [intros s' Hs' Hlt'; apply Hmax, Hss; split; assumption |].
    split; [reflexivity | lra].
  - intros r Hr Hprice Hgt.
    assert (Hin : In r rs) by (apply Hrs; split; assumption).
    destruct (min_or_none rs) as [m |] eqn:Hm;
      [| destruct rs; [destruct Hin | discriminate Hm]].
    destruct (min_or_none_spec rs m Hm) as [Hmin _].
    apply Hrs in Hmin as [_ Hmgt].
    cbn [number_truthy].
    destruct (Qeq_bool m 0) eqn:E; [| cbn; discriminate].
    apply Qeq_bool_iff in E. lra.
  - intros s Hs Hpos Hlt.
    assert (Hin : In s ss) by (apply Hss; split; assumption).
    destruct (max_or_none ss) as [m |] eqn:Hm;
      [| destruct ss; [destruct Hin | discriminate Hm]].
    destruct (max_or_none_spec ss m Hm) as [_ Hmax].
    specialize (Hmax s Hin).
    cbn [number_truthy].
    destruct (Qeq_bool m 0) eqn:E; [| cbn; discriminate].
    apply Qeq_bool_iff in E. lra.
Qed.

(** Price 100 with resistances 110, 101 and supports 99, 95. *)
Example find_nearest_levels_example :
  find_nearest_levels 100 (mkLevels [110; 101] [99; 95])
  = mkNearestLevels (Some (101, (101 - 100) * 10)) (Some (99, (100 - 99) * 10)).
Proof. reflexivity. Qed.

(** A level of exactly zero is never reported: [if nearest_support:] takes
    0.0 for "no level". *)
Example find_nearest_levels_zero_support :
  near_support (find_nearest_levels 5 (mkLevels [] [0])) = None.
Proof. reflexivity. Qed.

End PivotsAndNearest.

(** ** [TechnicalAnalyzer.get_ma_alignment] *)

Section MaAlignment.
Import TechnicalAnalyzer.
Local Open Scope Q_scope.

Lemma ma_values_spec (mas : gmap Z (option Q)) (m : Q) :
  In m (ma_values mas) <-> exists period, mas !! period = Some (Some m).
Proof.
  unfold ma_values. rewrite <- list_elem_of_In, list_elem_of_omap. split.
  - intros ([period o] & Hin & Ho). cbn in Ho. subst o.
    apply elem_of_map_to_list in Hin. eauto.
  - intros [period Hp]. exists (period, Some m). split; [| reflexivity].
    apply elem_of_map_to_list. exact Hp.
Qed.

(** X4.  "Bullish" exactly when at least one average is computed and the price
    is strictly above every computed one; "Bearish" exactly when at least
    one is computed and the price is strictly below every computed one;
    "Neutral" in every other case, in particular when none is computed. *)
Theorem get_ma_alignment_spec (mas : gmap Z (option Q)) (current_price : Q) :
  let computed m := exists period, mas !! period = Some (Some m) in
  (get_ma_alignment mas current_price = "Bullish"
   <-> (exists m, computed m) /\ forall m, computed m -> m < current_price)
  /\ (get_ma_alignment mas current_price = "Bearish"
      <-> (exists m, computed m) /\ forall m, computed m -> current_price < m)
  /\ (get_ma_alignment mas current_price = "Neutral"
      <-> ~ ((exists m, computed m) /\ forall m, computed m -> m < current_price)
          /\ ~ ((exists m, computed m) /\ forall m, computed m -> current_price < m)).
Proof.
  cbv zeta.
  assert (Habove : forallb (fun ma => Py.gtb current_price ma) (ma_values mas) = true
                   <-> forall m, (exists period, mas !! period = Some (Some m)) ->
                                 m < current_price).
  { rewrite forallb_forall. split.
    - intros H m Hm. apply gtb_spec, H, ma_values_spec, Hm.
    - intros H m Hm. apply gtb_spec, H, ma_values_spec, Hm. }
  assert (Hbelow : forallb (fun ma => Py.ltb current_price ma) (ma_values mas) = true
                   <-> forall m, (exists period, mas !! period = Some (Some m)) ->
                                 current_price < m).
  { rewrite forallb_forall. split.
    - intros H m Hm. apply ltb_spec, H, ma_values_spec, Hm.
    - intros H m Hm. apply ltb_spec, H, ma_values_spec, Hm. }
  assert (Hsome : ma_values mas <> [] <-> exists m period, mas !! period = Some (Some m)).
  { split.
    - intros Hne. destruct (ma_values mas) as [| m l] eqn:E; [contradiction |].
      exists m. apply ma_values_spec. rewrite E. left. reflexivity.
    - intros [m Hm] E. apply ma_values_spec in Hm. rewrite E in Hm. destruct Hm. }
  assert (Hexcl : forall m, (exists period, mas !! period = Some (Some m)) ->
                  m < current_price -> current_price < m -> False)
    by (intros; lra).
  unfold get_ma_alignment.
  destruct (bool_decide (mas = ∅)) eqn:Hempty.
  - apply bool_decide_eq_true in Hempty. subst mas.
    assert (Hnone : ~ exists m period, (∅ : gmap Z (option Q)) !! period = Some (Some m))
      by (intros (m & period & H); rewrite lookup_empty in H; discriminate H).
    split; [split; [discriminate | intros [Hc _]; contradiction] |].
    split; [split; [discriminate | intros [Hc _]; contradiction] |].
    split; [intros _; split; intros [Hc _]; contradiction | reflexivity].
  - destruct (ma_values mas) as [| v vs] eqn:E.
    + assert (Hnone : ~ exists m period, mas !! period = Some (Some m))
        by (intros H; apply Hsome in H; contradiction).
      split; [split; [discriminate | intros [Hc _]; contradiction] |].
      split; [split; [discriminate | intros [Hc _]; contradiction] |].
      split; [intros _; split; intros [Hc _]; contradiction | reflexivity].
    + assert (Hex : exists m period, mas !! period = Some (Some m))
        by (apply Hsome; discriminate).
      destruct (forallb (fun ma => Py.gtb current_price ma) (v :: vs)) eqn:Ea.
      * pose proof (proj1 Habove eq_refl) as Ha.
        split; [split; [intros _; split; assumption | reflexivity] |].
        split; [split; [discriminate |] | split; [discriminate |]].
        -- intros [[m Hm] Hb]. exfalso. exact (Hexcl m Hm (Ha m Hm) (Hb m Hm)).
        -- intros [Hn _]. exfalso. apply Hn. split; assumption.
      * assert (Hna : ~ forall m, (exists period, mas !! period = Some (Some m)) ->
                                  m < current_price)
          by (intros H; apply Habove in H; congruence).
        destruct (forallb (fun ma => Py.ltb current_price ma) (v :: vs)) eqn:Eb.
        -- pose proof (proj1 Hbelow eq_refl) as Hb.
           split; [split; [discriminate | intros [_ H]; contradiction] |].
           split; [split; [intros _; split; assumption | reflexivity] |].
           split; [discriminate |].
           intros [_ Hn]. exfalso. apply Hn. split; assumption.
        -- assert (Hnb : ~ forall m, (exists period, mas !! period = Some (Some m)) ->
                                     current_price < m)
             by (intros H; apply Hbelow in H; congruence).
           split; [split; [discriminate | intros [_ H]; contradiction] |].
           split; [split; [discriminate | intros [_ H]; contradiction] |].
           split; [intros _; split; intros [_ H]; contradiction | reflexivity].
Qed.

End MaAlignment.

(** ** [TechnicalAnalyzer.calculate_rsi]: the trailing window *)

Section RsiWindow.
Import TechnicalAnalyzer.
Local Open Scope Q_scope.

Lemma drop_gains (closes : list Q) : forall k,
  drop k (gains closes) = gains (drop k closes).
Proof.
  induction closes as [| a closes IH]; intros k.
  - destruct k; reflexivity.
  - destruct k as [| k]; [reflexivity |].
    destruct closes as [| b closes].
    + destruct k; reflexivity.
    + change (gains (a :: b :: closes))
        with (Py.max2 (b - a) 0 :: gains (b :: closes)).
      cbn [drop]. apply IH.
Qed.

Lemma drop_losses (closes : list Q) : forall k,
  drop k (losses closes) = losses (drop k closes).
Proof.
  induction closes as [| a closes IH]; intros k.
  - destruct k; reflexivity.
  - destruct k as [| k]; [reflexivity |].
    destruct closes as [| b closes].
    + destruct k; reflexivity.
    + change (losses (a :: b :: closes))
        with (Py.max2 (- (b - a)) 0 :: losses (b :: closes)).
      cbn [drop]. apply IH.
Qed.

Lemma slice_from_last {A} (l : list A) (m : Z) :
  (1 <= m)%Z -> (m <= Z.of_nat (length l))%Z ->
  Py.slice_from (- m) l = drop (length l - Z.to_nat m) l.
Proof.
  intros Hm Hlen. unfold Py.slice_from.
  destruct (Z.ltb_spec (- m) 0); [| lia].
  f_equal. lia.
Qed.

(** X5.  The RSI looks at the trailing [period + 1] candles only: older candles
    do not change the result. *)
Theorem calculate_rsi_trailing_window (data : list Candle) (period : Z) :
  (1 <= period)%Z ->
  (period + 1 <= Z.of_nat (length data))%Z ->
  calculate_rsi data period
  = calculate_rsi (Py.slice_from (- (period + 1)) data) period.
Proof.
  intros Hp Hlen.
  rewrite (slice_from_last data (period + 1)) by lia.
  set (n0 := (length data - Z.to_nat (period + 1))%nat).
  assert (Hwin : length (drop n0 data) = Z.to_nat (period + 1))
    by (rewrite length_drop; lia).
  rewrite (calculate_rsi_eq data period Hp Hlen).
  rewrite (calculate_rsi_eq (drop n0 data) period Hp) by (rewrite Hwin; lia).
  assert (Hg : Py.slice_from (- period) (gains (map close data))
               = Py.slice_from (- period) (gains (map close (drop n0 data)))).
  { rewrite (slice_from_last (gains (map close data)) period)
      by (rewrite ?length_gains, ?length_map; lia).
    rewrite (slice_from_last (gains (map close (drop n0 data))) period)
      by (rewrite ?length_gains, ?length_map, ?Hwin; lia).
    rewrite !length_gains, !length_map, Hwin, !drop_gains.
    replace (Z.to_nat (period + 1) - 1 - Z.to_nat period)%nat with 0%nat by lia.
    replace (length data - 1 - Z.to_nat period)%nat with n0 by lia.
    rewrite drop_0, skipn_map. reflexivity. }
  assert (Hl : Py.slice_from (- period) (losses (map close data))
               = Py.slice_from (- period) (losses (map close (drop n0 data)))).
  { rewrite (slice_from_last (losses (map close data)) period)
      by (rewrite ?length_losses, ?length_map; lia).
    rewrite (slice_from_last (losses (map close (drop n0 data))) period)
      by (rewrite ?length_losses, ?length_map, ?Hwin; lia).
    rewrite !length_losses, !length_map, Hwin, !drop_losses.
    replace (Z.to_nat (period + 1) - 1 - Z.to_nat period)%nat with 0%nat by lia.
    replace (length data - 1 - Z.to_nat period)%nat with n0 by lia.
    rewrite drop_0, skipn_map. reflexivity. }
  rewrite <- Hg, <- Hl. reflexivity.
Qed.

Lemma calculate_rsi_trailing_window_witness :
  let candle p := mkCandle 0 p p p p 0 in
  let data := map candle [50; 7; 10; 11; 10.5; 11.5] in
  (1 <= 3)%Z
  /\ (3 + 1 <= Z.of_nat (length data))%Z
  /\ calculate_rsi data 3 = calculate_rsi (map candle [10; 11; 10.5; 11.5]) 3.
Proof.
  set (candle p := mkCandle 0 p p p p 0).
  set (data := map candle [50; 7; 10; 11; 10.5; 11.5]).
  assert (Hp : (1 <= 3)%Z) by lia.
  assert (Hlen : (3 + 1 <= Z.of_nat (length data))%Z) by (cbn; lia).
  split; [exact Hp |]. split; [exact Hlen |].
  exact (calculate_rsi_trailing_window data 3 Hp Hlen).
Defined.

End RsiWindow.

(** ** [TechnicalAnalyzer.analyze_timeframe] *)

Section AnalyzeTimeframe.
Import TechnicalAnalyzer.
Local Open Scope Q_scope.

Lemma calculate_moving_average_total (data : list Candle) (period : Z) :
  (1 <= period)%Z ->
  exists o, calculate_moving_average data period = Py.Ok o
            /\ ((Z.of_nat (length data) < period)%Z -> o = None).
Proof.
  intros Hp. unfold calculate_moving_average.
  destruct (Z.ltb_spec (Z.of_nat (length data)) period).
  - eexists. split; [reflexivity | reflexivity].
  - pose proof (inject_Z_pos period Hp).
    rewrite float_div_nonzero by lra. cbn [Py.bind].
    eexists. split; [reflexivity | lia].
Qed.

Lemma get_rsi_status_defined (r : Q) : get_rsi_status (Some r) <> "N/A".
Proof.
  unfold get_rsi_status.
  destruct (Py.gtb r config.RSI_OVERBOUGHT); [discriminate |].
  destruct (Py.ltb r config.RSI_OVERSOLD); discriminate.
Qed.

(** X6.  The whole-timeframe analysis on positive prices.  Missing data or
    fewer than 20 candles give the insufficient-data marker.  From 20
    candles on the analysis is produced without raising; its price is the
    latest close, its RSI is defined and within [0, 100] with a status
    other than "N/A"; and below 50 candles neither moving average is
    computable, so the MA alignment is "Neutral". *)
Theorem analyze_timeframe_result (data : list Candle) (timeframe : string) :
  Forall (fun c => 0 < high c /\ 0 < low c /\ 0 < close c) data ->
  analyze_timeframe None timeframe = Py.Ok InsufficientData
  /\ ((length data < 20)%nat ->
      analyze_timeframe (Some data) timeframe = Py.Ok InsufficientData)
  /\ ((20 <= length data)%nat ->
      exists a latest r,
        analyze_timeframe (Some data) timeframe = Py.Ok (Analyzed a)
        /\ last data = Some latest
        /\ ta_current_price a = close latest
        /\ ta_rsi a = Some r /\ 0 <= r <= 100
        /\ ta_rsi_status a <> "N/A"
        /\ ((length data < 50)%nat ->
            ta_mas a = <[200%Z := None]> (<[50%Z := None]> ∅)
            /\ ta_ma_alignment a = "Neutral")).
Proof.
  intros Hpos. split; [reflexivity |]. split.
  - intros Hlen. unfold analyze_timeframe.
    destruct (Z.ltb_spec (Z.of_nat (length data)) 20); [reflexivity | lia].
  - intros Hlen. unfold analyze_timeframe.
    destruct (Z.ltb_spec (Z.of_nat (length data)) 20); [lia |].
    destruct (last data) as [latest |] eqn:Hlast;
      [| apply last_None in Hlast; subst data; cbn in Hlen; lia].
    (* RSI *)
    assert (Hp : (1 <= config.RSI_PERIOD)%Z) by (unfold config.RSI_PERIOD; lia).
    rewrite (calculate_rsi_eq data config.RSI_PERIOD Hp)
      by (unfold config.RSI_PERIOD; lia).
    cbn [Py.bind].
    set (r := rsi_value _ _).
    assert (Hr : 0 <= r <= 100).
    { apply rsi_value_range; apply avg_nonneg; try exact Hp.
      - apply gains_nonneg.
      - apply losses_nonneg. }
    (* moving averages *)
    destruct (calculate_moving_average_total data 50 ltac:(lia)) as (o50 & E50 & H50).
    destruct (calculate_moving_average_total data 200 ltac:(lia)) as (o200 & E200 & H200).
    unfold calculate_moving_averages, config.MA_PERIODS.
    cbn [Py.foldM]. rewrite E50. cbn [Py.bind]. rewrite E200. cbn [Py.bind].
    (* levels *)
    destruct (identify_support_resistance_top5 data default_lookback)
      as (levels & Elev & _).
    { eapply Forall_impl; [exact Hpos |]. intros c (Hh & Hl & _). split; assumption. }
    { unfold default_lookback. lia. }
    rewrite Elev. cbn [Py.bind].
    (* the close five candles back *)
    destruct (Z.leb_spec 5 (Z.of_nat (length data))); [| lia].
    destruct (data !! (length data - 5)%nat) as [c5 |] eqn:E5;
      [| apply lookup_ge_None in E5; lia].
    assert (Hc5 : 0 < close c5).
    { rewrite Forall_forall in Hpos.
      apply (Hpos c5). eapply list_elem_of_lookup_2. exact E5. }
    rewrite div_nonzero by lra. cbn [Py.bind].
    eexists. exists latest, r.
    split; [reflexivity |].
    cbn [ta_current_price ta_rsi ta_rsi_status ta_mas ta_ma_alignment].
    split; [reflexivity |]. split; [reflexivity |]. split; [reflexivity |].
    split; [exact Hr |]. split; [apply get_rsi_status_defined |].
    intros Hshort. rewrite (H50 ltac:(lia)), (H200 ltac:(lia)).
    split; reflexivity.
Qed.

Lemma analyze_timeframe_result_witness :
  let data := map (fun i => mkCandle (Z.of_nat i) 2000 2001 1999 2000 0) (seq 0 20) in
  Forall (fun c => 0 < high c /\ 0 < low c /\ 0 < close c) data
  /\ (20 <= length data)%nat
  /\ exists a latest r,
       analyze_timeframe (Some data) "1h" = Py.Ok (Analyzed a)
       /\ last data = Some latest
       /\ ta_current_price a = close latest
       /\ ta_rsi a = Some r /\ 0 <= r <= 100
       /\ ta_rsi_status a <> "N/A"
       /\ ((length data < 50)%nat ->
           ta_mas a = <[200%Z := None]> (<[50%Z := None]> ∅)
           /\ ta_ma_alignment a = "Neutral").
Proof.
  set (data := map (fun i => mkCandle (Z.of_nat i) 2000 2001 1999 2000 0) (seq 0 20)).
  assert (Hpos : Forall (fun c => 0 < high c /\ 0 < low c /\ 0 < close c) data)
    by (repeat constructor).
  assert (Hlen : (20 <= length data)%nat) by (cbn; lia).
  split; [exact Hpos |]. split; [exact Hlen |].
  exact (proj2 (proj2 (analyze_timeframe_result data "1h" Hpos)) Hlen).
Defined.

End AnalyzeTimeframe.

(** ** [TechnicalAnalyzer.calculate_volume_profile] *)

Section VolumeProfileFacts.
Import TechnicalAnalyzer.
Local Open Scope Q_scope.

(** X7.  The volume profile needs 20 candles and then never raises: the average
    is over the trailing 20 volumes; with an average that is not positive
    (a feed without volumes) the ratio is 1 and the volume is not high;
    with a positive average the volume is high exactly when the latest
    volume exceeds 1.5 times the average. *)
Theorem calculate_volume_profile_spec (data : list Candle) :
  (20 <= length data)%nat ->
  exists vp latest,
    calculate_volume_profile (Some data) = Py.Ok (Some vp)
    /\ last data = Some latest
    /\ current_volume vp = volume latest
    /\ average_volume vp
       = Py.sum (map volume (Py.slice_from (- 20) data)) / inject_Z 20
    /\ (average_volume vp <= 0 ->
        volume_ratio vp = 1 /\ is_high_volume vp = false)
    /\ (0 < average_volume vp ->
        (is_high_volume vp = true
         <-> 1.5 * average_volume vp < current_volume vp)).
Proof.
  intros Hlen. unfold calculate_volume_profile, config.VOLUME_LOOKBACK_DAYS.
  destruct (Z.ltb_spec (Z.of_nat (length data)) 20); [lia |].
  rewrite length_map, length_slice_last by lia.
  change (Z.of_nat (Z.to_nat 20)) with 20%Z.
  change (Z.opp 20) with (-20)%Z.
  rewrite div_nonzero by discriminate. cbn [Py.bind].
  set (avg := Py.sum (map volume (Py.slice_from (- 20) data)) / inject_Z 20).
  destruct (last data) as [latest |] eqn:Hlast;
    [| apply last_None in Hlast; subst data; cbn in Hlen; lia].
  destruct (Py.gtb avg 0) eqn:Havg.
  - apply gtb_spec in Havg.
    assert (Hne : ~ avg == 0)
      by (intros E; apply (Qlt_irrefl 0); rewrite <- E at 2; exact Havg).
    rewrite div_nonzero by exact Hne. cbn [Py.bind].
    eexists. exists latest. split; [reflexivity |].
    cbn [current_volume average_volume volume_ratio is_high_volume].
    split; [reflexivity |]. split; [reflexivity |]. split; [reflexivity |].
    split; [intros Hle; exfalso; apply (Qlt_irrefl 0);
            eapply Qlt_le_trans; [exact Havg | exact Hle] |].
    intros _.
    rewrite gtb_spec. unfold config.HIGH_VOLUME_THRESHOLD. split.
    + intros H0.
      assert (Hv : volume latest / avg * avg == volume latest)
        by (field; exact Hne).
      apply (Qmult_lt_compat_r _ _ avg Havg) in H0.
      rewrite Hv in H0. exact H0.
    + intros H0. apply Qlt_shift_div_l; [exact Havg | exact H0].
  - apply gtb_false in Havg. cbn [Py.bind].
    eexists. exists latest. split; [reflexivity |].
    cbn [current_volume average_volume volume_ratio is_high_volume].
    split; [reflexivity |]. split; [reflexivity |]. split; [reflexivity |].
    split; [intros _; split; reflexivity |].
    intros Hgt. exfalso. apply (Qlt_irrefl 0).
    eapply Qlt_le_trans; [exact Hgt | exact Havg].
Qed.

Lemma calculate_volume_profile_spec_witness :
  let data := map (fun i => mkCandle (Z.of_nat i) 2000 2001 1999 2000 0) (seq 0 20) in
  (20 <= length data)%nat
  /\ exists vp latest,
       calculate_volume_profile (Some data) = Py.Ok (Some vp)
       /\ last data = Some latest
       /\ current_volume vp = volume latest
       /\ average_volume vp
          = Py.sum (map volume (Py.slice_from (- 20) data)) / inject_Z 20
       /\ (average_volume vp <= 0 ->
           volume_ratio vp = 1 /\ is_high_volume vp = false)
       /\ (0 < average_volume vp ->
           (is_high_volume vp = true
            <-> 1.5 * average_volume vp < current_volume vp)).
Proof.
  set (data := map (fun i => mkCandle (Z.of_nat i) 2000 2001 1999 2000 0) (seq 0 20)).
  assert (Hlen : (20 <= length data)%nat) by (cbn; lia).
  split; [exact Hlen |].
  exact (calculate_volume_profile_spec data Hlen).
Defined.

End VolumeProfileFacts.

(** ** [TechnicalAnalyzer.identify_support_resistance]: what is reported *)

Section ReportedLevels.
Import TechnicalAnalyzer.
Local Open Scope Q_scope.

(** Members and coverage of a clustered list. *)
Lemma cluster_levels_members (threshold : Q) (levels out : list Q) :
  Forall (fun x => 0 < x) levels ->
  _cluster_levels levels threshold = Py.Ok out ->
  (forall m, In m out -> In m levels)
  /\ (levels <> [] -> out <> [])
  /\ (0 <= threshold -> forall x, In x levels ->
      exists m, In m out /\ m <= x /\ relative_gap x m <= threshold).
Proof.
  intros Hpos Hout. destruct levels as [| a levels].
  - cbn in Hout. injection Hout as <-.
    split; [intros m [] |]. split; [intros H; contradiction | intros _ x []].
  - destruct (sorted_cons_inv (a :: levels)) as (first & rest & Hs); [discriminate |].
    rewrite (cluster_levels_eq threshold _ first rest Hpos Hs) in Hout.
    injection Hout as <-.
    pose proof (sorted_StronglySorted (a :: levels)) as Hss. rewrite Hs in Hss.
    pose proof (sorted_perm (a :: levels)) as Hperm. rewrite Hs in Hperm.
    split; [| split; [intros _; discriminate |]].
    + intros m Hm. eapply Permutation_in; [exact Hperm |].
      destruct Hm as [<- | Hm]; [left; reflexivity | right].
      assert (HF : Forall (fun y => In y rest) (cluster_from threshold first rest))
        by (apply cluster_from_Forall, List.Forall_forall; auto).
      rewrite List.Forall_forall in HF. apply HF. exact Hm.
    + intros Hthr x Hx.
      apply cluster_from_covers; [exact Hthr | exact Hss | |].
      * rewrite List.Forall_forall in Hpos. apply Hpos.
        eapply Permutation_in; [exact Hperm | left; reflexivity].
      * eapply Permutation_in; [symmetry; exact Hperm | exact Hx].
Qed.

Lemma take_In {A} (n : nat) (l : list A) (x : A) : In x (take n l) -> In x l.
Proof.
  intros H. rewrite <- (take_drop n l). apply in_or_app. left. exact H.
Qed.

(** The head of a descending sort is a largest member. *)
Lemma sorted_reverse_head (l : list Q) :
  l <> [] ->
  exists top rest, Py.sorted_reverse l = top :: rest
                   /\ In top l /\ forall x, In x l -> x <= top.
Proof.
  intros Hne.
  pose proof (sorted_reverse_perm l) as Hperm.
  pose proof (sorted_reverse_Sorted l) as Hs.
  destruct (Py.sorted_reverse l) as [| top rest] eqn:E.
  - apply Permutation_nil in Hperm. contradiction.
  - exists top, rest. split; [reflexivity |].
    split; [eapply Permutation_in; [exact Hperm | left; reflexivity] |].
    apply Sorted_StronglySorted in Hs; [| intros a b c Hab Hbc; lra].
    inversion Hs as [| ? ? _ Hall]; subst.
    intros x Hx. apply (Permutation_in _ (Permutation_sym Hperm)) in Hx.
    destruct Hx as [<- | Hx]; [lra |].
    rewrite List.Forall_forall in Hall. apply Hall. exact Hx.
Qed.

(** X8.  With at least 5 candles, positive prices and a non-negative lookback:
    every reported resistance is a high and every reported support a low of
    the [lookback] window; both lists are non-empty; and no high of the
    window exceeds the top resistance by more than the clustering
    tolerance of 0.1%, widened by one part in 2^51 for the rounding of the
    computed relative distance. *)
Theorem identify_support_resistance_reported (data : list Candle) (lookback : Z) :
  Forall (fun c => 0 < high c /\ 0 < low c) data ->
  (0 <= lookback)%Z ->
  (5 <= length data)%nat ->
  let recent := Py.slice_from (- Z.min lookback (Z.of_nat (length data))) data in
  exists r top,
    identify_support_resistance data lookback = Py.Ok r
    /\ head (resistance r) = Some top
    /\ support r <> []
    /\ Forall (fun x => In x (map high recent)) (resistance r)
    /\ Forall (fun x => In x (map low recent)) (support r)
    /\ forall c, In c recent ->
         high c <= top * (1 + default_threshold * (1 + Py.pow2 (-51))).
Proof.
  intros Hpos Hlb Hlen recent. unfold identify_support_resistance.
  destruct (Z.ltb_spec (Z.of_nat (length data)) 5) as [Hshort | _]; [lia |].
  fold recent.
  assert (Hrec : recent <> []).
  { apply recent_data_nonempty; [| exact Hlb]. intros ->. cbn in Hlen. lia. }
  assert (Hrpos : Forall (fun c => 0 < high c /\ 0 < low c) recent)
    by (apply Forall_drop; exact Hpos).
  assert (Hhigh : Forall (fun x => 0 < x) (map high recent)).
  { apply Forall_map. eapply Forall_impl; [exact Hrpos |]. intros c [H _]. exact H. }
  assert (Hlow : Forall (fun x => 0 < x) (map low recent)).
  { apply Forall_map. eapply Forall_impl; [exact Hrpos |]. intros c [_ H]. exact H. }
  set (highs := map high recent) in *. set (lows := map low recent) in *.
  destruct (Py.max_list highs) as [hi | e] eqn:Ehi;
    [| destruct recent; [contradiction | discriminate Ehi]].
  destruct (Py.min_list lows) as [lo | e] eqn:Elo;
    [| destruct recent; [contradiction | discriminate Elo]].
  cbn [Py.bind].
  assert (Hhi : In hi highs /\ forall h, In h highs -> h <= hi).
  { unfold Py.max_list in Ehi. destruct highs as [| h0 hs]; [discriminate |].
    injection Ehi as <-. split; [apply fold_max2_In | intros h; apply fold_max2_ge]. }
  assert (Hlo : In lo lows).
  { unfold Py.min_list in Elo. destruct lows as [| l0 ls]; [discriminate |].
    injection Elo as <-. apply fold_min2_In. }
  assert (Hrl : Forall (fun x => In x highs) (peaks Py.gtb highs ++ [hi])).
  { apply Forall_app. split; [apply peaks_Forall, List.Forall_forall; auto |].
    constructor; [apply Hhi | constructor]. }
  assert (Hsl : Forall (fun x => In x lows) (peaks Py.ltb lows ++ [lo])).
  { apply Forall_app. split; [apply peaks_Forall, List.Forall_forall; auto |].
    constructor; [exact Hlo | constructor]. }
  assert (Hrlpos : Forall (fun x => 0 < x) (peaks Py.gtb highs ++ [hi])).
  { rewrite List.Forall_forall in Hrl, Hhigh |- *. intros x Hx. apply Hhigh, Hrl, Hx. }
  assert (Hslpos : Forall (fun x => 0 < x) (peaks Py.ltb lows ++ [lo])).
  { rewrite List.Forall_forall in Hsl, Hlow |- *. intros x Hx. apply Hlow, Hsl, Hx. }
  destruct (cluster_levels_total default_threshold _ Hrlpos) as (cr & Hcr & _).
  destruct (cluster_levels_total default_threshold _ Hslpos) as (cs & Hcs & _).
  rewrite Hcr, Hcs. cbn [Py.bind].
  destruct (cluster_levels_members _ _ _ Hrlpos Hcr) as (Hrin & Hrne & Hrcov).
  destruct (cluster_levels_members _ _ _ Hslpos Hcs) as (Hsin & Hsne & _).
  destruct (sorted_reverse_head cr) as (top & rtail & Ert & Htop & Hmax).
  { apply Hrne. intros E. apply app_eq_nil in E as [_ E]. discriminate E. }
  destruct (sorted_reverse_head cs) as (stop & stail & Est & _ & _).
  { apply Hsne. intros E. apply app_eq_nil in E as [_ E]. discriminate E. }
  eexists. exists top. split; [reflexivity |].
  cbn [resistance support]. unfold Py.slice_to.
  split; [rewrite Ert; reflexivity |].
  split; [rewrite Est; discriminate |].
  split; [| split].
  - apply List.Forall_forall. intros x Hx.
    apply take_In in Hx.
    apply (Permutation_in _ (sorted_reverse_perm cr)) in Hx.
    rewrite List.Forall_forall in Hrl. apply Hrl, Hrin, Hx.
  - apply List.Forall_forall. intros x Hx.
    apply take_In in Hx.
    apply (Permutation_in _ (sorted_reverse_perm cs)) in Hx.
    rewrite List.Forall_forall in Hsl. apply Hsl, Hsin, Hx.
  - intros c Hc.
    assert (Hch : high c <= hi) by (apply Hhi, in_map, Hc).
    destruct default_threshold_float as (_ & Hthr & _).
    destruct (Hrcov Hthr hi)
      as (m & Hm & Hmhi & Hnear); [apply in_or_app; right; left; reflexivity |].
    assert (Hmpos : 0 < m).
    { rewrite List.Forall_forall in Hrlpos. apply Hrlpos, Hrin, Hm. }
    assert (Hmtop : m <= top) by (apply Hmax, Hm).
    apply relative_gap_found in Hnear; [| exact Hmpos | exact Hmhi].
    apply widened_tolerance in Hnear; [| apply Qle_shift_div_l; lra].
    apply (Qmult_le_compat_r _ _ m) in Hnear; [| lra].
    assert (E : (hi - m) / m * m == hi - m) by (field; lra).
    rewrite E in Hnear.
    assert (HT : 0 <= default_threshold * (1 + Py.pow2 (-51))).
    { apply Qmult_le_0_compat; [exact Hthr | discriminate]. }
    generalize dependent (default_threshold * (1 + Py.pow2 (-51))).
    intros T Hnear HT. nra.
Qed.

Lemma identify_support_resistance_reported_witness :
  let data := map (fun i => mkCandle (Z.of_nat i) 2000 2001 1999 2000 0) (seq 0 5) in
  let recent := Py.slice_from (- Z.min 20 (Z.of_nat (length data))) data in
  Forall (fun c => 0 < high c /\ 0 < low c) data
  /\ (0 <= 20)%Z
  /\ (5 <= length data)%nat
  /\ exists r top,
       identify_support_resistance data 20 = Py.Ok r
       /\ head (resistance r) = Some top
       /\ support r <> []
       /\ Forall (fun x => In x (map high recent)) (resistance r)
       /\ Forall (fun x => In x (map low recent)) (support r)
       /\ forall c, In c recent ->
            high c <= top * (1 + default_threshold * (1 + Py.pow2 (-51))).
Proof.
  set (data := map (fun i => mkCandle (Z.of_nat i) 2000 2001 1999 2000 0) (seq 0 5)).
  assert (Hpos : Forall (fun c => 0 < high c /\ 0 < low c) data)
    by (repeat constructor).
  assert (Hlb : (0 <= 20)%Z) by lia.
  assert (Hlen : (5 <= length data)%nat) by (cbn; lia).
  split; [exact Hpos |]. split; [exact Hlb |]. split; [exact Hlen |].
  exact (identify_support_resistance_reported data 20 Hpos Hlb Hlen).
Defined.

End ReportedLevels.

(** ** [TwelveDataFetcher]: what the fetchers return and send *)

Section FetcherFacts.
Import TechnicalAnalyzer TwelveDataFetcher.
Local Open Scope Q_scope.

Lemma convert_items_caught (values : list Item) :
  Forall (fun i => forall e, i = Fails e -> caught e = true) values ->
  convert_items values = Py.Ok (omap converted values).
Proof.
  induction 1 as [| i values Hi _ IH]; [reflexivity |].
  destruct i as [aware c | e]; cbn [convert_items omap converted].
  - rewrite IH. reflexivity.
  - rewrite (Hi e eq_refl). exact IH.
Qed.

Lemma convert_items_uncaught (values : list Item) :
  Exists (fun i => exists e, i = Fails e /\ caught e = false) values ->
  exists e, convert_items values = Py.Raise e /\ caught e = false.
Proof.
  induction values as [| i values IH]; intros H; [inversion H |].
  destruct i as [aware c | e]; cbn [convert_items].
  - inversion H as [? ? [e [He _]] | ? ? Hx]; subst; [discriminate He |].
    destruct (IH Hx) as [e [-> He]]. exists e. split; [reflexivity | exact He].
  - destruct (caught e) eqn:Hc.
    + inversion H as [? ? [e' [He1 He']] | ? ? Hx]; subst.
      * injection He1 as He1. congruence.
      * exact (IH Hx).
    + exists e. split; [reflexivity | exact Hc].
Qed.

Lemma convert_items_Ok (values : list Item) (price_data : list (bool * Candle)) :
  convert_items values = Py.Ok price_data ->
  Forall (fun i => forall e, i = Fails e -> caught e = true) values
  /\ price_data = omap converted values.
Proof.
  revert price_data.
  induction values as [| i values IH]; intros price_data H.
  - injection H as <-. split; [constructor | reflexivity].
  - destruct i as [aware c | e]; cbn [convert_items] in H.
    + destruct (convert_items values) as [tl | e] eqn:E; [| discriminate H].
      injection H as <-. destruct (IH tl eq_refl) as [Hall ->].
      split; [| reflexivity]. constructor; [| exact Hall]. intros e He. discriminate He.
    + destruct (caught e) eqn:Hc; [| discriminate H].
      destruct (IH price_data H) as [Hall ->].
      split; [| reflexivity]. constructor; [| exact Hall].
      intros e' [= <-]. exact Hc.
Qed.

Lemma sort_by_datetime_sorted (l : list Candle) :
  Sorted (fun a b => (datetime a <= datetime b)%Z)
    (Py.sort_by (fun a b => (datetime a <=? datetime b)%Z) l).
Proof.
  pose proof (sort_by_sorted (fun a b : Candle => (datetime a <=? datetime b)%Z)) as Hs.
  specialize (Hs ltac:(intros a b H; apply Z.leb_gt in H; apply Z.leb_le; lia) l).
  induction Hs as [| a l' _ IH Hhd]; constructor; [exact IH |].
  destruct Hhd; constructor. apply Z.leb_le. assumption.
Qed.

Lemma convert_values_sorted (values : list Item) (candles : list Candle) :
  convert_values values = Py.Ok candles ->
  Forall (fun i => forall e, i = Fails e -> caught e = true) values
  /\ mixed_awareness (omap converted values) = false
  /\ Permutation candles (map snd (omap converted values))
  /\ Sorted (fun a b => (datetime a <= datetime b)%Z) candles.
Proof.
  unfold convert_values. intros H.
  destruct (convert_items values) as [price_data | e] eqn:E; [| discriminate H].
  cbn [Py.bind] in H. destruct (convert_items_Ok _ _ E) as [Hall ->].
  destruct (mixed_awareness (omap converted values)) eqn:Hm; [discriminate H |].
  injection H as <-. split; [exact Hall |]. split; [reflexivity |].
  split; [apply sort_by_perm | apply sort_by_datetime_sorted].
Qed.

Lemma convert_values_raises (values : list Item) :
  Exists (fun i => exists e, i = Fails e /\ caught e = false) values
  \/ mixed_awareness (omap converted values) = true ->
  exists e, convert_values values = Py.Raise e.
Proof.
  intros [H | H].
  - destruct (convert_items_uncaught values H) as [e [He _]].
    exists e. unfold convert_values. rewrite He. reflexivity.
  - unfold convert_values.
    destruct (convert_items values) as [price_data | e] eqn:E.
    + destruct (convert_items_Ok _ _ E) as [_ ->]. cbn [Py.bind]. rewrite H.
      exists Py.TypeError. reflexivity.
    + exists e. reflexivity.
Qed.

(** What [get_price_data] returns, read off the response. *)
Lemma get_price_data_value (symbol interval : string) (outputsize : Z) (w : World) :
  fst (get_price_data symbol interval outputsize w)
  = Py.Ok match pending w with
          | Http status_code (Some (JSeries values)) :: _ =>
              if ((400 <=? status_code) && (status_code <? 600))%Z then None
              else match convert_values values with
                   | Py.Ok price_data => Some price_data
                   | Py.Raise _ => None
                   end
          | _ => None
          end.
Proof.
  destruct w as [now pend done].
  unfold get_price_data, try_except, bind, requests_get, log. cbn.
  destruct pend as [| [status_code [data |] | e] rest]; cbn; try reflexivity.
  - unfold raise_for_status. cbn.
    destruct ((400 <=? status_code) && (status_code <? 600))%Z; cbn.
    + destruct data; reflexivity.
    + destruct data as [| values |]; try reflexivity.
      unfold lift. cbn. destruct (convert_values values); reflexivity.
  - unfold raise_for_status. cbn.
    destruct ((400 <=? status_code) && (status_code <? 600))%Z; reflexivity.
Qed.

(** X9.  [get_price_data] never raises, sends exactly one request and does not
    sleep.  It returns candles only for a response outside the 4xx/5xx
    range whose body is a series in which no item raises anything but
    [ValueError] or [KeyError] and the datetimes that convert are not a
    mix of offset-aware and naive ones; the candles are then the items
    that convert, each once, in ascending order of timestamp.  On such a
    response, one item that raises another exception, or a mix of aware
    and naive datetimes, makes the result of the whole call [None]. *)
Theorem get_price_data_result (symbol interval : string) (outputsize : Z)
  (w : World) :
  exists o,
    fst (get_price_data symbol interval outputsize w) = Py.Ok o
    /\ events (snd (get_price_data symbol interval outputsize w))
       = events w ++ [Request "/time_series" symbol (Some interval)]
    /\ clock (snd (get_price_data symbol interval outputsize w)) = clock w
    /\ (forall candles, o = Some candles ->
        exists status_code values rest,
          pending w = Http status_code (Some (JSeries values)) :: rest
          /\ ((400 <=? status_code) && (status_code <? 600))%Z = false
          /\ Forall (fun i => forall e, i = Fails e -> caught e = true) values
          /\ mixed_awareness (omap converted values) = false
          /\ Permutation candles (map snd (omap converted values))
          /\ Sorted (fun a b => (datetime a <= datetime b)%Z) candles)
    /\ (forall status_code values rest,
        pending w = Http status_code (Some (JSeries values)) :: rest ->
        ((400 <=? status_code) && (status_code <? 600))%Z = false ->
        (Forall (fun i => forall e, i = Fails e -> caught e = true) values ->
         mixed_awareness (omap converted values) = false ->
         o = Some (Py.sort_by (fun a b => (datetime a <=? datetime b)%Z)
                     (map snd (omap converted values))))
        /\ (Exists (fun i => exists e, i = Fails e /\ caught e = false) values ->
            o = None)
        /\ (mixed_awareness (omap converted values) = true -> o = None)).
Proof.
  destruct (get_price_data_events symbol interval outputsize w) as [Hev Hclock].
  pose proof (get_price_data_value symbol interval outputsize w) as Hv.
  eexists. split; [exact Hv |]. split; [exact Hev |]. split; [exact Hclock |].
  clear Hv Hev Hclock. split.
  - intros candles H.
    destruct (pending w) as [| [status_code [[| values | fields] |] | e] rest];
      try discriminate H.
    destruct ((400 <=? status_code) && (status_code <? 600))%Z eqn:Hst;
      [discriminate H |].
    destruct (convert_values values) as [candles' | e] eqn:E; [| discriminate H].
    injection H as ->.
    destruct (convert_values_sorted _ _ E) as (Hall & Hm & Hp & Hs).
    exists status_code, values, rest. repeat split; assumption.
  - intros status_code values rest -> ->. split; [| split].
    + intros Hall Hm. unfold convert_values.
      rewrite (convert_items_caught _ Hall). cbn [Py.bind]. rewrite Hm.
      reflexivity.
    + intros Hex.
      destruct (convert_values_raises values (or_introl Hex)) as [e ->].
      reflexivity.
    + intros Hm.
      destruct (convert_values_raises values (or_intror Hm)) as [e ->].
      reflexivity.
Qed.

(** One item whose fields have the wrong type, or one naive datetime among
    offset-aware ones, and the whole series is lost; an item with a missing
    field is only skipped. *)
Example get_price_data_series_lost :
  let c1 := mkCandle 1 2000 2001 1999 2000 0 in
  let c2 := mkCandle 2 2001 2002 2000 2001 0 in
  let fetch values :=
    fst (get_price_data "XAU/USD" "1h" 200
           (mkWorld 0 [Http 200 (Some (JSeries values))] [])) in
  fetch [Converts true c2; Fails Py.KeyError; Converts true c1]
  = Py.Ok (Some [c1; c2])
  /\ fetch [Converts true c2; Fails Py.TypeError; Converts true c1] = Py.Ok None
  /\ fetch [Converts true c2; Fails Py.AttributeError] = Py.Ok None
  /\ fetch [Converts true c2; Converts false c1] = Py.Ok None.
Proof. vm_compute. repeat split; reflexivity. Qed.

(** The requests and sleeps of one [get_quote] call. *)
Lemma get_quote_events (symbol : string) (w : World) :
  exists o, fst (get_quote symbol w) = Py.Ok o
  /\ match pending w with
     | Http 429 _ :: _ =>
         events (snd (get_quote symbol w))
         = events w ++ [Request "/quote" symbol None; Sleep cooldown;
                        Request "/quote" symbol None]
         /\ clock (snd (get_quote symbol w)) = clock w + cooldown
     | _ =>
         events (snd (get_quote symbol w))
         = events w ++ [Request "/quote" symbol None]
         /\ clock (snd (get_quote symbol w)) = clock w
     end.
Proof.
  destruct w as [now pend done].
  destruct pend as [| [status_code body | e] rest].
  - eexists. split; [reflexivity | cbn [pending]; split; reflexivity].
  - destruct (Z.eq_dec status_code 429%Z) as [-> | Hne].
    + destruct rest as [| second rest].
      * eexists. cbn [pending]. split; [reflexivity |].
        unfold get_quote, try_except, bind, requests_get, log, time_sleep.
        cbn. rewrite <- !app_assoc. split; reflexivity.
      * rewrite get_quote_rate_limited. eexists. split; [reflexivity |].
        cbn [pending snd events clock]. split; reflexivity.
    + assert (Hst : (status_code =? 429)%Z = false) by (apply Z.eqb_neq; exact Hne).
      assert (Hrun : exists o,
                get_quote symbol (mkWorld now (Http status_code body :: rest) done)
                = (Py.Ok o, mkWorld now rest
                              (done ++ [Request "/quote" symbol None]))).
      { unfold get_quote, try_except, bind, requests_get, log. cbn.
        rewrite Hst. unfold raise_for_status, ret, raise. cbn.
        destruct ((400 <=? status_code) && (status_code <? 600))%Z; cbn;
          [eauto |].
        destruct body as [[| values | fields] |]; cbn; eauto. }
      destruct Hrun as [o Hrun]. exists o. rewrite Hrun. cbn [fst snd pending].
      split; [reflexivity |].
      destruct status_code as [| pos | pos]; try (split; reflexivity).
      do 10 (try destruct pos as [pos | pos |]); try (split; reflexivity).
      contradiction Hne. reflexivity.
  - eexists. split; [reflexivity | cbn [pending]; split; reflexivity].
Qed.

(** X10.  [get_quote] never raises.  When the first answer is a 429 it sleeps
    for the cooldown and sends the request a second time, and that is all;
    in every other case it sends the request once and does not sleep. *)
Theorem get_quote_requests (symbol : string) (w : World) :
  exists o, fst (get_quote symbol w) = Py.Ok o
  /\ match pending w with
     | Http 429 _ :: _ =>
         events (snd (get_quote symbol w))
         = events w ++ [Request "/quote" symbol None; Sleep cooldown;
                        Request "/quote" symbol None]
         /\ clock (snd (get_quote symbol w)) = clock w + cooldown
     | _ =>
         events (snd (get_quote symbol w))
         = events w ++ [Request "/quote" symbol None]
         /\ clock (snd (get_quote symbol w)) = clock w
     end.
Proof. exact (get_quote_events symbol w). Qed.

End FetcherFacts.

(** ** [MarketDataAggregator._get_cached_data]: what a call keeps *)

Section CacheInvariants.
Import MarketDataAggregator.
Local Open Scope Q_scope.

(** X11.  For every call: the returned object is exactly what the cache holds
    for the key afterwards (null iff the key is absent afterwards); no entry
    is ever removed; entries and timestamps of other keys are untouched; the
    timestamp of the key is the old one or the time of this call; and if
    every cached key had a timestamp before, it still has one after. *)
Theorem get_cached_data_keeps {V W : Type} (self : Cache V) (now : Q)
  (key : string) (ttl : Q) (fetch : fetch_func W V) (w : W) :
  let result := fst (fst (_get_cached_data self now key ttl fetch w)) in
  let self' := snd (fst (_get_cached_data self now key ttl fetch w)) in
  result = cache self' !! key
  /\ (forall k, is_Some (cache self !! k) -> is_Some (cache self' !! k))
  /\ (forall k, k <> key ->
      cache self' !! k = cache self !! k
      /\ cache_timestamps self' !! k = cache_timestamps self !! k)
  /\ (cache_timestamps self' !! key = cache_timestamps self !! key
      \/ cache_timestamps self' !! key = Some now)
  /\ ((forall k, is_Some (cache self !! k) -> is_Some (cache_timestamps self !! k)) ->
      forall k, is_Some (cache self' !! k) -> is_Some (cache_timestamps self' !! k)).
Proof.
  cbv zeta. unfold _get_cached_data.
  assert (Hrefetch :
    let r := match fetch w with
             | (Py.Ok (Some data), w') =>
                 (Some data,
                  mkCache (<[key := data]> (cache self))
                          (<[key := now]> (cache_timestamps self)), w')
             | (Py.Ok None, w') => (cache self !! key, self, w')
             | (Py.Raise _, w') => (cache self !! key, self, w')
             end in
    fst (fst r) = cache (snd (fst r)) !! key
    /\ (forall k, is_Some (cache self !! k) -> is_Some (cache (snd (fst r)) !! k))
    /\ (forall k, k <> key ->
        cache (snd (fst r)) !! k = cache self !! k
        /\ cache_timestamps (snd (fst r)) !! k = cache_timestamps self !! k)
    /\ (cache_timestamps (snd (fst r)) !! key = cache_timestamps self !! key
        \/ cache_timestamps (snd (fst r)) !! key = Some now)
    /\ ((forall k, is_Some (cache self !! k) -> is_Some (cache_timestamps self !! k)) ->
        forall k, is_Some (cache (snd (fst r)) !! k) ->
                  is_Some (cache_timestamps (snd (fst r)) !! k))).
  { cbv zeta. destruct (fetch w) as [[[data |] | e] w'];
      cbn [fst snd cache cache_timestamps];
      try (repeat split; auto; fail).
    split; [symmetry; apply lookup_insert_eq |].
    split.
    { intros k Hk. destruct (decide (key = k)) as [<- | Hne].
      - rewrite lookup_insert_eq. eauto.
      - rewrite lookup_insert_ne by exact Hne. exact Hk. }
    split.
    { intros k Hne. rewrite !lookup_insert_ne by (intros E; apply Hne; symmetry; exact E).
      split; reflexivity. }
    split; [right; apply lookup_insert_eq |].
    intros Hsync k Hk. destruct (decide (key = k)) as [<- | Hne].
    - rewrite lookup_insert_eq. eauto.
    - rewrite lookup_insert_ne by exact Hne.
      rewrite lookup_insert_ne in Hk by exact Hne. apply Hsync, Hk. }
  cbv zeta in Hrefetch.
  destruct (cache self !! key) as [v |] eqn:Hc; [| exact Hrefetch].
  destruct (cache_timestamps self !! key) as [t |] eqn:Ht; [| exact Hrefetch].
  destruct (Py.ltb (now - t) ttl); [| exact Hrefetch].
  cbn [fst snd]. rewrite Hc, Ht. repeat split; auto.
Qed.

End CacheInvariants.

(** ** [MarketDataAggregator.get_xauusd_data]: warm cache and call budget *)

Section XauusdFacts.
Import TechnicalAnalyzer TwelveDataFetcher MarketDataAggregator.
Local Open Scope Q_scope.

Lemma price_steps_warm (self : Cache Value) (w : World) (timeframes : list string) :
  forall price_data,
  (forall tf, In tf timeframes ->
     exists v t, cache self !! price_key tf = Some v
                 /\ cache_timestamps self !! price_key tf = Some t
                 /\ clock w - t < config.CACHE_TTL_PRICE_DATA) ->
  exists price_data',
    fold_left price_data_step timeframes (price_data, self, w)
    = (price_data', self, w)
    /\ forall tf v, In (tf, v) price_data' ->
         In (tf, v) price_data \/ cache self !! price_key tf = Some v.
Proof.
  induction timeframes as [| tf timeframes IH]; intros price_data Hfresh.
  - exists price_data. split; [reflexivity | auto].
  - destruct (Hfresh tf (or_introl eq_refl)) as (v & t & Hc & Ht & Hlt).
    cbn [fold_left].
    assert (Hstep : exists pd1,
              price_data_step (price_data, self, w) tf = (pd1, self, w)
              /\ forall tf' v', In (tf', v') pd1 ->
                   In (tf', v') price_data \/ cache self !! price_key tf' = Some v').
    { unfold price_data_step. fold (price_key tf). rewrite Hc.
      rewrite (get_cached_data_hit self _ _ _ _ _ v t Hc Ht Hlt).
      destruct (truthy (Some v)).
      - eexists. split; [reflexivity |].
        intros tf' v' Hin. apply in_app_or in Hin as [Hin | [[= <- <-] | []]]; auto.
      - eexists. split; [reflexivity | auto]. }
    destruct Hstep as (pd1 & -> & Hpd1).
    destruct (IH pd1) as (pd2 & -> & Hpd2).
    { intros tf' Hin. apply Hfresh. right. exact Hin. }
    exists pd2. split; [reflexivity |].
    intros tf' v' Hin. destruct (Hpd2 tf' v' Hin) as [H | H]; auto.
Qed.

(** X12.  Warm cache: when the quote entry and the price entry of every
    configured timeframe are fresh, [get_xauusd_data] sends no request and
    does not sleep (the world is unchanged), leaves the cache unchanged,
    returns the cached quote, and every price series it returns is the
    cached one of its timeframe. *)
Theorem get_xauusd_data_warm (self : Cache Value) (w : World)
  (q : Value) (fetched_at : Q) :
  cache self !! ("quote_" +:+ config.SYMBOL) = Some q ->
  cache_timestamps self !! ("quote_" +:+ config.SYMBOL) = Some fetched_at ->
  clock w - fetched_at < config.CACHE_TTL_QUOTE ->
  (forall tf, In tf config.TIMEFRAMES ->
     exists v t, cache self !! price_key tf = Some v
                 /\ cache_timestamps self !! price_key tf = Some t
                 /\ clock w - t < config.CACHE_TTL_PRICE_DATA) ->
  exists data,
    get_xauusd_data self w = (data, self, w)
    /\ quote data = Some q
    /\ forall tf v, In (tf, v) (price_data data) ->
         cache self !! price_key tf = Some v.
Proof.
  intros Hq Htq Hfresh Hprices. unfold get_xauusd_data.
  rewrite (get_cached_data_hit self _ _ _ _ _ q fetched_at Hq Htq Hfresh).
  destruct (price_steps_warm self w config.TIMEFRAMES [] Hprices)
    as (pd & -> & Hpd).
  eexists. split; [reflexivity |]. cbn [quote price_data].
  split; [reflexivity |].
  intros tf v Hin. destruct (Hpd tf v Hin) as [[] | H]. exact H.
Qed.

Lemma get_xauusd_data_warm_witness :
  let v := VJson (TwelveDataFetcher.JObject [("close", 2000)]) in
  let entries {A} (x : A) : gmap string A :=
    <["quote_XAU/USD" := x]>
      (<[price_key "15min" := x]>
         (<[price_key "1h" := x]> (<[price_key "4h" := x]> ∅))) in
  let self := mkCache (entries v) (entries 100) in
  let w := mkWorld 110 [] [] in
  exists data,
    get_xauusd_data self w = (data, self, w)
    /\ quote data = Some v
    /\ forall tf v', In (tf, v') (price_data data) ->
         cache self !! price_key tf = Some v'.
Proof.
  set (v := VJson (TwelveDataFetcher.JObject [("close", 2000)])).
  set (entries := fun (A : Type) (x : A) =>
    (<["quote_XAU/USD" := x]>
      (<[price_key "15min" := x]>
         (<[price_key "1h" := x]> (<[price_key "4h" := x]> ∅)))) : gmap string A).
  set (self := mkCache (entries Value v) (entries Q 100)).
  set (w := mkWorld 110 [] []).
  assert (H1 : cache self !! ("quote_" +:+ config.SYMBOL) = Some v)
    by (vm_compute; reflexivity).
  assert (H2 : cache_timestamps self !! ("quote_" +:+ config.SYMBOL) = Some 100)
    by (vm_compute; reflexivity).
  assert (H3 : clock w - 100 < config.CACHE_TTL_QUOTE) by reflexivity.
  assert (H4 : forall tf, In tf config.TIMEFRAMES ->
            exists v0 t, cache self !! price_key tf = Some v0
                         /\ cache_timestamps self !! price_key tf = Some t
                         /\ clock w - t < config.CACHE_TTL_PRICE_DATA).
  { intros tf Hin. exists v, 100.
    destruct Hin as [<- | [<- | [<- | []]]];
      (split; [vm_compute; reflexivity |]);
      (split; [vm_compute; reflexivity | reflexivity]). }
  exact (get_xauusd_data_warm self w v 100 H1 H2 H3 H4).
Defined.

Lemma requests_in_app (a b : list Event) :
  requests_in (a ++ b) = (requests_in a + requests_in b)%nat.
Proof. unfold requests_in. rewrite List.filter_app, length_app. reflexivity. Qed.

(** A cached call either leaves the world alone or runs the fetch once. *)
Lemma get_cached_data_world {V W} (self : Cache V) (now : Q) (key : string)
  (ttl : Q) (fetch : fetch_func W V) (w : W) :
  snd (_get_cached_data self now key ttl fetch w) = w
  \/ snd (_get_cached_data self now key ttl fetch w) = snd (fetch w).
Proof.
  unfold _get_cached_data.
  destruct (cache self !! key) as [v |];
    [destruct (cache_timestamps self !! key) as [t |];
       [destruct (Py.ltb (now - t) ttl); [left; reflexivity |] |] |];
    right; destruct (fetch w) as [[[data |] | e] w']; reflexivity.
Qed.

Lemma within_budget_refl (w : World) : within_budget 0 0 w w.
Proof.
  exists []. rewrite app_nil_r. split; [reflexivity |].
  split; [cbn; lia | lra].
Qed.

Lemma within_budget_weaken (n n' : nat) (d d' : Q) (w w' : World) :
  (n <= n')%nat -> d <= d' -> within_budget n d w w' -> within_budget n' d' w w'.
Proof.
  intros Hn Hd (added & Hev & Hreq & Hclock).
  exists added. split; [exact Hev |]. split; [lia | lra].
Qed.

Lemma within_budget_trans (n1 n2 : nat) (d1 d2 : Q) (w1 w2 w3 : World) :
  within_budget n1 d1 w1 w2 -> within_budget n2 d2 w2 w3 ->
  within_budget (n1 + n2) (d1 + d2) w1 w3.
Proof.
  intros (a1 & Hev1 & Hreq1 & Hc1) (a2 & Hev2 & Hreq2 & Hc2).
  exists (a1 ++ a2). rewrite Hev2, Hev1, <- app_assoc.
  split; [reflexivity |]. rewrite requests_in_app. split; [lia | lra].
Qed.

Lemma fetch_quote_budget (symbol : string) (w : World) :
  within_budget 2 cooldown w (snd (fetch_quote symbol w)).
Proof.
  unfold fetch_quote.
  destruct (get_quote_events symbol w) as (o & _ & Hev).
  destruct (get_quote symbol w) as [r w'] eqn:E. cbn [snd] in *.
  destruct (pending w) as [| [status_code body | e] rest].
  - destruct Hev as [Hev Hc]. eexists. split; [exact Hev |].
    split; [cbn; lia | rewrite Hc; unfold cooldown; lra].
  - assert (Hcase :
      (events w' = events w ++ [Request "/quote" symbol None; Sleep cooldown;
                                Request "/quote" symbol None]
       /\ clock w' = clock w + cooldown)
      \/ (events w' = events w ++ [Request "/quote" symbol None]
          /\ clock w' = clock w)).
    { destruct status_code as [| pos | pos]; try (right; exact Hev).
      do 10 (try destruct pos as [pos | pos |]); try (right; exact Hev).
      left. exact Hev. }
    destruct Hcase as [[Hev' Hc] | [Hev' Hc]];
      (eexists; split; [exact Hev' |]; split;
       [cbn; lia | rewrite Hc; unfold cooldown; lra]).
  - destruct Hev as [Hev Hc]. eexists. split; [exact Hev |].
    split; [cbn; lia | rewrite Hc; unfold cooldown; lra].
Qed.

Lemma price_data_step_budget (price_data : list (string * Value))
  (self : Cache Value) (w : World) (timeframe : string) :
  within_budget 1 inter_call_delay w
    (snd (price_data_step (price_data, self, w) timeframe)).
Proof.
  unfold price_data_step.
  set (w1 := match cache self !! ("price_" +:+ config.SYMBOL +:+ "_" +:+ timeframe) with
             | None => snd (time_sleep inter_call_delay w)
             | Some _ => w
             end).
  assert (H1 : within_budget 0 inter_call_delay w w1).
  { unfold w1. destruct (cache self !! _).
    - apply (within_budget_weaken 0 0 0 inter_call_delay);
        [lia | unfold inter_call_delay; lra | apply within_budget_refl].
    - exists [Sleep inter_call_delay]. cbn. split; [reflexivity |].
      split; [lia | unfold inter_call_delay; lra]. }
  assert (H2 : within_budget 1 0 w1
                 (snd (_get_cached_data self (clock w1)
                         ("price_" +:+ config.SYMBOL +:+ "_" +:+ timeframe)
                         config.CACHE_TTL_PRICE_DATA
                         (fetch_price_data config.SYMBOL timeframe 200) w1))).
  { destruct (get_cached_data_world self (clock w1)
                ("price_" +:+ config.SYMBOL +:+ "_" +:+ timeframe)
                config.CACHE_TTL_PRICE_DATA
                (fetch_price_data config.SYMBOL timeframe 200) w1) as [-> | ->].
    - apply (within_budget_weaken 0 1 0 0); [lia | lra | apply within_budget_refl].
    - unfold fetch_price_data.
      destruct (get_price_data_events config.SYMBOL timeframe 200 w1) as [Hev Hc].
      destruct (get_price_data config.SYMBOL timeframe 200 w1) as [r w2].
      cbn [snd] in *. eexists. split; [exact Hev |].
      split; [cbn; lia | rewrite Hc; lra]. }
  pose proof (within_budget_trans _ _ _ _ _ _ _ H1 H2) as H12.
  destruct (_get_cached_data self (clock w1) _ _ _ w1) as [[data self'] w2].
  cbn [snd] in H12.
  apply (within_budget_weaken (0 + 1) 1 (inter_call_delay + 0) inter_call_delay);
    [lia | lra |].
  destruct data as [d |]; [destruct (truthy (Some d)) |]; exact H12.
Qed.

Lemma price_steps_budget (timeframes : list string) :
  forall (price_data : list (string * Value)) (self : Cache Value) (w : World),
  within_budget (length timeframes)
    (inject_Z (Z.of_nat (length timeframes)) * inter_call_delay) w
    (snd (fold_left price_data_step timeframes (price_data, self, w))).
Proof.
  induction timeframes as [| tf timeframes IH]; intros price_data self w.
  - cbn [fold_left snd length].
    apply (within_budget_weaken 0 0 0 _); [lia | | apply within_budget_refl].
    change (inject_Z (Z.of_nat 0)) with 0. lra.
  - cbn [fold_left].
    pose proof (price_data_step_budget price_data self w tf) as H1.
    destruct (price_data_step (price_data, self, w) tf) as [[pd1 self1] w1].
    cbn [snd] in H1.
    pose proof (within_budget_trans _ _ _ _ _ _ _ H1 (IH pd1 self1 w1)) as H.
    eapply within_budget_weaken; [| | exact H].
    + cbn [length]. lia.
    + rewrite inject_Z_length_cons. lra.
Qed.

(** X13.  Call budget of one cycle of the price group: whatever the cache and
    the provider, [get_xauusd_data] sends at most 5 requests (the quote,
    possibly retried once, and one per timeframe), only appends to the
    event log, and sleeps at most 61 + 3 x 2 seconds. *)
Theorem get_xauusd_data_budget (self : Cache Value) (w : World) :
  within_budget 5 (cooldown + 3 * inter_call_delay) w
    (snd (get_xauusd_data self w)).
Proof.
  unfold get_xauusd_data.
  assert (H1 : within_budget 2 cooldown w
                 (snd (_get_cached_data self (clock w) ("quote_" +:+ config.SYMBOL)
                         config.CACHE_TTL_QUOTE (fetch_quote config.SYMBOL) w))).
  { destruct (get_cached_data_world self (clock w) ("quote_" +:+ config.SYMBOL)
                config.CACHE_TTL_QUOTE (fetch_quote config.SYMBOL) w) as [-> | ->].
    - apply (within_budget_weaken 0 2 0 cooldown);
        [lia | unfold cooldown; lra | apply within_budget_refl].
    - apply fetch_quote_budget. }
  destruct (_get_cached_data self (clock w) _ _ _ w) as [[q self1] w1].
  cbn [snd] in H1.
  pose proof (price_steps_budget config.TIMEFRAMES [] self1 w1) as H2.
  destruct (fold_left price_data_step config.TIMEFRAMES ([], self1, w1))
    as [[pd self2] w2].
  cbn [snd] in *.
  pose proof (within_budget_trans _ _ _ _ _ _ _ H1 H2) as H.
  eapply within_budget_weaken; [| | exact H].
  - cbn. lia.
  - cbn [config.TIMEFRAMES length]. change (inject_Z (Z.of_nat 3)) with 3. lra.
Qed.

End XauusdFacts.

(** ** [FREDFetcher]: latest observation and history *)

Section FredFacts.
Import FREDFetcher MarketAnalysisEngine.
Local Open Scope Q_scope.


(** X15.  A missing latest observation (FRED's ".") still yields a reading, with
    a null price and zero change; the correlation analysis does not accept
    it: with such a reading under "US10Y", [float(None)] raises [TypeError]
    and no analysis is produced. *)
Theorem get_series_latest_missing (series : string) (d1 : string)
  (rest : list Observation) (correlation_data : gmap string Reading) :
  Forall (fun o => value o <> NotANumber) (take 1 rest) ->
  exists s,
    get_series_latest series (Py.Ok (Some (mkObservation d1 Dot :: rest))) = Some s
    /\ price s = None /\ close s = None
    /\ change s = 0 /\ percent_change s = 0
    /\ (correlation_data !! "US10Y" = Some (as_reading s) ->
        analyze_correlations correlation_data = Py.Raise Py.TypeError).
Proof.
  intros Hprev.
  assert (Hpv : exists pv, match rest with
                           | prev :: _ => value_or_none (value prev)
                           | [] => Py.Ok None
                           end = Py.Ok pv).
  { destruct rest as [| prev rest']; [eauto |].
    inversion Hprev as [| ? ? Hv _]; subst.
    destruct (value prev); [eauto | eauto | contradiction]. }
  destruct Hpv as [pv Hpv].
  unfold get_series_latest. cbn [Py.bind value value_or_none].
  rewrite Hpv. cbn [Py.bind].
  eexists. split; [reflexivity |].
  cbn [price close change percent_change fst snd].
  repeat (split; [reflexivity |]).
  intros Hcd. unfold analyze_correlations. rewrite Hcd. reflexivity.
Qed.

Lemma get_series_latest_missing_witness :
  let rest := [mkObservation "2024-01-01" (Number 4.2)] in
  let s := mkSeriesLatest "DGS10" None None "2024-01-02" 0 0 (Some 4.2) in
  let correlation_data : gmap string Reading := {["US10Y" := as_reading s]} in
  Forall (fun o => value o <> NotANumber) (take 1 rest)
  /\ get_series_latest "DGS10"
       (Py.Ok (Some (mkObservation "2024-01-02" Dot :: rest))) = Some s
  /\ analyze_correlations correlation_data = Py.Raise Py.TypeError.
Proof.
  set (rest := [mkObservation "2024-01-01" (Number 4.2)]).
  set (s := mkSeriesLatest "DGS10" None None "2024-01-02" 0 0 (Some 4.2)).
  assert (H : Forall (fun o => value o <> NotANumber) (take 1 rest))
    by (repeat constructor; discriminate).
  split; [exact H |].
  destruct (get_series_latest_missing "DGS10" "2024-01-02" rest
              {["US10Y" := as_reading s]} H) as (s' & Es & _ & _ & _ & _ & Hraise).
  assert (Es0 : get_series_latest "DGS10"
                  (Py.Ok (Some (mkObservation "2024-01-02" Dot :: rest))) = Some s)
    by reflexivity.
  split; [exact Es0 |].
  apply Hraise. rewrite Es0 in Es. injection Es as <-.
  apply lookup_singleton_eq.
Defined.

Lemma history_fold (observations : list Observation) :
  forall history,
  Py.foldM
    (fun history obs =>
       match value obs with
       | Dot => Py.Ok history
       | v => let! x := float_value v in Py.Ok (history ++ [(date obs, x)])
       end)
    history observations
  = if forallb (fun o => match value o with NotANumber => false | _ => true end)
               observations
    then Py.Ok (history ++ omap history_entry observations)
    else Py.Raise Py.ValueError.
Proof.
  induction observations as [| o observations IH]; intros history.
  - cbn. rewrite app_nil_r. reflexivity.
  - cbn [Py.foldM forallb].
    change (omap history_entry (o :: observations))
      with (match history_entry o with
            | Some y => y :: omap history_entry observations
            | None => omap history_entry observations
            end).
    assert (He : history_entry o
                 = match value o with
                   | Number x => Some (date o, x)
                   | _ => None
                   end) by reflexivity.
    rewrite He. clear He.
    destruct (value o) as [| x |]; cbn [Py.bind float_value andb].
    + apply IH.
    + rewrite IH. rewrite <- app_assoc. reflexivity.
    + reflexivity.
Qed.

(** X16.  The history for charting: when every value is a number or the missing
    marker, it is the numeric observations in the reverse of the order
    received, so at most as many as received; a single value that is
    neither a number nor the marker empties the whole history, as does a
    failed request. *)
Theorem get_series_history_spec (series : string) (limit : Z)
  (observations : list Observation) (e : Py.exn) :
  (Forall (fun o => value o <> NotANumber) observations ->
   get_series_history series limit (Py.Ok (Some observations))
   = rev (omap history_entry observations))
  /\ (Exists (fun o => value o = NotANumber) observations ->
      get_series_history series limit (Py.Ok (Some observations)) = [])
  /\ (length (get_series_history series limit (Py.Ok (Some observations)))
      <= length observations)%nat
  /\ get_series_history series limit (Py.Ok None) = []
  /\ get_series_history series limit (Py.Raise e) = [].
Proof.
  assert (Hrev : omap history_entry (rev observations)
                 = rev (omap history_entry observations)).
  { induction observations as [| o l IH]; [reflexivity |].
    cbn [rev]. rewrite omap_app, IH.
    change (omap history_entry [o])
      with (match history_entry o with Some y => [y] | None => [] end).
    change (omap history_entry (o :: l))
      with (match history_entry o with
            | Some y => y :: omap history_entry l
            | None => omap history_entry l
            end).
    destruct (history_entry o); cbn [rev]; [reflexivity |].
    rewrite app_nil_r. reflexivity. }
  assert (Hall : forallb (fun o => match value o with NotANumber => false | _ => true end)
                         (rev observations) = true
                 <-> Forall (fun o => value o <> NotANumber) observations).
  { rewrite forallb_forall, List.Forall_forall. split.
    - intros H o Ho. specialize (H o ltac:(apply in_rev; rewrite rev_involutive; exact Ho)).
      destruct (value o); congruence.
    - intros H o Ho. apply in_rev in Ho. specialize (H o Ho).
      destruct (value o); congruence. }
  unfold get_series_history. cbn [Py.bind]. rewrite history_fold. cbn [app].
  split; [| split; [| split; [| split; reflexivity]]].
  - intros Hok. apply Hall in Hok. rewrite Hok. exact Hrev.
  - intros Hbad.
    destruct (forallb _ (rev observations)); [| reflexivity].
    pose proof (proj1 Hall eq_refl) as E.
    apply Exists_exists in Hbad as (o & Ho & Hv).
    rewrite Forall_forall in E. exfalso. exact (E o Ho Hv).
  - destruct (forallb _ (rev observations)); [| cbn; lia].
    rewrite Hrev, length_rev.
    clear. induction observations as [| o l IH]; [cbn; lia |].
    change (omap history_entry (o :: l))
      with (match history_entry o with
            | Some y => y :: omap history_entry l
            | None => omap history_entry l
            end).
    destruct (history_entry o); cbn [length]; lia.
Qed.

End FredFacts.

(** ** [ForexFactoryFetcher]: sample events and the fallback chain *)

Section ForexFactoryFacts.
Import ForexFactoryFetcher.
Local Open Scope Q_scope.

Lemma Qle_bool_shift (now : Q) (a b : Z) :
  Qle_bool (now + inject_Z a) (now + inject_Z b) = (a <=? b)%Z.
Proof.
  destruct (Z.leb_spec a b) as [H | H].
  - apply Qle_bool_iff. rewrite Zle_Qle in H. lra.
  - destruct (Qle_bool (now + inject_Z a) (now + inject_Z b)) eqn:E; [| reflexivity].
    apply Qle_bool_iff in E. assert (Hq : inject_Z a <= inject_Z b) by lra.
    rewrite <- Zle_Qle in Hq. lia.
Qed.

Lemma Qle_bool_after (now : Q) (a : Z) :
  Qle_bool now (now + inject_Z a) = (0 <=? a)%Z.
Proof.
  destruct (Z.leb_spec 0 a) as [H | H].
  - apply Qle_bool_iff. rewrite Zle_Qle in H. change (inject_Z 0) with 0 in H. lra.
  - destruct (Qle_bool now (now + inject_Z a)) eqn:E; [| reflexivity].
    apply Qle_bool_iff in E. assert (Hq : inject_Z 0 <= inject_Z a)
      by (change (inject_Z 0) with 0; lra).
    rewrite <- Zle_Qle in Hq. lia.
Qed.

Lemma sorted_by_time_spec (events : list Event) :
  Permutation (sorted_by_time events) events
  /\ Sorted (fun a b => time a <= time b) (sorted_by_time events).
Proof.
  unfold sorted_by_time. split; [apply sort_by_perm |].
  pose proof (sort_by_sorted (fun a b : Event => Qle_bool (time a) (time b))) as Hs.
  specialize (Hs ltac:(intros a b H; apply Qle_bool_total; exact H) events).
  induction Hs as [| a l _ IH Hhd]; constructor; [exact IH |].
  destruct Hhd; constructor. apply Qle_bool_iff. assumption.
Qed.

Lemma generate_sample_events_nonempty (now : Q) (hours_ahead : Z) :
  _generate_sample_events now hours_ahead <> [].
Proof.
  unfold _generate_sample_events. intros E.
  pose proof (proj1 (sorted_by_time_spec
    (match List.filter
             (fun e => Qle_bool now (time e)
                       && Qle_bool (time e) (now + timedelta hours_ahead 0))
             (sample_events now), sample_events now with
     | [], f :: _ => [at_time f (now + timedelta (Z.min 2 (hours_ahead - 1)) 0)]
     | _, _ => List.filter
                 (fun e => Qle_bool now (time e)
                           && Qle_bool (time e) (now + timedelta hours_ahead 0))
                 (sample_events now)
     end))) as Hperm.
  rewrite E in Hperm. apply Permutation_nil in Hperm.
  destruct (List.filter _ (sample_events now)) eqn:Ef; discriminate Hperm.
Qed.

(** X17.  The sample events: never an empty list; sorted by time; all of high
    impact and in USD.  For a window of at least one hour every returned
    event lies inside the window [now, now + hours_ahead]; for a window
    of zero or fewer hours the single event returned lies before [now]. *)
Theorem generate_sample_events_spec (now : Q) (hours_ahead : Z) :
  let events := _generate_sample_events now hours_ahead in
  events <> []
  /\ Sorted (fun a b => time a <= time b) events
  /\ Forall (fun e => impact e = "High" /\ currency e = "USD") events
  /\ ((1 <= hours_ahead)%Z ->
      Forall (fun e => now <= time e <= now + timedelta hours_ahead 0) events)
  /\ ((hours_ahead <= 0)%Z -> exists e, events = [e] /\ time e < now).
Proof.
  cbv zeta. unfold _generate_sample_events.
  set (cutoff := now + timedelta hours_ahead 0).
  set (inside := fun e => Qle_bool now (time e) && Qle_bool (time e) cutoff).
  set (first := mkEvent "US Non-Farm Payrolls (NFP)"
                  "Monthly employment report - High impact on USD"
                  "High" (now + timedelta 3 30) "USD").
  set (moved := at_time first (now + timedelta (Z.min 2 (hours_ahead - 1)) 0)).
  set (upcoming := match List.filter inside (sample_events now), sample_events now with
                   | [], f :: _ => [at_time f (now + timedelta (Z.min 2 (hours_ahead - 1)) 0)]
                   | _, _ => List.filter inside (sample_events now)
                   end).
  assert (Hup : upcoming = List.filter inside (sample_events now)
                /\ List.filter inside (sample_events now) <> []
                \/ upcoming = [moved] /\ List.filter inside (sample_events now) = []).
  { unfold upcoming. destruct (List.filter inside (sample_events now)) eqn:E.
    - right. split; reflexivity.
    - left. split; [reflexivity | discriminate]. }
  destruct (sorted_by_time_spec upcoming) as [Hperm Hsorted].
  assert (Hmem : forall e, In e (sorted_by_time upcoming) <-> In e upcoming).
  { intros e. split; apply Permutation_in; [exact Hperm | symmetry; exact Hperm]. }
  assert (Hsample : Forall (fun e => impact e = "High" /\ currency e = "USD")
                           (sample_events now))
    by (repeat constructor).
  split; [apply generate_sample_events_nonempty |].
  split; [exact Hsorted | split; [| split]].
  - apply List.Forall_forall. intros e He. apply Hmem in He.
    destruct Hup as [[Hu _] | [Hu _]]; rewrite Hu in He.
    + apply filter_In in He as [He _].
      rewrite List.Forall_forall in Hsample. apply Hsample, He.
    + destruct He as [<- | []]. split; reflexivity.
  - intros Hh. apply List.Forall_forall. intros e He. apply Hmem in He.
    destruct Hup as [[Hu _] | [Hu _]]; rewrite Hu in He.
    + apply filter_In in He as [_ He]. unfold inside in He.
      apply andb_true_iff in He as [H1 H2].
      apply Qle_bool_iff in H1, H2. split; assumption.
    + destruct He as [<- | []]. unfold moved. cbn [time at_time].
      unfold timedelta.
      assert (H0 : inject_Z 0 <= inject_Z (Z.min 2 (hours_ahead - 1) * 3600 + 0 * 60))
        by (rewrite <- Zle_Qle; lia).
      assert (H1 : inject_Z (Z.min 2 (hours_ahead - 1) * 3600 + 0 * 60)
                   <= inject_Z (hours_ahead * 3600 + 0 * 60))
        by (rewrite <- Zle_Qle; lia).
      change (inject_Z 0) with 0 in H0. unfold cutoff, timedelta. split; lra.
  - intros Hh.
    assert (Hnone : List.filter inside (sample_events now) = []).
    { unfold inside, cutoff, sample_events, timedelta. cbn [List.filter time].
      rewrite !Qle_bool_shift.
      repeat match goal with
      | |- context [(?a <=? ?b)%Z] =>
          destruct (Z.leb_spec a b); [lia |]
      end.
      rewrite !andb_false_r. reflexivity. }
    destruct Hup as [[_ Hne] | [Hu _]]; [contradiction |].
    exists moved. split.
    + rewrite Hu. reflexivity.
    + unfold moved. cbn [time at_time]. unfold timedelta.
      assert (H1 : inject_Z (Z.min 2 (hours_ahead - 1) * 3600 + 0 * 60) < inject_Z 0)
        by (rewrite <- Zlt_Qlt; lia).
      change (inject_Z 0) with 0 in H1. lra.
Qed.

(** X18.  [get_upcoming_events] never returns an empty list, whatever the
    scraper and the feed produce or raise; it returns the scraped events
    when there are some, else the feed's events when there are some. *)
Theorem get_upcoming_events_nonempty (now : Q) (hours_ahead : Z)
  (scraped rss : Py.result (list Event)) :
  get_upcoming_events now hours_ahead scraped rss <> []
  /\ (forall events, scraped = Py.Ok events -> events <> [] ->
      get_upcoming_events now hours_ahead scraped rss = events)
  /\ (forall events, scraped = Py.Ok [] -> rss = Py.Ok events -> events <> [] ->
      get_upcoming_events now hours_ahead scraped rss = events).
Proof.
  pose proof (generate_sample_events_nonempty now hours_ahead) as Hsample.
  unfold get_upcoming_events.
  split; [| split].
  - destruct scraped as [[| e es] | x]; cbn [Py.bind];
      [| discriminate | exact Hsample].
    destruct rss as [[| e es] | x]; cbn [Py.bind];
      [exact Hsample | discriminate | exact Hsample].
  - intros events -> Hne. destruct events; [contradiction | reflexivity].
  - intros events -> -> Hne. destruct events; [contradiction | reflexivity].
Qed.

End ForexFactoryFacts.

(** ** [MarketAnalysisEngine]: sessions *)

Section Sessions.
Import MarketAnalysisEngine.
Local Open Scope Q_scope.

(** The label of every minute of the day, checked minute by minute. *)
Lemma get_current_session_checked (hour minute : nat) :
  (hour < 24)%nat -> (minute < 60)%nat ->
  get_current_session (strftime_HM hour minute) = session_table hour minute.
Proof.
  intros Hh Hm.
  assert (Hall : forallb (fun h =>
            forallb (fun m =>
              String.eqb (get_current_session (strftime_HM h m)) (session_table h m))
              (seq 0 60)) (seq 0 24) = true)
    by (vm_compute; reflexivity).
  rewrite forallb_forall in Hall.
  specialize (Hall hour ltac:(apply in_seq; lia)).
  rewrite forallb_forall in Hall.
  specialize (Hall minute ltac:(apply in_seq; lia)).
  apply String.eqb_eq. exact Hall.
Qed.

(** X19.  The session label by time of day: "ASIAN" from 00:00 to 07:59,
    "ASIAN/LONDON" from 08:00 to 09:00, "LONDON" from 09:01 to 12:59,
    "LONDON/NY" from 13:00 to 17:00, "NY" from 17:01 to 22:00 and
    "OFF-HOURS" from 22:01 to 23:59; Asia and New York never overlap. *)
Theorem get_current_session_table (hour minute : nat) :
  (hour < 24)%nat -> (minute < 60)%nat ->
  let t := (60 * hour + minute)%nat in
  get_current_session (strftime_HM hour minute)
  = if (t <? 480)%nat then "ASIAN"
    else if (t <=? 540)%nat then "ASIAN/LONDON"
    else if (t <? 780)%nat then "LONDON"
    else if (t <=? 1020)%nat then "LONDON/NY"
    else if (t <=? 1320)%nat then "NY"
    else "OFF-HOURS".
Proof. intros Hh Hm. apply get_current_session_checked; assumption. Qed.

Lemma get_current_session_table_witness :
  (22 < 24)%nat /\ (1 < 60)%nat
  /\ get_current_session (strftime_HM 22 1) = "OFF-HOURS".
Proof.
  assert (Hh : (22 < 24)%nat) by lia. assert (Hm : (1 < 60)%nat) by lia.
  split; [exact Hh |]. split; [exact Hm |].
  exact (get_current_session_table 22 1 Hh Hm).
Defined.

Lemma int_of_floor (x : Q) : 0 <= x -> int_of x = Qfloor x.
Proof.
  intros Hx. destruct x as [n d]. unfold int_of, Qfloor. cbn [Qnum Qden].
  apply Z.quot_div_nonneg; [| lia].
  unfold Qle in Hx. cbn in Hx. lia.
Qed.

(** X20.  The London / New York overlap.  It is reported active exactly for
    hours 13 to 16, with 0 minutes to wait.  Otherwise the time to the
    next 13:00 (the next day's from 17:00 on) is reported in whole minutes,
    rounded down, and is between 0 and 1200. *)
Theorem get_next_session_overlap_spec (hour : Z) (seconds : Q) :
  (0 <= hour < 24)%Z ->
  inject_Z hour * 3600 <= seconds < (inject_Z hour + 1) * 3600 ->
  let o := get_next_session_overlap hour seconds in
  let remaining :=
    if (17 <=? hour)%Z then inject_Z (13 * 3600) + inject_Z 86400 - seconds
    else inject_Z (13 * 3600) - seconds in
  (active o = true <-> (13 <= hour < 17)%Z)
  /\ (active o = true -> minutes_until o = 0%Z)
  /\ (active o = false ->
      (0 <= minutes_until o <= 1200)%Z
      /\ inject_Z (minutes_until o) * 60 <= remaining
      /\ remaining < (inject_Z (minutes_until o) + 1) * 60).
Proof.
  intros Hhour [Hlo Hhi]. cbv zeta. unfold get_next_session_overlap.
  assert (H13 : inject_Z (13 * 3600) == 46800) by reflexivity.
  assert (H86 : inject_Z 86400 == 86400) by reflexivity.
  assert (Hfloor : forall x : Q, 0 <= x -> x <= 1200 * 60 ->
            (0 <= int_of (x / 60) <= 1200)%Z
            /\ inject_Z (int_of (x / 60)) * 60 <= x
            /\ x < (inject_Z (int_of (x / 60)) + 1) * 60).
  { intros x Hx0 Hx1.
    assert (Hq0 : 0 <= x / 60) by (apply Qle_shift_div_l; lra).
    assert (Hq1 : x / 60 <= 1200) by (apply Qle_shift_div_r; lra).
    rewrite int_of_floor by exact Hq0.
    pose proof (Qfloor_le (x / 60)) as Hf1.
    pose proof (Qlt_floor (x / 60)) as Hf2.
    assert (Hx : x == x / 60 * 60) by (field).
    split; [split |].
    - change 0%Z with (Qfloor 0). apply Qfloor_resp_le. exact Hq0.
    - change 1200%Z with (Qfloor 1200). apply Qfloor_resp_le. exact Hq1.
    - rewrite inject_Z_plus in Hf2. change (inject_Z 1) with 1 in Hf2.
      split; nra. }
  destruct (Z.leb_spec 17 hour) as [H17 | H17]; cbn [active minutes_until].
  - split; [split; [discriminate | lia] |]. split; [discriminate |]. intros _.
    assert (Hh : inject_Z 17 <= inject_Z hour) by (rewrite <- Zle_Qle; exact H17).
    assert (Hh' : inject_Z hour <= inject_Z 23) by (rewrite <- Zle_Qle; lia).
    change (inject_Z 17) with 17 in Hh. change (inject_Z 23) with 23 in Hh'.
    apply Hfloor; lra.
  - destruct (Z.ltb_spec hour 13) as [H13' | H13']; cbn [active minutes_until].
    + split; [split; [discriminate | lia] |]. split; [discriminate |]. intros _.
      assert (Hh : inject_Z hour + 1 <= inject_Z 13).
      { change (inject_Z hour + inject_Z 1 <= inject_Z 13).
        rewrite <- (inject_Z_plus hour 1), <- Zle_Qle. lia. }
      assert (Hh' : inject_Z 0 <= inject_Z hour) by (rewrite <- Zle_Qle; lia).
      change (inject_Z 13) with 13 in Hh. change (inject_Z 0) with 0 in Hh'.
      apply Hfloor; lra.
    + split; [split; [intros _; lia | reflexivity] |].
      split; [reflexivity | discriminate].
Qed.

Lemma get_next_session_overlap_spec_witness :
  (0 <= 17 < 24)%Z
  /\ inject_Z 17 * 3600 <= 61200 < (inject_Z 17 + 1) * 3600
  /\ let o := get_next_session_overlap 17 61200 in
     let remaining := inject_Z (13 * 3600) + inject_Z 86400 - 61200 in
     (active o = true <-> (13 <= 17 < 17)%Z)
     /\ (active o = true -> minutes_until o = 0%Z)
     /\ (active o = false ->
         (0 <= minutes_until o <= 1200)%Z
         /\ inject_Z (minutes_until o) * 60 <= remaining
         /\ remaining < (inject_Z (minutes_until o) + 1) * 60).
Proof.
  assert (H1 : (0 <= 17 < 24)%Z) by lia.
  assert (H2 : inject_Z 17 * 3600 <= 61200 < (inject_Z 17 + 1) * 3600)
    by (split; [discriminate | reflexivity]).
  split; [exact H1 |]. split; [exact H2 |].
  exact (get_next_session_overlap_spec 17 61200 H1 H2).
Defined.

(** X21.  The two session functions agree on the London / New York overlap at
    every minute of the day but one: the overlap is active exactly when the
    session label is "LONDON/NY", except at 17:00, where the label is still
    "LONDON/NY" while the overlap is reported inactive. *)
Theorem session_overlap_agree (hour minute : nat) (seconds : Q) :
  (hour < 24)%nat -> (minute < 60)%nat ->
  let o := get_next_session_overlap (Z.of_nat hour) seconds in
  (get_current_session (strftime_HM hour minute) = "LONDON/NY"
   <-> active o = true \/ (hour = 17%nat /\ minute = 0%nat))
  /\ (active o = true -> ~ (hour = 17%nat /\ minute = 0%nat)).
Proof.
  intros Hh Hm. cbv zeta.
  rewrite (get_current_session_checked hour minute Hh Hm).
  unfold get_next_session_overlap, session_table.
  destruct (Z.leb_spec 17 (Z.of_nat hour)) as [H17 | H17]; cbn [active].
  - split; [| discriminate].
    destruct (Nat.ltb_spec (60 * hour + minute) 480); [lia |].
    destruct (Nat.leb_spec (60 * hour + minute) 540); [lia |].
    destruct (Nat.ltb_spec (60 * hour + minute) 780); [lia |].
    destruct (Nat.leb_spec (60 * hour + minute) 1020).
    + split; [intros _; right; lia | reflexivity].
    + destruct (Nat.leb_spec (60 * hour + minute) 1320);
        (split; [discriminate | intros [Hx | Hx]; [discriminate Hx | lia]]).
  - destruct (Z.ltb_spec (Z.of_nat hour) 13) as [H13 | H13]; cbn [active].
    + split; [| discriminate].
      destruct (Nat.ltb_spec (60 * hour + minute) 480);
        [split; [discriminate | intros [Hx | Hx]; [discriminate Hx | lia]] |].
      destruct (Nat.leb_spec (60 * hour + minute) 540);
        [split; [discriminate | intros [Hx | Hx]; [discriminate Hx | lia]] |].
      destruct (Nat.ltb_spec (60 * hour + minute) 780); [| lia].
      split; [discriminate | intros [Hx | Hx]; [discriminate Hx | lia]].
    + split; [| intros _; lia].
      destruct (Nat.ltb_spec (60 * hour + minute) 480); [lia |].
      destruct (Nat.leb_spec (60 * hour + minute) 540); [lia |].
      destruct (Nat.ltb_spec (60 * hour + minute) 780); [lia |].
      destruct (Nat.leb_spec (60 * hour + minute) 1020); [| lia].
      split; [intros _; left; reflexivity | reflexivity].
Qed.

Lemma session_overlap_agree_witness :
  get_current_session (strftime_HM 17 0) = "LONDON/NY"
  /\ active (get_next_session_overlap 17 61200) = false.
Proof.
  assert (Hh : (17 < 24)%nat) by lia. assert (Hm : (0 < 60)%nat) by lia.
  destruct (session_overlap_agree 17 0 61200 Hh Hm) as [[_ H] _].
  split; [apply H; right; split; reflexivity | reflexivity].
Defined.

End Sessions.

(** ** [MarketAnalysisEngine.analyze_correlations]: the sections *)

Section CorrelationSections.
Import MarketAnalysisEngine.
Local Open Scope Q_scope.

Lemma numeric_reading_empty : numeric_reading ∅.
Proof. intros field x Hx. rewrite lookup_empty in Hx. discriminate Hx. Qed.

Lemma numeric_reading_insert (r : Reading) (field : string) (q : Q) :
  numeric_reading r -> numeric_reading (<[field := Some q]> r).
Proof.
  intros Hr f x Hx. apply lookup_insert_Some in Hx as [[_ <-] | [_ Hx]].
  - discriminate.
  - exact (Hr f x Hx).
Qed.

Lemma numeric_empty : numeric ∅.
Proof. intros name r Hr. rewrite lookup_empty in Hr. discriminate Hr. Qed.

Lemma numeric_insert (correlation_data : gmap string Reading) (name : string)
  (r : Reading) :
  numeric_reading r -> numeric correlation_data ->
  numeric (<[name := r]> correlation_data).
Proof.
  intros Hr Hnum n r' Hn. apply lookup_insert_Some in Hn as [[_ <-] | [_ Hn]].
  - exact Hr.
  - exact (Hnum n r' Hn).
Qed.

Lemma analyze_vix_total (r : Reading) :
  numeric_reading r -> exists e, analyze_vix r = Py.Ok e.
Proof.
  intros Hr. destruct (get_price_total r Hr) as [v Hv].
  destruct (analyze_vix_tiers r v Hr Hv) as (e & He & _). eauto.
Qed.

Lemma analyze_dollar_proxy_total (correlation_data : gmap string Reading) :
  numeric correlation_data ->
  exists d, analyze_dollar_proxy correlation_data = Py.Ok d.
Proof.
  intros Hr. unfold analyze_dollar_proxy.
  destruct (correlation_data !! "DXY") eqn:E1;
    [apply when_present_total; intros a [= <-];
     apply analyze_dollar_total; eauto |].
  destruct (correlation_data !! "USD/EUR") eqn:E2;
    [apply when_present_total; intros a [= <-];
     apply analyze_dollar_total; eauto |].
  destruct (correlation_data !! "EUR/USD") eqn:E3;
    [apply when_present_total; intros a [= <-];
     apply analyze_dollar_total; eauto |].
  apply when_present_total; intros a Ha; apply analyze_dollar_total; eauto.
Qed.

Lemma analyze_risk_proxy_total (correlation_data : gmap string Reading) :
  numeric correlation_data ->
  exists k, analyze_risk_proxy correlation_data = Py.Ok k.
Proof.
  intros Hr. unfold analyze_risk_proxy.
  destruct (correlation_data !! "SPX") eqn:E1;
    [apply when_present_total; intros a [= <-];
     apply analyze_risk_total; eauto |].
  apply when_present_total; intros a Ha; apply analyze_risk_total; eauto.
Qed.

(** On numeric readings every section succeeds, and the analysis is made
    of the sections' results. *)
Lemma analyze_correlations_sections (correlation_data : gmap string Reading) :
  numeric correlation_data ->
  exists y y2 y30 vix dxy risk btc,
    when_present (correlation_data !! "US10Y") analyze_yield = Py.Ok y
    /\ when_present (correlation_data !! "US2Y") analyze_tenor = Py.Ok y2
    /\ when_present (correlation_data !! "US30Y") analyze_tenor = Py.Ok y30
    /\ when_present (correlation_data !! "VIX") analyze_vix = Py.Ok vix
    /\ analyze_dollar_proxy correlation_data = Py.Ok dxy
    /\ analyze_risk_proxy correlation_data = Py.Ok risk
    /\ when_present (correlation_data !! "BTC/USD") analyze_btc = Py.Ok btc
    /\ analyze_correlations correlation_data
       = Py.Ok (mkAnalysis y y2 y30
                  (match y2, y with
                   | Some e2, Some e => Some (analyze_curve e e2)
                   | _, _ => None
                   end) vix dxy risk btc).
Proof.
  intros Hr. unfold analyze_correlations.
  destruct (when_present_total (correlation_data !! "US10Y") analyze_yield)
    as [y Ey]; [intros; apply analyze_yield_total; eauto |].
  destruct (when_present_total (correlation_data !! "US2Y") analyze_tenor)
    as [y2 Ey2]; [intros; apply analyze_tenor_total; eauto |].
  destruct (when_present_total (correlation_data !! "US30Y") analyze_tenor)
    as [y30 Ey30]; [intros; apply analyze_tenor_total; eauto |].
  destruct (when_present_total (correlation_data !! "VIX") analyze_vix)
    as [vix Evix]; [intros; apply analyze_vix_total; eauto |].
  destruct (analyze_dollar_proxy_total correlation_data Hr) as [dxy Edxy].
  destruct (analyze_risk_proxy_total correlation_data Hr) as [risk Erisk].
  destruct (when_present_total (correlation_data !! "BTC/USD") analyze_btc)
    as [btc Ebtc]; [intros; apply analyze_btc_total; eauto |].
  exists y, y2, y30, vix, dxy, risk, btc.
  rewrite Ey, Ey2, Ey30, Evix, Edxy, Erisk, Ebtc. cbn [Py.bind].
  repeat (split; [reflexivity |]). reflexivity.
Qed.

Lemma when_present_is_Some {A B} (o : option A) (f : A -> Py.result B)
  (ob : option B) :
  when_present o f = Py.Ok ob -> (is_Some ob <-> is_Some o).
Proof.
  destruct o as [a |]; cbn.
  - destruct (f a) as [b | e]; cbn; [| discriminate].
    intros [= <-]. split; intros _; eauto.
  - intros [= <-]. split; intros [? H]; discriminate H.
Qed.

(** X22.  Which keys the analysis has, on numeric readings: "yield", "yield_2y",
    "yield_30y", "vix" and "btc" exactly when the input has US10Y, US2Y,
    US30Y, VIX and BTC/USD; "yield_curve" exactly when it has both US10Y
    and US2Y; "dxy" exactly when it has one of DXY, USD/EUR, EUR/USD and
    USD/JPY; "risk" exactly when it has SPX or GBP/USD. *)
Theorem analyze_correlations_keys (correlation_data : gmap string Reading) :
  numeric correlation_data ->
  exists a,
    analyze_correlations correlation_data = Py.Ok a
    /\ (is_Some (a_yield a) <-> is_Some (correlation_data !! "US10Y"))
    /\ (is_Some (a_yield_2y a) <-> is_Some (correlation_data !! "US2Y"))
    /\ (is_Some (a_yield_30y a) <-> is_Some (correlation_data !! "US30Y"))
    /\ (is_Some (a_yield_curve a)
        <-> is_Some (correlation_data !! "US10Y")
            /\ is_Some (correlation_data !! "US2Y"))
    /\ (is_Some (a_vix a) <-> is_Some (correlation_data !! "VIX"))
    /\ (is_Some (a_dxy a)
        <-> is_Some (correlation_data !! "DXY")
            \/ is_Some (correlation_data !! "USD/EUR")
            \/ is_Some (correlation_data !! "EUR/USD")
            \/ is_Some (correlation_data !! "USD/JPY"))
    /\ (is_Some (a_risk a)
        <-> is_Some (correlation_data !! "SPX")
            \/ is_Some (correlation_data !! "GBP/USD"))
    /\ (is_Some (a_btc a) <-> is_Some (correlation_data !! "BTC/USD")).
Proof.
  intros Hr.
  destruct (analyze_correlations_sections correlation_data Hr)
    as (y & y2 & y30 & vix & dxy & risk & btc
        & Ey & Ey2 & Ey30 & Evix & Edxy & Erisk & Ebtc & Ea).
  eexists. split; [exact Ea |].
  cbn [a_yield a_yield_2y a_yield_30y a_yield_curve a_vix a_dxy a_risk a_btc].
  apply when_present_is_Some in Ey, Ey2, Ey30, Evix, Ebtc.
  split; [exact Ey |]. split; [exact Ey2 |]. split; [exact Ey30 |].
  split.
  { rewrite <- Ey, <- Ey2. destruct y2 as [e2 |], y as [e |].
    - split; [intros _; split; eauto | intros _; eauto].
    - split; [intros [? H]; discriminate H | intros [[? H] _]; discriminate H].
    - split; [intros [? H]; discriminate H | intros [_ [? H]]; discriminate H].
    - split; [intros [? H]; discriminate H | intros [_ [? H]]; discriminate H]. }
  split; [exact Evix |].
  split.
  { unfold analyze_dollar_proxy in Edxy.
    destruct (correlation_data !! "DXY") as [r1 |] eqn:E1.
    { apply when_present_is_Some in Edxy. rewrite Edxy.
      split; [intros _; left; eauto | intros _; eauto]. }
    destruct (correlation_data !! "USD/EUR") as [r2 |] eqn:E2.
    { apply when_present_is_Some in Edxy. rewrite Edxy.
      split; [intros _; right; left; eauto | intros _; eauto]. }
    destruct (correlation_data !! "EUR/USD") as [r3 |] eqn:E3.
    { apply when_present_is_Some in Edxy. rewrite Edxy.
      split; [intros _; right; right; left; eauto | intros _; eauto]. }
    apply when_present_is_Some in Edxy. rewrite Edxy.
    split; [intros H; right; right; right; exact H |].
    intros [[? H] | [[? H] | [[? H] | H]]]; try discriminate. exact H. }
  split; [| exact Ebtc].
  unfold analyze_risk_proxy in Erisk.
  destruct (correlation_data !! "SPX") as [r1 |] eqn:E1.
  { apply when_present_is_Some in Erisk. rewrite Erisk.
    split; [intros _; left; eauto | intros _; eauto]. }
  apply when_present_is_Some in Erisk. rewrite Erisk.
  split; [intros H; right; exact H |].
  intros [[? H] | H]; [discriminate | exact H].
Qed.

Lemma analyze_correlations_keys_witness :
  let correlation_data : gmap string Reading :=
    <["US10Y" := <["price" := Some 4.25]> ∅]> (<["EUR/USD" := <["price" := Some 1.08]> ∅]> ∅) in
  exists a,
    analyze_correlations correlation_data = Py.Ok a
    /\ (is_Some (a_yield a) <-> is_Some (correlation_data !! "US10Y"))
    /\ (is_Some (a_yield_2y a) <-> is_Some (correlation_data !! "US2Y"))
    /\ (is_Some (a_yield_30y a) <-> is_Some (correlation_data !! "US30Y"))
    /\ (is_Some (a_yield_curve a)
        <-> is_Some (correlation_data !! "US10Y")
            /\ is_Some (correlation_data !! "US2Y"))
    /\ (is_Some (a_vix a) <-> is_Some (correlation_data !! "VIX"))
    /\ (is_Some (a_dxy a)
        <-> is_Some (correlation_data !! "DXY")
            \/ is_Some (correlation_data !! "USD/EUR")
            \/ is_Some (correlation_data !! "EUR/USD")
            \/ is_Some (correlation_data !! "USD/JPY"))
    /\ (is_Some (a_risk a)
        <-> is_Some (correlation_data !! "SPX")
            \/ is_Some (correlation_data !! "GBP/USD"))
    /\ (is_Some (a_btc a) <-> is_Some (correlation_data !! "BTC/USD")).
Proof.
  set (correlation_data :=
    (<["US10Y" := <["price" := Some 4.25]> ∅]>
       (<["EUR/USD" := <["price" := Some 1.08]> ∅]> ∅)) : gmap string Reading).
  assert (Hnum : numeric correlation_data).
  { apply numeric_insert;
      [apply numeric_reading_insert, numeric_reading_empty |].
    apply numeric_insert;
      [apply numeric_reading_insert, numeric_reading_empty |].
    apply numeric_empty. }
  exact (analyze_correlations_keys correlation_data Hnum).
Defined.

Lemma analyze_yield_price (r : Reading) (e : YieldEntry) (p : Q) :
  analyze_yield r = Py.Ok e -> get_price r = Py.Ok p -> yield_price e = p.
Proof.
  unfold analyze_yield. intros He Hp. rewrite Hp in He. cbn [Py.bind] in He.
  destruct (get_float r "change"); cbn [Py.bind] in He; [| discriminate He].
  destruct (get_float r "percent_change"); cbn [Py.bind] in He; [| discriminate He].
  injection He as <-. reflexivity.
Qed.

Lemma analyze_tenor_price (r : Reading) (e : TenorEntry) (p : Q) :
  analyze_tenor r = Py.Ok e -> get_price r = Py.Ok p -> tenor_price e = p.
Proof.
  unfold analyze_tenor. intros He Hp. rewrite Hp in He. cbn [Py.bind] in He.
  destruct (get_float r "change"); cbn [Py.bind] in He; [| discriminate He].
  destruct (get_float r "percent_change"); cbn [Py.bind] in He; [| discriminate He].
  injection He as <-. reflexivity.
Qed.

Lemma when_present_Some {A B} (a : A) (f : A -> Py.result B) (ob : option B) :
  when_present (Some a) f = Py.Ok ob -> exists b, ob = Some b /\ f a = Py.Ok b.
Proof.
  cbn. destruct (f a) as [b | e]; cbn; [| discriminate].
  intros [= <-]. eauto.
Qed.

(** The subtraction of two floats within a factor 2 of each other is
    exact. *)
Lemma fsub_exact (a b : Q) :
  Py.is_float a = true -> Py.is_float b = true ->
  0 < a -> b <= 2 * a -> a <= 2 * b ->
  Py.fsub a b == a - b.
Proof.
  intros Ha Hb H0 H1 H2. unfold Py.fsub.
  destruct (Qlt_le_dec a b) as [Hlt | Hle].
  - assert (E : a - b == - (b - a)) by ring.
    rewrite (round_wd _ _ E), round_opp.
    rewrite (sterbenz b a Hb Ha H0 ltac:(lra) H1). ring.
  - apply (sterbenz a b Ha Hb); lra.
Qed.

(** X23.  The yield curve: with numeric readings for both the 10-year and the
    2-year yield, whose levels are the floats [p10] and [p2], the analysis
    has a curve entry whose spread is the float difference of the two
    levels: the rounded difference, and the difference itself when the two
    levels are positive and within a factor 2 of each other.  The status
    is "Normal" exactly when the 10Y level is above the 2Y level,
    "Inverted" exactly when the spread is below the float [-0.1], and
    "Flat" otherwise.  "Inverted" implies a difference below -0.1; a
    difference in [-0.1, 0] gives "Flat", one of at most -0.1 - 2^-56
    gives "Inverted". *)
Theorem analyze_correlations_yield_curve (correlation_data : gmap string Reading)
  (us10y us2y : Reading) (p10 p2 : Q) :
  numeric correlation_data ->
  correlation_data !! "US10Y" = Some us10y ->
  correlation_data !! "US2Y" = Some us2y ->
  get_price us10y = Py.Ok p10 ->
  get_price us2y = Py.Ok p2 ->
  Py.is_float p10 = true ->
  Py.is_float p2 = true ->
  exists a c,
    analyze_correlations correlation_data = Py.Ok a
    /\ a_yield_curve a = Some c
    /\ curve_spread c = Py.round (p10 - p2)
    /\ (0 < p10 -> p2 <= 2 * p10 -> p10 <= 2 * p2 -> curve_spread c == p10 - p2)
    /\ (curve_status c = "Normal" <-> p2 < p10)
    /\ (curve_status c = "Inverted" <-> curve_spread c < Py.round (-0.1))
    /\ (curve_status c = "Flat"
        <-> p10 <= p2 /\ Py.round (-0.1) <= curve_spread c)
    /\ (curve_status c = "Inverted" -> p10 - p2 < -0.1)
    /\ (-0.1 <= p10 - p2 <= 0 -> curve_status c = "Flat")
    /\ (p10 - p2 <= -0.1 - Py.pow2 (-56) -> curve_status c = "Inverted").
Proof.
  intros Hr H10 H2 Hp10 Hp2 Hf10 Hf2.
  destruct (analyze_correlations_sections correlation_data Hr)
    as (y & y2 & y30 & vix & dxy & risk & btc
        & Ey & Ey2 & _ & _ & _ & _ & _ & Ea).
  rewrite H10 in Ey. rewrite H2 in Ey2.
  apply when_present_Some in Ey as (e & -> & Ee).
  apply when_present_Some in Ey2 as (e2 & -> & Ee2).
  apply (analyze_yield_price _ _ p10) in Ee; [| exact Hp10].
  apply (analyze_tenor_price _ _ p2) in Ee2; [| exact Hp2].
  eexists. eexists. split; [exact Ea |]. cbn [a_yield_curve].
  split; [reflexivity |]. unfold analyze_curve. rewrite Ee, Ee2.
  cbn [curve_spread curve_status]. unfold Py.fsub.
  split; [reflexivity |].
  split; [intros; apply fsub_exact; assumption |].
  set (x := p10 - p2). set (f := Py.round (-0.1)).
  assert (Hf : Py.is_float f = true) by apply round_is_float.
  assert (Hf01 : f < -0.1) by (vm_compute; reflexivity).
  assert (Hpred : Py.round (-0.1 - Py.pow2 (-56)) < f) by (vm_compute; reflexivity).
  assert (Hpos : 0 < Py.round x <-> p2 < p10).
  { split; intros H.
    - destruct (Qlt_le_dec p2 p10) as [Hlt | Hle]; [exact Hlt |].
      pose proof (round_nonpos x ltac:(unfold x; lra)). lra.
    - apply round_sign_pos. unfold x. lra. }
  assert (Hinv : Py.round x < f -> x < -0.1).
  { intros H. destruct (Qlt_le_dec x f) as [Hlt | Hle]; [lra |].
    pose proof (round_ge_float x f Hf Hle). lra. }
  assert (Hflat : -0.1 <= x -> f <= Py.round x).
  { intros H. apply round_ge_float; [exact Hf | lra]. }
  assert (Hlow : x <= -0.1 - Py.pow2 (-56) -> Py.round x < f).
  { intros H. pose proof (round_mono _ _ H). lra. }
  destruct (Py.gtb (Py.round x) 0) eqn:Eg.
  - apply gtb_spec in Eg. pose proof (proj1 Hpos Eg) as Hlt.
    assert (Hx : 0 < x) by (unfold x; lra).
    split; [split; [intros _; exact Hlt | reflexivity] |].
    split; [split; [discriminate | intros; lra] |].
    split; [split; [discriminate | intros [? _]; lra] |].
    split; [discriminate |].
    split; [intros; lra |].
    intros H. pose proof (pow2_pos (-56)). lra.
  - apply gtb_false in Eg.
    assert (Hle : p10 <= p2).
    { destruct (Qlt_le_dec p2 p10) as [Hlt | Hle]; [| exact Hle].
      pose proof (proj2 Hpos Hlt). lra. }
    destruct (Py.ltb (Py.round x) f) eqn:El.
    + apply ltb_spec in El.
      split; [split; [discriminate | intros; lra] |].
      split; [split; [intros _; exact El | reflexivity] |].
      split; [split; [discriminate | intros [_ ?]; lra] |].
      split; [intros _; exact (Hinv El) |].
      split; [| reflexivity].
      intros [H _]. pose proof (Hflat H). lra.
    + apply ltb_false in El.
      split; [split; [discriminate | intros; lra] |].
      split; [split; [discriminate | intros; lra] |].
      split; [split; [intros _; split; assumption | reflexivity] |].
      split; [discriminate |].
      split; [reflexivity |].
      intros H. pose proof (Hlow H). lra.
Qed.

Lemma analyze_correlations_yield_curve_witness :
  let p10 := Py.round 4.3 in
  let p2 := Py.round 4.4 in
  let us10y : Reading := <["price" := Some p10]> ∅ in
  let us2y : Reading := <["close" := Some p2]> ∅ in
  let correlation_data : gmap string Reading :=
    <["US10Y" := us10y]> (<["US2Y" := us2y]> ∅) in
  exists a c,
    analyze_correlations correlation_data = Py.Ok a
    /\ a_yield_curve a = Some c
    /\ curve_spread c = Py.round (p10 - p2)
    /\ (0 < p10 -> p2 <= 2 * p10 -> p10 <= 2 * p2 -> curve_spread c == p10 - p2)
    /\ (curve_status c = "Normal" <-> p2 < p10)
    /\ (curve_status c = "Inverted" <-> curve_spread c < Py.round (-0.1))
    /\ (curve_status c = "Flat"
        <-> p10 <= p2 /\ Py.round (-0.1) <= curve_spread c)
    /\ (curve_status c = "Inverted" -> p10 - p2 < -0.1)
    /\ (-0.1 <= p10 - p2 <= 0 -> curve_status c = "Flat")
    /\ (p10 - p2 <= -0.1 - Py.pow2 (-56) -> curve_status c = "Inverted").
Proof.
  intros p10 p2.
  set (us10y := (<["price" := Some p10]> ∅) : Reading).
  set (us2y := (<["close" := Some p2]> ∅) : Reading).
  set (correlation_data :=
    (<["US10Y" := us10y]> (<["US2Y" := us2y]> ∅)) : gmap string Reading).
  assert (Hnum : numeric correlation_data).
  { apply numeric_insert;
      [apply numeric_reading_insert, numeric_reading_empty |].
    apply numeric_insert;
      [apply numeric_reading_insert, numeric_reading_empty |].
    apply numeric_empty. }
  assert (H10 : correlation_data !! "US10Y" = Some us10y) by (vm_compute; reflexivity).
  assert (H2 : correlation_data !! "US2Y" = Some us2y) by (vm_compute; reflexivity).
  assert (Hp10 : get_price us10y = Py.Ok p10) by (vm_compute; reflexivity).
  assert (Hp2 : get_price us2y = Py.Ok p2) by (vm_compute; reflexivity).
  assert (Hf10 : Py.is_float p10 = true) by (vm_compute; reflexivity).
  assert (Hf2 : Py.is_float p2 = true) by (vm_compute; reflexivity).
  exact (analyze_correlations_yield_curve correlation_data us10y us2y p10 p2
           Hnum H10 H2 Hp10 Hp2 Hf10 Hf2).
Defined.

(** Yields of 4.3 and 4.4: the float difference is -0.10000000000000053,
    below the float -0.1, and the curve is reported inverted. *)
Example analyze_correlations_curve_tenth :
  let us10y : Reading := <["price" := Some (Py.round 4.3)]> ∅ in
  let us2y : Reading := <["price" := Some (Py.round 4.4)]> ∅ in
  exists a c,
    analyze_correlations (<["US10Y" := us10y]> (<["US2Y" := us2y]> ∅)) = Py.Ok a
    /\ a_yield_curve a = Some c
    /\ curve_status c = "Inverted"
    /\ curve_spread c == Py.round 4.3 - Py.round 4.4
    /\ curve_spread c == - (112589990684263 # 1125899906842624).
Proof.
  eexists. eexists. split; [vm_compute; reflexivity |].
  split; [reflexivity |]. split; [reflexivity |].
  split; vm_compute; reflexivity.
Qed.

(** One branch of the dollar proxy. *)
Lemma analyze_dollar_entry (r : Reading) (direct : bool)
  (symbol source : option string) (e : DxyEntry) :
  analyze_dollar r direct symbol source = Py.Ok e ->
  get_price r = Py.Ok (dxy_price e)
  /\ get_float r "percent_change" = Py.Ok (dxy_percent_change e)
  /\ dxy_symbol e = symbol /\ dxy_source e = source
  /\ In (dxy_pressure e)
       ["Strong Inverse"; "Weak Inverse"; "Strong Direct"; "Weak Direct"]
  /\ (In (dxy_pressure e) ["Strong Direct"; "Weak Direct"]
      <-> direct = true /\ 0 < dxy_percent_change e)
  /\ (In (dxy_pressure e) ["Strong Inverse"; "Strong Direct"]
      <-> 0.5 < Qabs (dxy_percent_change e)).
Proof.
  unfold analyze_dollar. intros He.
  destruct (get_price r) as [p | ?]; cbn [Py.bind] in He; [| discriminate He].
  destruct (get_float r "percent_change") as [pc | ?];
    cbn [Py.bind] in He; [| discriminate He].
  injection He as <-.
  cbn [dxy_price dxy_percent_change dxy_symbol dxy_source dxy_pressure].
  do 4 (split; [reflexivity |]).
  unfold pressure_strength.
  destruct (Py.gtb (Qabs pc) 0.5) eqn:Es;
    [apply gtb_spec in Es | apply gtb_false in Es];
    (destruct direct; cbn [andb];
     [destruct (Py.gtb pc 0) eqn:Eg;
      [apply gtb_spec in Eg | apply gtb_false in Eg] |]);
    cbn; (split; [tauto |]); split; split.
  all: try (intros [H | [H | []]]; discriminate H).
  all: try (intros [H _]; discriminate H).
  all: try (intros [_ H]; lra).
  all: try (intros _; split; [reflexivity | assumption]).
  all: try (intros _; assumption).
  all: try (intros _; left; reflexivity).
  all: try (intros _; right; left; reflexivity).
  all: try (intros H; lra).
Qed.

(** X24.  The dollar proxy.  On numeric readings the "dxy" entry is read from the
    first reading present among DXY, USD/EUR, EUR/USD and USD/JPY, whose
    price and percent change it carries; DXY and USD/EUR are marked as
    coming from FRED, and every proxy but DXY is named in the entry.  The
    pressure is one of "Strong Inverse", "Weak Inverse", "Strong Direct"
    and "Weak Direct": "Direct" exactly when the proxy is EUR/USD and it
    rose, and "Inverse" otherwise; "Strong" exactly when the percent
    change exceeds 0.5 in absolute value, and "Weak" otherwise.  Without
    any of the four readings there is no "dxy" entry. *)
Theorem analyze_correlations_dollar_proxy (correlation_data : gmap string Reading) :
  numeric correlation_data ->
  exists a,
    analyze_correlations correlation_data = Py.Ok a
    /\ match a_dxy a with
       | None =>
           Forall (fun name => correlation_data !! name = None)
             ["DXY"; "USD/EUR"; "EUR/USD"; "USD/JPY"]
       | Some e =>
           exists before name after r,
             ["DXY"; "USD/EUR"; "EUR/USD"; "USD/JPY"] = before ++ name :: after
             /\ Forall (fun n => correlation_data !! n = None) before
             /\ correlation_data !! name = Some r
             /\ get_price r = Py.Ok (dxy_price e)
             /\ get_float r "percent_change" = Py.Ok (dxy_percent_change e)
             /\ dxy_symbol e = (if String.eqb name "DXY" then None else Some name)
             /\ dxy_source e
                = (if String.eqb name "DXY" || String.eqb name "USD/EUR"
                   then Some "FRED" else None)
             /\ In (dxy_pressure e)
                  ["Strong Inverse"; "Weak Inverse"; "Strong Direct"; "Weak Direct"]
             /\ (In (dxy_pressure e) ["Strong Direct"; "Weak Direct"]
                 <-> name = "EUR/USD" /\ 0 < dxy_percent_change e)
             /\ (In (dxy_pressure e) ["Strong Inverse"; "Strong Direct"]
                 <-> 0.5 < Qabs (dxy_percent_change e))
       end.
Proof.
  intros Hr.
  destruct (analyze_correlations_sections correlation_data Hr)
    as (y & y2 & y30 & vix & dxy & risk & btc
        & _ & _ & _ & _ & Edxy & _ & _ & Ea).
  eexists. split; [exact Ea |]. cbn [a_dxy].
  unfold analyze_dollar_proxy in Edxy.
  destruct (correlation_data !! "DXY") as [r1 |] eqn:E1.
  { apply when_present_Some in Edxy as (e & -> & He).
    apply analyze_dollar_entry in He as (Hp & Hpc & Hsym & Hsrc & Hin & Hdir & Hstr).
    exists [], "DXY", ["USD/EUR"; "EUR/USD"; "USD/JPY"], r1.
    split; [reflexivity |]. split; [constructor |]. split; [exact E1 |].
    split; [exact Hp |]. split; [exact Hpc |].
    split; [exact Hsym |]. split; [exact Hsrc |]. split; [exact Hin |].
    split; [| exact Hstr].
    rewrite Hdir. split; intros [H _]; discriminate H. }
  destruct (correlation_data !! "USD/EUR") as [r2 |] eqn:E2.
  { apply when_present_Some in Edxy as (e & -> & He).
    apply analyze_dollar_entry in He as (Hp & Hpc & Hsym & Hsrc & Hin & Hdir & Hstr).
    exists ["DXY"], "USD/EUR", ["EUR/USD"; "USD/JPY"], r2.
    split; [reflexivity |]. split; [repeat constructor; assumption |].
    split; [exact E2 |].
    split; [exact Hp |]. split; [exact Hpc |].
    split; [exact Hsym |]. split; [exact Hsrc |]. split; [exact Hin |].
    split; [| exact Hstr].
    rewrite Hdir. split; intros [H _]; discriminate H. }
  destruct (correlation_data !! "EUR/USD") as [r3 |] eqn:E3.
  { apply when_present_Some in Edxy as (e & -> & He).
    apply analyze_dollar_entry in He as (Hp & Hpc & Hsym & Hsrc & Hin & Hdir & Hstr).
    exists ["DXY"; "USD/EUR"], "EUR/USD", ["USD/JPY"], r3.
    split; [reflexivity |]. split; [repeat constructor; assumption |].
    split; [exact E3 |].
    split; [exact Hp |]. split; [exact Hpc |].
    split; [exact Hsym |]. split; [exact Hsrc |]. split; [exact Hin |].
    split; [| exact Hstr].
    rewrite Hdir. split; intros [_ H]; split; [reflexivity | exact H | reflexivity | exact H]. }
  destruct (correlation_data !! "USD/JPY") as [r4 |] eqn:E4.
  { apply when_present_Some in Edxy as (e & -> & He).
    apply analyze_dollar_entry in He as (Hp & Hpc & Hsym & Hsrc & Hin & Hdir & Hstr).
    exists ["DXY"; "USD/EUR"; "EUR/USD"], "USD/JPY", [], r4.
    split; [reflexivity |]. split; [repeat constructor; assumption |].
    split; [exact E4 |].
    split; [exact Hp |]. split; [exact Hpc |].
    split; [exact Hsym |]. split; [exact Hsrc |]. split; [exact Hin |].
    split; [| exact Hstr].
    rewrite Hdir. split; intros [H _]; discriminate H. }
  cbn in Edxy. injection Edxy as <-. repeat constructor; assumption.
Qed.

Lemma analyze_correlations_dollar_proxy_witness :
  let eurusd : Reading := <["price" := Some 1.08]> (<["percent_change" := Some 0.7]> ∅) in
  let usdjpy : Reading := <["price" := Some 150]> (<["percent_change" := Some 0.1]> ∅) in
  let correlation_data : gmap string Reading :=
    <["EUR/USD" := eurusd]> (<["USD/JPY" := usdjpy]> ∅) in
  numeric correlation_data
  /\ exists a,
       analyze_correlations correlation_data = Py.Ok a
       /\ match a_dxy a with
          | None =>
              Forall (fun name => correlation_data !! name = None)
                ["DXY"; "USD/EUR"; "EUR/USD"; "USD/JPY"]
          | Some e =>
              exists before name after r,
                ["DXY"; "USD/EUR"; "EUR/USD"; "USD/JPY"] = before ++ name :: after
                /\ Forall (fun n => correlation_data !! n = None) before
                /\ correlation_data !! name = Some r
                /\ get_price r = Py.Ok (dxy_price e)
                /\ get_float r "percent_change" = Py.Ok (dxy_percent_change e)
                /\ dxy_symbol e = (if String.eqb name "DXY" then None else Some name)
                /\ dxy_source e
                   = (if String.eqb name "DXY" || String.eqb name "USD/EUR"
                      then Some "FRED" else None)
                /\ In (dxy_pressure e)
                     ["Strong Inverse"; "Weak Inverse"; "Strong Direct"; "Weak Direct"]
                /\ (In (dxy_pressure e) ["Strong Direct"; "Weak Direct"]
                    <-> name = "EUR/USD" /\ 0 < dxy_percent_change e)
                /\ (In (dxy_pressure e) ["Strong Inverse"; "Strong Direct"]
                    <-> 0.5 < Qabs (dxy_percent_change e))
          end.
Proof.
  set (eurusd := (<["price" := Some 1.08]> (<["percent_change" := Some 0.7]> ∅)) : Reading).
  set (usdjpy := (<["price" := Some 150]> (<["percent_change" := Some 0.1]> ∅)) : Reading).
  set (correlation_data :=
    (<["EUR/USD" := eurusd]> (<["USD/JPY" := usdjpy]> ∅)) : gmap string Reading).
  assert (Hnum : numeric correlation_data).
  { apply numeric_insert;
      [do 2 apply numeric_reading_insert; apply numeric_reading_empty |].
    apply numeric_insert;
      [do 2 apply numeric_reading_insert; apply numeric_reading_empty |].
    apply numeric_empty. }
  split; [exact Hnum |].
  exact (analyze_correlations_dollar_proxy correlation_data Hnum).
Defined.

(** The proxy of the free tier: EUR/USD up 0.7% with USD/JPY present. *)
Example analyze_correlations_eurusd_rising :
  let eurusd : Reading := <["price" := Some 1.08]> (<["percent_change" := Some 0.7]> ∅) in
  let usdjpy : Reading := <["price" := Some 150]> (<["percent_change" := Some 0.1]> ∅) in
  analyze_correlations (<["EUR/USD" := eurusd]> (<["USD/JPY" := usdjpy]> ∅))
  = Py.Ok (mkAnalysis None None None None None
             (Some (mkDxyEntry 1.08 0.7 "Strong Direct" "▲" (Some "EUR/USD") None))
             None None).
Proof. vm_compute. reflexivity. Qed.

End CorrelationSections.

(** ** [MarketAnalysisEngine.check_alerts] *)

Section AlertFacts.
Import TechnicalAnalyzer MarketAnalysisEngine.
Local Open Scope Q_scope.

Lemma div_Ok (a b q : Q) : Py.div a b = Py.Ok q -> ~ b == 0 /\ q = a / b.
Proof.
  unfold Py.div. destruct (Qeq_bool b 0) eqn:E; [discriminate |].
  intros [= <-]. apply Qeq_bool_neq in E. split; [exact E | reflexivity].
Qed.

Lemma proximity_alert_In (current_price : Q) (nearest : option (Q * Q))
  (alert : Q -> Q -> Alert) (l : list Alert) :
  proximity_alert current_price nearest alert = Py.Ok l ->
  forall x, In x l <->
    exists level pips,
      nearest = Some (level, pips) /\ x = alert level pips
      /\ Qabs (current_price - level) / current_price * 100
         < config.ALERT_PROXIMITY_PERCENT.
Proof.
  unfold proximity_alert. destruct nearest as [[level pips] |].
  - destruct (Py.div (Qabs (current_price - level)) current_price) as [q | e] eqn:Ed;
      cbn [Py.bind]; [| discriminate].
    apply div_Ok in Ed as [_ ->].
    destruct (Py.ltb _ config.ALERT_PROXIMITY_PERCENT) eqn:El; intros [= <-] x.
    + apply ltb_spec in El. split.
      * intros [<- | []]. exists level, pips. auto.
      * intros (l' & p' & [= <- <-] & -> & _). left. reflexivity.
    + apply ltb_false in El. split; [intros [] |].
      intros (l' & p' & [= <- <-] & _ & Hlt). lra.
  - intros [= <-] x. split; [intros [] |].
    intros (l' & p' & Hn & _). discriminate Hn.
Qed.

Lemma proximity_alert_ok (current_price : Q) (nearest : option (Q * Q))
  (alert : Q -> Q -> Alert) :
  ~ current_price == 0 \/ nearest = None ->
  exists l, proximity_alert current_price nearest alert = Py.Ok l.
Proof.
  unfold proximity_alert. intros [Hp | ->]; [| eauto].
  destruct nearest as [[level pips] |]; [| eauto].
  rewrite div_nonzero by exact Hp. cbn [Py.bind]. eauto.
Qed.

Lemma yield_alert_In (correlation_analysis : Analysis) (x : Alert) :
  In x (yield_alert correlation_analysis) <->
  exists y, a_yield correlation_analysis = Some y
            /\ x = LargeYieldMove (Qabs (yield_change_bps y))
            /\ config.YIELD_ALERT_BPS < Qabs (yield_change_bps y).
Proof.
  unfold yield_alert. destruct (a_yield correlation_analysis) as [y |].
  - destruct (Py.gtb _ config.YIELD_ALERT_BPS) eqn:E.
    + apply gtb_spec in E. split.
      * intros [<- | []]. eauto.
      * intros (y' & [= <-] & -> & _). left. reflexivity.
    + apply gtb_false in E. split; [intros [] |].
      intros (y' & [= <-] & _ & Hlt). lra.
  - split; [intros [] |]. intros (y' & Hy & _). discriminate Hy.
Qed.

Lemma dxy_alert_In (correlation_analysis : Analysis) (x : Alert) :
  In x (dxy_alert correlation_analysis) <->
  exists d, a_dxy correlation_analysis = Some d
            /\ x = SignificantDXYMovement (Qabs (dxy_percent_change d))
            /\ 1 < Qabs (dxy_percent_change d).
Proof.
  unfold dxy_alert. destruct (a_dxy correlation_analysis) as [d |].
  - destruct (Py.gtb _ 1) eqn:E.
    + apply gtb_spec in E. split.
      * intros [<- | []]. eauto.
      * intros (d' & [= <-] & -> & _). left. reflexivity.
    + apply gtb_false in E. split; [intros [] |].
      intros (d' & [= <-] & _ & Hlt). lra.
  - split; [intros [] |]. intros (d' & Hd & _). discriminate Hd.
Qed.

Lemma news_alert_In (news_events : list NewsEvent) (now : Q) (x : Alert) :
  In x (news_alert news_events now) <->
  exists e rest, news_events = e :: rest
                 /\ x = HighImpactNews (int_of ((time e - now) / 60)) (title e)
                 /\ (time e - now) / 60 < 30.
Proof.
  unfold news_alert. destruct news_events as [| e rest].
  - split; [intros [] |]. intros (e' & r' & He & _). discriminate He.
  - destruct (Py.ltb _ 30) eqn:E.
    + apply ltb_spec in E. split.
      * intros [<- | []]. eauto.
      * intros (e' & r' & [= <- <-] & -> & _). left. reflexivity.
    + apply ltb_false in E. split; [intros [] |].
      intros (e' & r' & [= <- <-] & _ & Hlt). lra.
Qed.

(** The alerts of a call that returns: the five blocks, or the single
    entry "None" when all five are empty. *)
Lemma check_alerts_inv (technical_data : TimeframeResult)
  (correlation_analysis : Analysis) (news_events : list NewsEvent) (now : Q)
  (result : list Alert) :
  check_alerts technical_data correlation_analysis news_events now = Py.Ok result ->
  result <> []
  /\ (In NoAlert result -> result = [NoAlert])
  /\ forall x, x <> NoAlert ->
       (In x result <->
        (exists level pips,
           near_resistance (nearest_levels_of technical_data) = Some (level, pips)
           /\ x = ApproachingResistance level pips
           /\ Qabs (current_price_of technical_data - level)
              / current_price_of technical_data * 100
              < config.ALERT_PROXIMITY_PERCENT)
        \/ (exists level pips,
              near_support (nearest_levels_of technical_data) = Some (level, pips)
              /\ x = ApproachingSupport level pips
              /\ Qabs (current_price_of technical_data - level)
                 / current_price_of technical_data * 100
                 < config.ALERT_PROXIMITY_PERCENT)
        \/ In x (yield_alert correlation_analysis)
        \/ In x (dxy_alert correlation_analysis)
        \/ In x (news_alert news_events now)).
Proof.
  unfold check_alerts. intros Hc.
  destruct (proximity_alert _ (near_resistance _) _) as [near_r | ?] eqn:Er;
    cbn [Py.bind] in Hc; [| discriminate Hc].
  destruct (proximity_alert _ (near_support _) _) as [near_s | ?] eqn:Es;
    cbn [Py.bind] in Hc; [| discriminate Hc].
  injection Hc as <-.
  pose proof (proximity_alert_In _ _ _ _ Er) as Hr.
  pose proof (proximity_alert_In _ _ _ _ Es) as Hs.
  set (all := near_r ++ near_s ++ yield_alert correlation_analysis
              ++ dxy_alert correlation_analysis ++ news_alert news_events now).
  assert (Hall : forall x, In x all <->
            In x near_r \/ In x near_s \/ In x (yield_alert correlation_analysis)
            \/ In x (dxy_alert correlation_analysis)
            \/ In x (news_alert news_events now)).
  { intros x. unfold all. rewrite !in_app_iff. reflexivity. }
  assert (Hno : ~ In NoAlert all).
  { rewrite Hall, Hr, Hs, yield_alert_In, dxy_alert_In, news_alert_In.
    intros [(? & ? & _ & H & _) | [(? & ? & _ & H & _) | [(? & _ & H & _)
           | [(? & _ & H & _) | (? & ? & _ & H & _)]]]]; discriminate H. }
  split; [destruct all; discriminate |].
  split.
  { destruct all as [| a0 all']; [reflexivity |]. intros Hin. contradiction. }
  intros x Hx. rewrite <- Hr, <- Hs, <- Hall.
  destruct all as [| a0 all']; [| reflexivity].
  split; [intros [H | []]; congruence | intros []].
Qed.

Lemma check_alerts_ok (technical_data : TimeframeResult)
  (correlation_analysis : Analysis) (news_events : list NewsEvent) (now : Q) :
  ~ current_price_of technical_data == 0
  \/ nearest_levels_of technical_data = mkNearestLevels None None ->
  exists result,
    check_alerts technical_data correlation_analysis news_events now = Py.Ok result.
Proof.
  intros Hp. unfold check_alerts.
  destruct (proximity_alert_ok (current_price_of technical_data)
              (near_resistance (nearest_levels_of technical_data))
              ApproachingResistance) as [near_r ->].
  { destruct Hp as [Hp | ->]; [left; exact Hp | right; reflexivity]. }
  destruct (proximity_alert_ok (current_price_of technical_data)
              (near_support (nearest_levels_of technical_data))
              ApproachingSupport) as [near_s ->].
  { destruct Hp as [Hp | ->]; [left; exact Hp | right; reflexivity]. }
  cbn [Py.bind]. eauto.
Qed.

(** X25.  The alerts on an analysed timeframe.  With a positive price the call
    returns a non-empty list, which is the single entry "None" whenever it
    contains it; a level is announced exactly when it is the nearest one and
    within 0.2% of the price, a yield move exactly when it exceeds 5 basis
    points, a dollar move exactly when it exceeds 1%, and the next event
    exactly when it is less than 30 minutes away.  With a price of 0 and a
    nearest level the call raises [ZeroDivisionError]. *)
Theorem check_alerts_spec (a : TimeframeAnalysis)
  (correlation_analysis : Analysis) (news_events : list NewsEvent) (now : Q) :
  let price := ta_current_price a in
  (0 < price ->
   exists result,
     check_alerts (Analyzed a) correlation_analysis news_events now = Py.Ok result
     /\ result <> []
     /\ (In NoAlert result -> result = [NoAlert])
     /\ (forall level pips,
           In (ApproachingResistance level pips) result
           <-> near_resistance (ta_nearest_levels a) = Some (level, pips)
               /\ Qabs (price - level) / price * 100 < 0.2)
     /\ (forall level pips,
           In (ApproachingSupport level pips) result
           <-> near_support (ta_nearest_levels a) = Some (level, pips)
               /\ Qabs (price - level) / price * 100 < 0.2)
     /\ (forall bps,
           In (LargeYieldMove bps) result
           <-> exists y, a_yield correlation_analysis = Some y
                         /\ bps = Qabs (yield_change_bps y) /\ 5 < bps)
     /\ (forall pct,
           In (SignificantDXYMovement pct) result
           <-> exists d, a_dxy correlation_analysis = Some d
                         /\ pct = Qabs (dxy_percent_change d) /\ 1 < pct)
     /\ (forall minutes headline,
           In (HighImpactNews minutes headline) result
           <-> exists e rest,
                 news_events = e :: rest /\ headline = title e
                 /\ minutes = int_of ((time e - now) / 60)
                 /\ time e - now < 1800))
  /\ (price == 0 ->
      near_resistance (ta_nearest_levels a) <> None
      \/ near_support (ta_nearest_levels a) <> None ->
      check_alerts (Analyzed a) correlation_analysis news_events now
      = Py.Raise Py.ZeroDivisionError).
Proof.
  cbv zeta. split.
  - intros Hpos.
    destruct (check_alerts_ok (Analyzed a) correlation_analysis news_events now)
      as [result Hres]; [left; cbn [current_price_of]; lra |].
    exists result. split; [exact Hres |].
    destruct (check_alerts_inv _ _ _ _ _ Hres) as (Hne & Hnone & Hin).
    cbn [current_price_of nearest_levels_of] in Hin.
    unfold config.ALERT_PROXIMITY_PERCENT in Hin.
    split; [exact Hne |]. split; [exact Hnone |].
    split; [| split; [| split; [| split]]].
    + intros level pips. rewrite Hin by discriminate.
      rewrite yield_alert_In, dxy_alert_In, news_alert_In. split.
      * intros [(l & p & Hn & [= <- <-] & Hlt) | [(? & ? & _ & H & _)
               | [(? & _ & H & _) | [(? & _ & H & _) | (? & ? & _ & H & _)]]]];
          try discriminate H.
        split; assumption.
      * intros [Hn Hlt]. left. exists level, pips. auto.
    + intros level pips. rewrite Hin by discriminate.
      rewrite yield_alert_In, dxy_alert_In, news_alert_In. split.
      * intros [(? & ? & _ & H & _) | [(l & p & Hn & [= <- <-] & Hlt)
               | [(? & _ & H & _) | [(? & _ & H & _) | (? & ? & _ & H & _)]]]];
          try discriminate H.
        split; assumption.
      * intros [Hn Hlt]. right. left. exists level, pips. auto.
    + intros bps. rewrite Hin by discriminate.
      rewrite yield_alert_In, dxy_alert_In, news_alert_In.
      unfold config.YIELD_ALERT_BPS. split.
      * intros [(? & ? & _ & H & _) | [(? & ? & _ & H & _)
               | [(y & Hy & [= ->] & Hlt) | [(? & _ & H & _) | (? & ? & _ & H & _)]]]];
          try discriminate H.
        exists y. auto.
      * intros (y & Hy & -> & Hlt). right. right. left. exists y. auto.
    + intros pct. rewrite Hin by discriminate.
      rewrite yield_alert_In, dxy_alert_In, news_alert_In. split.
      * intros [(? & ? & _ & H & _) | [(? & ? & _ & H & _)
               | [(? & _ & H & _) | [(d & Hd & [= ->] & Hlt) | (? & ? & _ & H & _)]]]];
          try discriminate H.
        exists d. auto.
      * intros (d & Hd & -> & Hlt). right. right. right. left. exists d. auto.
    + intros minutes headline. rewrite Hin by discriminate.
      rewrite yield_alert_In, dxy_alert_In, news_alert_In. split.
      * intros [(? & ? & _ & H & _) | [(? & ? & _ & H & _)
               | [(? & _ & H & _) | [(? & _ & H & _) | (e & rest & He & [= -> ->] & Hlt)]]]];
          try discriminate H.
        exists e, rest. repeat split; try assumption; try reflexivity.
        assert (Heq : time e - now == (time e - now) / 60 * 60) by field.
        lra.
      * intros (e & rest & He & -> & -> & Hlt). right. right. right. right.
        exists e, rest. repeat split; try assumption.
        apply Qlt_shift_div_r; lra.
  - intros Hzero Hnear. unfold check_alerts.
    cbn [current_price_of nearest_levels_of]. unfold proximity_alert.
    destruct (near_resistance (ta_nearest_levels a)) as [[level pips] |].
    + rewrite div_zero by exact Hzero. reflexivity.
    + cbn [Py.bind].
      destruct (near_support (ta_nearest_levels a)) as [[level pips] |].
      * rewrite div_zero by exact Hzero. reflexivity.
      * destruct Hnear as [H | H]; contradiction.
Qed.

End AlertFacts.

(** ** [MarketAnalysisEngine.generate_market_snapshot] *)

Section SnapshotFacts.
Import TechnicalAnalyzer MarketAnalysisEngine.
Local Open Scope Q_scope.

(** The analysis of 20 or more candles with positive prices, field by
    field. *)
Lemma analyze_timeframe_eq (data : list Candle) (timeframe : string) :
  Forall (fun c => 0 < high c /\ 0 < low c /\ 0 < close c) data ->
  (20 <= length data)%nat ->
  exists latest c5 mas levels,
    last data = Some latest
    /\ data !! (length data - 5)%nat = Some c5
    /\ 0 < close latest /\ 0 < close c5
    /\ analyze_timeframe (Some data) timeframe
       = Py.Ok (Analyzed
           (let rsi :=
              Some (rsi_value
                (Py.sum (Py.slice_from (- config.RSI_PERIOD) (gains (map close data)))
                 / inject_Z config.RSI_PERIOD)
                (Py.sum (Py.slice_from (- config.RSI_PERIOD) (losses (map close data)))
                 / inject_Z config.RSI_PERIOD)) in
            mkTimeframeAnalysis timeframe (close latest)
              ((close latest - close c5) / close c5 * 100)
              rsi (get_rsi_status rsi) mas (get_ma_alignment mas (close latest))
              levels (find_nearest_levels (close latest) levels)
              (calculate_pivot_points data))).
Proof.
  intros Hpos Hlen. unfold analyze_timeframe.
  destruct (Z.ltb_spec (Z.of_nat (length data)) 20); [lia |].
  destruct (last data) as [latest |] eqn:Hlast;
    [| apply last_None in Hlast; subst data; cbn in Hlen; lia].
  assert (Hp : (1 <= config.RSI_PERIOD)%Z) by (unfold config.RSI_PERIOD; lia).
  rewrite (calculate_rsi_eq data config.RSI_PERIOD Hp)
    by (unfold config.RSI_PERIOD; lia).
  cbn [Py.bind].
  destruct (calculate_moving_average_total data 50 ltac:(lia)) as (o50 & E50 & _).
  destruct (calculate_moving_average_total data 200 ltac:(lia)) as (o200 & E200 & _).
  unfold calculate_moving_averages, config.MA_PERIODS.
  cbn [Py.foldM]. rewrite E50. cbn [Py.bind]. rewrite E200. cbn [Py.bind].
  destruct (identify_support_resistance_top5 data default_lookback)
    as (levels & Elev & _).
  { eapply Forall_impl; [exact Hpos |]. intros c (Hh & Hl & _). split; assumption. }
  { unfold default_lookback. lia. }
  rewrite Elev. cbn [Py.bind].
  destruct (Z.leb_spec 5 (Z.of_nat (length data))); [| lia].
  destruct (data !! (length data - 5)%nat) as [c5 |] eqn:E5;
    [| apply lookup_ge_None in E5; lia].
  assert (Hc5 : 0 < close c5).
  { rewrite Forall_forall in Hpos.
    apply (Hpos c5). eapply list_elem_of_lookup_2. exact E5. }
  assert (Hcl : 0 < close latest).
  { rewrite Forall_forall in Hpos.
    apply (Hpos latest). rewrite last_lookup in Hlast.
    eapply list_elem_of_lookup_2. exact Hlast. }
  rewrite div_nonzero by lra. cbn [Py.bind].
  exists latest, c5. eexists. exists levels.
  split; [reflexivity |]. split; [reflexivity |].
  split; [exact Hcl |]. split; [exact Hc5 |]. reflexivity.
Qed.

(** On positive prices the timeframe analysis returns, and an analysed
    timeframe has a positive price. *)
Lemma analyze_timeframe_total (price_data : option (list Candle)) (timeframe : string) :
  (forall data, price_data = Some data ->
     Forall (fun c => 0 < high c /\ 0 < low c /\ 0 < close c) data) ->
  exists technical_data,
    analyze_timeframe price_data timeframe = Py.Ok technical_data
    /\ match technical_data with
       | InsufficientData =>
           price_data = None
           \/ exists data, price_data = Some data /\ (length data < 20)%nat
       | Analyzed a =>
           0 < ta_current_price a
           /\ exists data, price_data = Some data /\ (20 <= length data)%nat
       end.
Proof.
  intros Hpos. destruct price_data as [data |].
  - destruct (Nat.lt_ge_cases (length data) 20) as [Hshort | Hlong].
    + exists InsufficientData. split; [| right; eauto].
      unfold analyze_timeframe.
      destruct (Z.ltb_spec (Z.of_nat (length data)) 20); [reflexivity | lia].
    + destruct (analyze_timeframe_eq data timeframe (Hpos data eq_refl) Hlong)
        as (latest & c5 & mas & levels & _ & _ & Hcl & _ & ->).
      eexists. split; [reflexivity |]. cbn [ta_current_price].
      split; [exact Hcl | eauto].
  - exists InsufficientData. split; [reflexivity | left; reflexivity].
Qed.

Lemma determine_primary_driver_range (technical_data : TechnicalData)
  (news_events : list NewsEvent) (correlation_analysis : Analysis) (now : Q) :
  In (determine_primary_driver technical_data news_events correlation_analysis now)
     ["Fundamental"; "Technical"; "Sentiment"].
Proof.
  unfold determine_primary_driver.
  repeat match goal with
         | |- context [if ?b then _ else _] => destruct b
         end; cbn; auto.
Qed.

(** X26.  The snapshot never fails on positive prices and numeric readings: it is
    produced whatever the candles, readings and news are; its primary
    driver is one of "Fundamental", "Technical" and "Sentiment" and its
    alert list is not empty.  With no 1h candles, or fewer than 20, the
    technical part is the insufficient-data marker, the momentum is "Weak
    Neutral" and no level alert is raised. *)
Theorem generate_market_snapshot_total (price_data_1h : option (list Candle))
  (correlation_data : gmap string Reading) (news_events : list NewsEvent)
  (now_driver now_alerts : Q) :
  (forall data, price_data_1h = Some data ->
     Forall (fun c => 0 < high c /\ 0 < low c /\ 0 < close c) data) ->
  numeric correlation_data ->
  exists s,
    generate_market_snapshot price_data_1h correlation_data news_events
      now_driver now_alerts = Py.Ok s
    /\ In (primary_driver s) ["Fundamental"; "Technical"; "Sentiment"]
    /\ alerts s <> []
    /\ ((price_data_1h = None
         \/ exists data, price_data_1h = Some data /\ (length data < 20)%nat) ->
        technical s = InsufficientData
        /\ description (momentum s) = "Weak Neutral"
        /\ forall level pips,
             ~ In (ApproachingResistance level pips) (alerts s)
             /\ ~ In (ApproachingSupport level pips) (alerts s)).
Proof.
  intros Hpos Hnum. unfold generate_market_snapshot.
  destruct (analyze_timeframe_total price_data_1h "1h" Hpos) as (td & -> & Htd).
  cbn [Py.bind].
  destruct (analyze_correlations_sections correlation_data Hnum)
    as (y & y2 & y30 & vix & dxy & risk & btc & _ & _ & _ & _ & _ & _ & _ & ->).
  cbn [Py.bind].
  set (ca := mkAnalysis _ _ _ _ _ _ _ _).
  destruct (check_alerts_ok td ca news_events now_alerts) as [result Hres].
  { destruct td as [| a]; [right; reflexivity | left].
    cbn [current_price_of]. destruct Htd as [Hp _]. lra. }
  rewrite Hres. cbn [Py.bind].
  destruct (check_alerts_inv _ _ _ _ _ Hres) as (Hne & _ & Hin).
  eexists. split; [reflexivity |].
  cbn [primary_driver alerts technical momentum].
  split; [apply determine_primary_driver_range |].
  split; [exact Hne |].
  intros Hshort.
  assert (Etd : td = InsufficientData).
  { destruct td as [| a]; [reflexivity |].
    destruct Htd as [_ (data & Hd & Hlen)].
    destruct Hshort as [Hn | (data' & Hd' & Hlen')]; [congruence |].
    rewrite Hd in Hd'. injection Hd' as <-. lia. }
  subst td. split; [reflexivity |]. split; [reflexivity |].
  cbn [nearest_levels_of near_resistance near_support] in Hin.
  intros level pips. split; intros Hx; apply Hin in Hx; try discriminate.
  - rewrite yield_alert_In, dxy_alert_In, news_alert_In in Hx.
    destruct Hx as [(? & ? & H & _) | [(? & ? & H & _)
           | [(? & _ & H & _) | [(? & _ & H & _) | (? & ? & _ & H & _)]]]];
      discriminate H.
  - rewrite yield_alert_In, dxy_alert_In, news_alert_In in Hx.
    destruct Hx as [(? & ? & H & _) | [(? & ? & H & _)
           | [(? & _ & H & _) | [(? & _ & H & _) | (? & ? & _ & H & _)]]]];
      discriminate H.
Qed.

Lemma generate_market_snapshot_total_witness :
  let data :=
    map (fun i : nat =>
           let p := inject_Z (Z.of_nat i) in
           mkCandle (Z.of_nat i) (2000 + p) (2002 + p) (1999 + p) (2001 + p) 100)
        (seq 0 25) in
  let correlation_data : gmap string Reading :=
    <["US10Y" := <["price" := Some 4.25]> (<["percent_change" := Some 2]> ∅)]>
      (<["VIX" := <["price" := Some 22]> ∅]> ∅) in
  let news_events := [mkNewsEvent "CPI" 600 "High"] in
  Forall (fun c => 0 < high c /\ 0 < low c /\ 0 < close c) data
  /\ numeric correlation_data
  /\ (exists s,
        generate_market_snapshot (Some data) correlation_data news_events 0 1
        = Py.Ok s
        /\ In (primary_driver s) ["Fundamental"; "Technical"; "Sentiment"]
        /\ alerts s <> []
        /\ ((Some data = None
             \/ exists data', Some data = Some data' /\ (length data' < 20)%nat) ->
            technical s = InsufficientData
            /\ description (momentum s) = "Weak Neutral"
            /\ forall level pips,
                 ~ In (ApproachingResistance level pips) (alerts s)
                 /\ ~ In (ApproachingSupport level pips) (alerts s)))
  /\ (exists s,
        generate_market_snapshot (Some (firstn 5 data)) correlation_data
          news_events 0 1 = Py.Ok s
        /\ In (primary_driver s) ["Fundamental"; "Technical"; "Sentiment"]
        /\ alerts s <> []
        /\ technical s = InsufficientData
        /\ description (momentum s) = "Weak Neutral"
        /\ forall level pips,
             ~ In (ApproachingResistance level pips) (alerts s)
             /\ ~ In (ApproachingSupport level pips) (alerts s)).
Proof.
  intros data correlation_data news_events.
  assert (Hpos : Forall (fun c => 0 < high c /\ 0 < low c /\ 0 < close c) data)
    by (vm_compute; repeat constructor).
  assert (Hpos5 : Forall (fun c => 0 < high c /\ 0 < low c /\ 0 < close c)
                    (firstn 5 data))
    by (vm_compute; repeat constructor).
  assert (Hnum : numeric correlation_data).
  { apply numeric_insert;
      [do 2 apply numeric_reading_insert; apply numeric_reading_empty |].
    apply numeric_insert;
      [apply numeric_reading_insert, numeric_reading_empty |].
    apply numeric_empty. }
  assert (H1 : forall d, Some data = Some d ->
                 Forall (fun c => 0 < high c /\ 0 < low c /\ 0 < close c) d)
    by (intros d [= <-]; exact Hpos).
  assert (H5 : forall d, Some (firstn 5 data) = Some d ->
                 Forall (fun c => 0 < high c /\ 0 < low c /\ 0 < close c) d)
    by (intros d [= <-]; exact Hpos5).
  split; [exact Hpos |]. split; [exact Hnum |]. split.
  - exact (generate_market_snapshot_total (Some data) correlation_data
             news_events 0 1 H1 Hnum).
  - destruct (generate_market_snapshot_total (Some (firstn 5 data))
                correlation_data news_events 0 1 H5 Hnum)
      as (s & Hs & Hin & Hne & Hshort).
    exists s. split; [exact Hs |]. split; [exact Hin |]. split; [exact Hne |].
    apply Hshort. right. exists (firstn 5 data).
    split; [reflexivity | vm_compute; lia].
Defined.

(** The snapshot of 25 rising 1h candles, a 10-year yield that moved by 200
    basis points, a VIX of 22 and a release due in ten minutes. *)
Example generate_market_snapshot_example :
  let data :=
    map (fun i : nat =>
           let p := inject_Z (Z.of_nat i) in
           mkCandle (Z.of_nat i) (2000 + p) (2002 + p) (1999 + p) (2001 + p) 100)
        (seq 0 25) in
  let correlation_data : gmap string Reading :=
    <["US10Y" := <["price" := Some 4.25]> (<["percent_change" := Some 2]> ∅)]>
      (<["VIX" := <["price" := Some 22]> ∅]> ∅) in
  exists s,
    generate_market_snapshot (Some data) correlation_data
      [mkNewsEvent "CPI" 600 "High"] 0 1 = Py.Ok s
    /\ primary_driver s = "Fundamental"
    /\ description (momentum s) = "Weak Bullish"
    /\ alerts s = [ApproachingResistance 2026 10; LargeYieldMove 200;
                   HighImpactNews 9 "CPI"]
    /\ exists a, technical s = Analyzed a
         /\ ta_current_price a = 2025
         /\ ta_support_resistance a = mkLevels [2026] [1999].
Proof.
  eexists. split; [vm_compute; reflexivity |].
  repeat split. eexists. repeat split.
Qed.

Lemma in_list_rsi_status (technical_data : TimeframeResult) :
  in_list (rsi_status (technical_data_of technical_data)) ["Overbought"; "Oversold"]
  = true ->
  exists a, technical_data = Analyzed a
            /\ (ta_rsi_status a = "Overbought" \/ ta_rsi_status a = "Oversold").
Proof.
  destruct technical_data as [| a]; cbn; [discriminate |].
  rewrite orb_false_r. intros H. apply orb_true_iff in H.
  exists a. split; [reflexivity |].
  destruct H as [H | H]; apply String.eqb_eq in H; auto.
Qed.

(** X27.  The alerts and the primary driver of one snapshot agree, as long as
    the alerts are computed at most 30 minutes after the driver.  An
    upcoming-news alert comes with the driver "Fundamental"; a yield alert
    comes with "Fundamental" unless the RSI is overbought or oversold, in
    which case the driver is "Technical"; a dollar alert comes with
    "Sentiment" or "Fundamental", and with "Technical" only when the RSI is
    overbought or oversold. *)
Theorem generate_market_snapshot_alerts_driver
  (price_data_1h : option (list Candle))
  (correlation_data : gmap string Reading) (news_events : list NewsEvent)
  (now_driver now_alerts : Q) (s : Snapshot) :
  generate_market_snapshot price_data_1h correlation_data news_events
    now_driver now_alerts = Py.Ok s ->
  now_alerts - now_driver <= 1800 ->
  let rsi_extreme :=
    exists a, technical s = Analyzed a
              /\ (ta_rsi_status a = "Overbought" \/ ta_rsi_status a = "Oversold") in
  (forall minutes headline,
     In (HighImpactNews minutes headline) (alerts s) ->
     primary_driver s = "Fundamental")
  /\ (forall bps,
        In (LargeYieldMove bps) (alerts s) ->
        primary_driver s = "Fundamental"
        \/ (primary_driver s = "Technical" /\ rsi_extreme))
  /\ (forall pct,
        In (SignificantDXYMovement pct) (alerts s) ->
        primary_driver s = "Sentiment" \/ primary_driver s = "Fundamental"
        \/ (primary_driver s = "Technical" /\ rsi_extreme)).
Proof.
  unfold generate_market_snapshot. intros Hs Hclock. cbv zeta.
  destruct (analyze_timeframe price_data_1h "1h") as [td | ?];
    cbn [Py.bind] in Hs; [| discriminate Hs].
  destruct (analyze_correlations correlation_data) as [ca | ?];
    cbn [Py.bind] in Hs; [| discriminate Hs].
  destruct (check_alerts td ca news_events now_alerts) as [result | ?] eqn:Hres;
    cbn [Py.bind] in Hs; [| discriminate Hs].
  injection Hs as <-. cbn [primary_driver alerts technical].
  destruct (check_alerts_inv _ _ _ _ _ Hres) as (_ & _ & Hin).
  split; [| split].
  - intros minutes headline Hx. apply Hin in Hx; [| discriminate].
    rewrite yield_alert_In, dxy_alert_In, news_alert_In in Hx.
    destruct Hx as [(? & ? & _ & H & _) | [(? & ? & _ & H & _)
           | [(? & _ & H & _) | [(? & _ & H & _) | (e & rest & -> & _ & Hlt)]]]];
      try discriminate H.
    unfold determine_primary_driver.
    assert (Hsoon : Py.ltb ((time e - now_driver) / 60) 60 = true).
    { apply ltb_spec. apply Qlt_shift_div_r; [reflexivity |].
      assert (Heq : time e - now_alerts == (time e - now_alerts) / 60 * 60) by field.
      lra. }
    rewrite Hsoon. reflexivity.
  - intros bps Hx. apply Hin in Hx; [| discriminate].
    rewrite yield_alert_In, dxy_alert_In, news_alert_In in Hx.
    destruct Hx as [(? & ? & _ & H & _) | [(? & ? & _ & H & _)
           | [(y & Hy & _ & Hlt) | [(? & _ & H & _) | (? & ? & _ & H & _)]]]];
      try discriminate H.
    unfold determine_primary_driver.
    destruct (match news_events with [] => false | _ => _ end);
      [left; reflexivity |].
    destruct (in_list _ _) eqn:Ersi.
    + right. split; [reflexivity |]. apply in_list_rsi_status. exact Ersi.
    + rewrite Hy. apply gtb_spec in Hlt. unfold config.YIELD_ALERT_BPS in Hlt.
      rewrite Hlt. left. reflexivity.
  - intros pct Hx. apply Hin in Hx; [| discriminate].
    rewrite yield_alert_In, dxy_alert_In, news_alert_In in Hx.
    destruct Hx as [(? & ? & _ & H & _) | [(? & ? & _ & H & _)
           | [(? & _ & H & _) | [(d & Hd & _ & Hlt) | (? & ? & _ & H & _)]]]];
      try discriminate H.
    unfold determine_primary_driver.
    destruct (match news_events with [] => false | _ => _ end);
      [right; left; reflexivity |].
    destruct (in_list _ _) eqn:Ersi.
    + right. right. split; [reflexivity |]. apply in_list_rsi_status. exact Ersi.
    + destruct (match a_yield ca with Some _ => _ | None => false end);
        [right; left; reflexivity |].
      rewrite Hd.
      assert (Hbig : Py.gtb (Qabs (dxy_percent_change d)) 0.5 = true)
        by (apply gtb_spec; lra).
      rewrite Hbig. left. reflexivity.
Qed.

Lemma generate_market_snapshot_alerts_driver_witness :
  let news := [mkNewsEvent "NFP" 600 "High"] in
  let s :=
    mkSnapshot "Fundamental" (mkMomentum "Weak" "Neutral" "Weak Neutral")
      InsufficientData (mkAnalysis None None None None None None None None)
      [HighImpactNews 9 "NFP"] in
  generate_market_snapshot None ∅ news 0 1 = Py.Ok s
  /\ 1 - 0 <= 1800
  /\ (forall minutes headline,
        In (HighImpactNews minutes headline) (alerts s) ->
        primary_driver s = "Fundamental").
Proof.
  set (news := [mkNewsEvent "NFP" 600 "High"]).
  set (s := mkSnapshot "Fundamental" (mkMomentum "Weak" "Neutral" "Weak Neutral")
              InsufficientData (mkAnalysis None None None None None None None None)
              [HighImpactNews 9 "NFP"]).
  assert (H1 : generate_market_snapshot None ∅ news 0 1 = Py.Ok s)
    by (vm_compute; reflexivity).
  assert (H2 : 1 - 0 <= 1800) by discriminate.
  split; [exact H1 |]. split; [exact H2 |].
  exact (proj1 (generate_market_snapshot_alerts_driver None ∅ news 0 1 s H1 H2)).
Defined.

Lemma losses_nondecreasing (closes : list Q) :
  Sorted Qle closes -> Forall (fun x => x == 0) (losses closes).
Proof.
  induction 1 as [| a l Hs IH Hhd]; [constructor |].
  destruct Hhd as [| b l Hab]; cbn [losses]; constructor; [| exact IH].
  unfold Py.max2. destruct (Qlt_le_dec (- (b - a)) 0); [reflexivity | lra].
Qed.

Lemma sorted_le_lookup (l : list Q) :
  Sorted Qle l ->
  forall i j x y, (i <= j)%nat -> l !! i = Some x -> l !! j = Some y -> x <= y.
Proof.
  intros Hs. apply Sorted_StronglySorted in Hs; [| intros a b c; apply Qle_trans].
  induction Hs as [| a l Hs IH Hall]; intros i j x y Hij Hi Hj.
  - rewrite lookup_nil in Hi. discriminate Hi.
  - destruct i as [| i], j as [| j]; cbn in Hi, Hj.
    + injection Hi as <-. injection Hj as <-. apply Qle_refl.
    + injection Hi as <-. rewrite List.Forall_forall in Hall. apply Hall.
      apply list_elem_of_In. eapply list_elem_of_lookup_2. exact Hj.
    + lia.
    + eapply (IH i j); [lia | exact Hi | exact Hj].
Qed.

Lemma lookup_map_close (data : list Candle) (i : nat) (c : Candle) :
  data !! i = Some c -> map close data !! i = Some (close c).
Proof.
  revert i. induction data as [| d data IH]; intros [| i] H; cbn in *;
    try discriminate H.
  - injection H as ->. reflexivity.
  - apply IH. exact H.
Qed.

(** X28.  A market that never closes lower.  With 20 or more 1h candles at
    positive prices, none closing below its predecessor (a flat feed
    included), numeric readings and no event within the hour, the snapshot
    is produced with an RSI of exactly 100 and the status "Overbought", so
    the primary driver is "Technical" whatever the yields and the dollar
    do; the momentum is "Bullish" exactly when the last close is above the
    close four candles earlier and "Neutral" otherwise, never "Bearish". *)
Theorem generate_market_snapshot_no_losses (data : list Candle)
  (correlation_data : gmap string Reading) (news_events : list NewsEvent)
  (now_driver now_alerts : Q) :
  Forall (fun c => 0 < high c /\ 0 < low c /\ 0 < close c) data ->
  (20 <= length data)%nat ->
  Sorted Qle (map close data) ->
  numeric correlation_data ->
  (forall e rest, news_events = e :: rest -> 3600 <= time e - now_driver) ->
  exists s a latest c5,
    generate_market_snapshot (Some data) correlation_data news_events
      now_driver now_alerts = Py.Ok s
    /\ technical s = Analyzed a
    /\ ta_rsi a = Some 100
    /\ ta_rsi_status a = "Overbought"
    /\ primary_driver s = "Technical"
    /\ last data = Some latest
    /\ data !! (length data - 5)%nat = Some c5
    /\ (direction (momentum s) = "Bullish" <-> close c5 < close latest)
    /\ (direction (momentum s) = "Neutral" <-> close c5 == close latest)
    /\ direction (momentum s) <> "Bearish".
Proof.
  intros Hpos Hlen Hsorted Hnum Hnews. unfold generate_market_snapshot.
  destruct (analyze_timeframe_eq data "1h" Hpos Hlen)
    as (latest & c5 & mas & levels & Hlast & Hc5 & Hcl & Hc5pos & ->).
  cbn [Py.bind].
  assert (Hrsi : rsi_value
            (Py.sum (Py.slice_from (- config.RSI_PERIOD) (gains (map close data)))
             / inject_Z config.RSI_PERIOD)
            (Py.sum (Py.slice_from (- config.RSI_PERIOD) (losses (map close data)))
             / inject_Z config.RSI_PERIOD) = 100).
  { unfold rsi_value.
    pose proof (sum_zero _ (slice_from_Forall _ (- config.RSI_PERIOD) _
                  (losses_nondecreasing _ Hsorted))) as Hz.
    assert (E : Py.sum (Py.slice_from (- config.RSI_PERIOD) (losses (map close data)))
                / inject_Z config.RSI_PERIOD == 0)
      by (rewrite Hz; unfold Qdiv; ring).
    apply Qeq_bool_iff in E. rewrite E. reflexivity. }
  cbv zeta. rewrite Hrsi.
  change (get_rsi_status (Some 100)) with "Overbought".
  destruct (analyze_correlations_sections correlation_data Hnum)
    as (y & y2 & y30 & vix & dxy & risk & btc & _ & _ & _ & _ & _ & _ & _ & ->).
  cbn [Py.bind].
  set (ca := mkAnalysis _ _ _ _ _ _ _ _).
  set (a := mkTimeframeAnalysis _ _ _ _ _ _ _ _ _ _).
  destruct (check_alerts_ok (Analyzed a) ca news_events now_alerts) as [result ->].
  { left. cbn [current_price_of a ta_current_price]. lra. }
  cbn [Py.bind].
  assert (Hle : close c5 <= close latest).
  { rewrite last_lookup in Hlast.
    apply (sorted_le_lookup _ Hsorted (length data - 5) (pred (length data)));
      [lia | apply lookup_map_close; exact Hc5 | apply lookup_map_close; exact Hlast]. }
  eexists. exists a, latest, c5. split; [reflexivity |].
  cbn [technical primary_driver momentum].
  split; [reflexivity |]. split; [reflexivity |]. split; [reflexivity |].
  split.
  { unfold determine_primary_driver.
    assert (Hfar : match news_events with
                   | [] => false
                   | next_event :: _ => Py.ltb ((time next_event - now_driver) / 60) 60
                   end = false).
    { destruct news_events as [| e rest]; [reflexivity |].
      apply ltb_false. apply Qle_shift_div_l; [reflexivity |].
      pose proof (Hnews e rest eq_refl). lra. }
    rewrite Hfar. reflexivity. }
  split; [exact Hlast |]. split; [exact Hc5 |].
  unfold determine_momentum. cbn [direction a ta_price_change_1h].
  set (change := (close latest - close c5) / close c5 * 100).
  assert (Hchange : change == (close latest - close c5) * (100 / close c5))
    by (unfold change; field; lra).
  assert (Hk : 0 < 100 / close c5) by (apply Qlt_shift_div_l; lra).
  destruct (Py.gtb change 0) eqn:Eg.
  - apply gtb_spec in Eg.
    split; [split; [intros _; nra | reflexivity] |].
    split; [split; [discriminate | intros; nra] | discriminate].
  - apply gtb_false in Eg.
    destruct (Py.ltb change 0) eqn:El.
    + apply ltb_spec in El. nra.
    + split; [split; [discriminate | intros; nra] |].
      split; [split; [intros _; nra | reflexivity] | discriminate].
Qed.

Lemma generate_market_snapshot_no_losses_witness :
  let data := map (fun i => mkCandle (Z.of_nat i) 2000 2001 1999 2000 0) (seq 0 20) in
  Forall (fun c => 0 < high c /\ 0 < low c /\ 0 < close c) data
  /\ (20 <= length data)%nat
  /\ Sorted Qle (map close data)
  /\ exists s a latest c5,
       generate_market_snapshot (Some data) ∅ [] 0 1 = Py.Ok s
       /\ technical s = Analyzed a
       /\ ta_rsi a = Some 100
       /\ ta_rsi_status a = "Overbought"
       /\ primary_driver s = "Technical"
       /\ last data = Some latest
       /\ data !! (length data - 5)%nat = Some c5
       /\ (direction (momentum s) = "Bullish" <-> close c5 < close latest)
       /\ (direction (momentum s) = "Neutral" <-> close c5 == close latest)
       /\ direction (momentum s) <> "Bearish".
Proof.
  set (data := map (fun i => mkCandle (Z.of_nat i) 2000 2001 1999 2000 0) (seq 0 20)).
  assert (Hpos : Forall (fun c => 0 < high c /\ 0 < low c /\ 0 < close c) data)
    by (repeat constructor).
  assert (Hlen : (20 <= length data)%nat) by (cbn; lia).
  assert (Hsorted : Sorted Qle (map close data))
    by (cbn; repeat (constructor; try discriminate)).
  assert (Hnews : forall (e : NewsEvent) rest, [] = e :: rest -> 3600 <= time e - 0)
    by (intros e rest He; discriminate He).
  split; [exact Hpos |]. split; [exact Hlen |]. split; [exact Hsorted |].
  exact (generate_market_snapshot_no_losses data ∅ [] 0 1
           Hpos Hlen Hsorted numeric_empty Hnews).
Defined.

End SnapshotFacts.

(** ** [MarketAnalysisEngine.determine_momentum] on analysed candles *)

Section MomentumFacts.
Import TechnicalAnalyzer MarketAnalysisEngine.
Local Open Scope Q_scope.



End MomentumFacts.
